(** * ytdlp-icli: the format-selection workflow of [ytdlp-icli.py]

    A shallow embedding of the script: the probe record as Python objects
    in a store (the selectors write into the very dictionaries the probe
    record holds), the external tools and the user as an environment of
    oracles, console and process activity as a trace of events, and
    Python exceptions as an error result. *)

From Stdlib Require Import ZArith String Ascii List Lia.
From stdpp Require Import base option list strings pretty gmap.

Local Open Scope string_scope.
Local Open Scope list_scope.

(** ** Python [str] primitives

    A [string] stands for a Python [str] whose code points are below 256
    (one [ascii] per code point). *)
Module PyStr.

(** [str.isspace] on one code point: TAB..CR, FS..US, SPACE, NEL, NBSP. *)
Definition isspace (c : ascii) : bool :=
  let n := N_of_ascii c in
  ((9 <=? n) && (n <=? 13) || (28 <=? n) && (n <=? 32)
   || (n =? 133) || (n =? 160))%N.

(** [str.isdigit] on one code point: 0..9 and the superscripts 2, 3, 1. *)
Definition isdigit_char (c : ascii) : bool :=
  let n := N_of_ascii c in
  ((48 <=? n) && (n <=? 57) || (n =? 178) || (n =? 179) || (n =? 185))%N.

Fixpoint all_chars (p : ascii -> bool) (s : string) : bool :=
  match s with
  | EmptyString => true
  | String c s' => p c && all_chars p s'
  end.

(** [s.isdigit()]: at least one character, all of them digits. *)
Definition isdigit (s : string) : bool :=
  match s with
  | EmptyString => false
  | _ => all_chars isdigit_char s
  end.

Fixpoint lstrip (s : string) : string :=
  match s with
  | String c s' => if isspace c then lstrip s' else s
  | EmptyString => EmptyString
  end.

Definition rstrip (s : string) : string :=
  String.rev (lstrip (String.rev s)).

(** [s.strip()] *)
Definition strip (s : string) : string := rstrip (lstrip s).

(** [s.ljust(width)], what the format spec [:<width] does to a str. *)
Definition ljust (width : nat) (s : string) : string :=
  s +:+ string_of_list_ascii (repeat " "%char (width - String.length s)).

Fixpoint contains_char (c : ascii) (s : string) : bool :=
  match s with
  | EmptyString => false
  | String d s' => if Ascii.eqb c d then true else contains_char c s'
  end.

(** [s.rfind(".")], [None] for -1. *)
Fixpoint rfind_dot (s : string) : option nat :=
  match s with
  | EmptyString => None
  | String c s' =>
      match rfind_dot s' with
      | Some i => Some (S i)
      | None => if Ascii.eqb c "."%char then Some 0 else None
      end
  end.

(** [sep.join(parts)] *)
Fixpoint join (sep : string) (parts : list string) : string :=
  match parts with
  | [] => ""
  | [p] => p
  | p :: rest => p +:+ sep +:+ join sep rest
  end.

End PyStr.

Arguments PyStr.strip : simpl never.
Arguments PyStr.join : simpl never.
Arguments PyStr.ljust : simpl never.

(** ** Numbers of the host language and of quantiphy

    Python floats, their conversions and the text quantiphy prints for a
    [Quantity] are not code of the script; they are an interface. *)
Class Numerics := {
  float : Type;
  (** [float(n)] for an int; [None] is OverflowError *)
  float_of_int : Z -> option float;
  (** [float(s)] for a str; [None] is ValueError *)
  float_of_str : string -> option float;
  (** truth value of a float *)
  float_bool : float -> bool;
  (** [str(x)] for a float *)
  float_str : float -> string;
  (** [str(Quantity(number, units))] *)
  quantity_str : Z + float -> string -> string
}.

(** ** Python values found in the probe record and in menu options *)
Inductive pyval `{Numerics} : Type :=
| PNone
| PBool (b : bool)
| PInt (z : Z)
| PFloat (x : float)
| PStr (s : string)
  (** a quantiphy [Quantity]: a float with units *)
| PQuantity (number : Z + float) (units : string)
  (** a nested array or object of the probe record, kept by its truth
      value and its [str()] *)
| PJson (truth : bool) (text : string).

(** Python exceptions the workflow can end with. *)
Inductive exn :=
| SystemExit
| AttributeError
| TypeError
| ValueError
| KeyError (key : string)
| FileNotFoundError.

#[global] Instance exn_eq_dec : EqDecision exn.
Proof. solve_decision. Defined.

Inductive result (A : Type) :=
| Ok (a : A)
| Raise (e : exn).
Arguments Ok {A} a.
Arguments Raise {A} e.

(** A Python dict with str keys. *)
Abbreviation pydict := (gmap string pyval).

Section Values.
Context `{Numerics}.

(** [float(v)]; [None] when it raises. *)
Definition py_float (v : pyval) : option float :=
  match v with
  | PNone => None
  | PBool b => float_of_int (Z.b2z b)
  | PInt z => float_of_int z
  | PFloat x => Some x
  | PStr s => float_of_str s
  | PQuantity (inl z) _ => float_of_int z
  | PQuantity (inr x) _ => Some x
  | PJson _ _ => None
  end.

(** [bool(v)] *)
Definition truthy (v : pyval) : bool :=
  match v with
  | PNone => false
  | PBool b => b
  | PInt z => negb (z =? 0)%Z
  | PFloat x => float_bool x
  | PStr s => negb (String.eqb s "")
  | PQuantity (inl z) _ => negb (z =? 0)%Z
  | PQuantity (inr x) _ => float_bool x
  | PJson t _ => t
  end.

(** [str(v)] *)
Definition py_str (v : pyval) : string :=
  match v with
  | PNone => "None"
  | PBool true => "True"
  | PBool false => "False"
  | PInt z => pretty z
  | PFloat x => float_str x
  | PStr s => s
  | PQuantity n u => quantity_str n u
  | PJson _ t => t
  end.

(** [v == s] for a str [s] *)
Definition eq_str (v : pyval) (s : string) : bool :=
  match v with
  | PStr s' => String.eqb s' s
  | _ => false
  end.

(** [d.get(key)] and [d.get(key, dflt)] *)
Definition get (d : pydict) (key : string) : pyval := default PNone (d !! key).
Definition get_or (d : pydict) (key : string) (dflt : pyval) : pyval :=
  default dflt (d !! key).

(** [get_quantity(number, model, info)] *)
Definition get_quantity (number : pyval) (model : string) (info : option string)
  : pyval :=
  match py_float number with
  | Some x => PQuantity (inr x) model
  | None =>
      match info with
      | Some i => PStr i
      | None => PQuantity (inl 0%Z) model
      end
  end.

End Values.

(** ** Paths, menu options, processes *)

(** A [pathlib] path as parsed on the host: the text of the parent part
    and the final component. *)
Record Path := { parent : string; name : string }.

(** [pick.Option(label, value, description)] *)
Record PickOption `{Numerics} := {
  label : string;
  value : pyval;
  description : option string
}.

(** One item of what a [for] of the fetch goes through: a JSON object,
    or a value of another kind (null, a number, a string, an array),
    which has no [.get]. An object is given by [A]: its entries in a
    JSON text, its reference in the store. *)
Inductive json_item (A : Type) :=
| JObject (object : A)
| JOther.
Arguments JObject {A} object.
Arguments JOther {A}.

(** the objects among the items, in order *)
Definition objects {A : Type} (items : list (json_item A)) : list A :=
  omap (fun item => match item with JObject o => Some o | JOther => None end) items.
Arguments objects {A} items : simpl never.

(** A JSON object printed by the probe, by the three keys the script
    reads; nothing is assumed of it.

    [j_filename] is [Path(filename)] for a str under [filename], and
    [None] when there is none (the key is missing, or holds null, a
    number, ...), on which [Path] raises a TypeError.

    [j_formats] and [j_thumbnails] are what [for] finds under [formats]
    and [thumbnails]: [None] when there is nothing to go through (the
    key is missing, or holds null, a number or a boolean), which is a
    TypeError; the elements of an array; and for a string or an object
    its characters or its keys, which are strings, so no objects. *)
Record json_doc `{Numerics} := {
  j_filename : option Path;
  j_formats : option (list (json_item pydict));
  j_thumbnails : option (list (json_item pydict))
}.

(** What [json.loads] makes of a text. *)
Inductive json_text `{Numerics} :=
  (** no JSON text: [json.loads] raises a ValueError *)
| NotJson
  (** a JSON value that is no object: null, a number, a string, an array *)
| NotObject
| Object (doc : json_doc).

(** [subprocess.CompletedProcess]; [stdout] by what [json.loads] makes
    of it. *)
Record CompletedProcess `{Numerics} := {
  returncode : Z;
  stdout : json_text;
  stderr : string
}.

(** What the run does to the outside, in order. *)
Inductive event `{Numerics} :=
| EPrint (line : string)
| EInput (prompt : string)
| EChdir (dir : string)
| ERun (command : list string)
| EPopen (command : list string)
| EExists (path : Path)
| EPick (title : string) (options : list PickOption) (default_index : nat).

(** What the outside answers. *)
Record Env `{Numerics} := {
  (** [CONFIG["output_dirpath"].absolute()] and whether it exists *)
  output_dirpath : Path;
  outdir_exists : bool;
  (** [sp.run(command, capture_output=True)] *)
  sp_run : list string -> result CompletedProcess;
  (** exit status of [sp.Popen(command).wait()] *)
  popen_wait : list string -> Z;
  (** the line typed at [input(prompt)] *)
  typed : string -> string;
  (** in the menu with this title, how often the user moves the cursor
      down (wrapping around) before confirming *)
  cursor_downs : string -> nat;
  (** [path.exists()] once the download has run *)
  exists_after : Path -> bool;
  (** [str(path)] and [path.absolute()] *)
  path_str : Path -> string;
  absolute : Path -> Path
}.

(** ** The store and the monad of the workflow

    Dictionaries of the probe record live in a store and are passed
    around by reference, as Python does. *)
Record world `{Numerics} := {
  heap : list pydict;
  out : list event
}.

Definition M `{Numerics} (A : Type) : Type := world -> result A * world.

#[global] Instance M_ret `{Numerics} : MRet M := fun A a w => (Ok a, w).

#[global] Instance M_bind `{Numerics} : MBind M := fun A B k m w =>
  match m w with
  | (Ok a, w') => k a w'
  | (Raise e, w') => (Raise e, w')
  end.

Section Monad.
Context `{Numerics}.

Definition raise {A : Type} (e : exn) : M A := fun w => (Raise e, w).

Definition emit (e : event) : M unit := fun w =>
  (Ok tt, {| heap := heap w; out := out w ++ [e] |}).

(** a fresh dict object *)
Definition alloc (d : pydict) : M nat := fun w =>
  (Ok (length (heap w)), {| heap := heap w ++ [d]; out := out w |}).

(** the dict a reference points to *)
Definition load (fmt : nat) : M pydict := fun w => (Ok (heap w !!! fmt), w).

(** [fmt[key] = v] *)
Definition setitem (fmt : nat) (key : string) (v : pyval) : M unit := fun w =>
  (Ok tt, {| heap := <[fmt := <[key := v]> (heap w !!! fmt)]> (heap w);
             out := out w |}).

Definition lift {A : Type} (r : result A) : M A := fun w => (r, w).

(** [try: body / except e: handler] *)
Definition try_except {A : Type} (body : M A) (e : exn) (handler : M A) : M A :=
  fun w =>
    match body w with
    | (Raise e', w') => if decide (e' = e) then handler w' else (Raise e', w')
    | r => r
    end.

(** the items of a parsed array: every object is a fresh dict *)
Fixpoint alloc_items (items : list (json_item pydict)) : M (list (json_item nat)) :=
  match items with
  | [] => mret []
  | JObject d :: rest =>
      l ← alloc d; ls ← alloc_items rest; mret (JObject l :: ls)
  | JOther :: rest =>
      ls ← alloc_items rest; mret (JOther :: ls)
  end.

Definition alloc_value (value : option (list (json_item pydict)))
  : M (option (list (json_item nat))) :=
  match value with
  | None => mret None
  | Some items => ls ← alloc_items items; mret (Some ls)
  end.

End Monad.

(** ** The script *)

Definition ESC : string := String (ascii_of_nat 27) "".
Definition Fore_RED : string := ESC +:+ "[31m".
Definition Fore_GREEN : string := ESC +:+ "[32m".
Definition Style_DIM : string := ESC +:+ "[2m".

(** [CONFIG], but for [output_dirpath], which the environment holds. *)
Record Config := {
  ffmpeg_bin : string;
  ytdlp_bin : string;
  audio_format : option string;
  video_format : option string;
  thumbnail_format : option string
}.

Definition CONFIG : Config := {|
  ffmpeg_bin := "ffmpeg";
  ytdlp_bin := "yt-dlp";
  audio_format := Some "best";
  video_format := Some "best";
  thumbnail_format := None
|}.

(** The parsed probe record, an object of the run: what it holds under
    [filename], [formats] and [thumbnails], as in [json_doc], with the
    objects of the two lists as references into the store. *)
Record Metadata := {
  md_filename : option Path;
  md_formats_value : option (list (json_item nat));
  md_thumbnails_value : option (list (json_item nat))
}.

(** the descriptors of the record: the objects of its [formats] and of
    its [thumbnails] *)
Definition md_formats (md : Metadata) : list nat :=
  objects (default [] (md_formats_value md)).

Definition md_thumbnails (md : Metadata) : list nat :=
  objects (default [] (md_thumbnails_value md)).

(** [value.get(...)]: only an object has it; [None] is any other value *)
Definition py_object {A : Type} (value : option A) : result A :=
  match value with
  | Some object => Ok object
  | None => Raise AttributeError
  end.

Definition item_object {A : Type} (item : json_item A) : result A :=
  match item with
  | JObject object => Ok object
  | JOther => Raise AttributeError
  end.

(** [for fmt in value]: [None] is a value that cannot be gone through *)
Definition py_iter {A : Type} (value : option (list A)) : result (list A) :=
  match value with
  | Some items => Ok items
  | None => Raise TypeError
  end.

(** [Path(filename)]: [None] is a value that is no str *)
Definition py_path (filename : option Path) : result Path :=
  match filename with
  | Some path => Ok path
  | None => Raise TypeError
  end.

(** The dict [request_ytdlp_metadata] returns. *)
Record Formats := {
  audio : list nat;
  video : list nat;
  image : list nat;
  metadata : Metadata
}.

(** [path.suffix] of the final component *)
Definition suffix (p : Path) : string :=
  match PyStr.rfind_dot (name p) with
  | Some i =>
      if ((0 <? i) && (i <? String.length (name p) - 1))%nat
      then String.substring i (String.length (name p) - i) (name p)
      else ""
  | None => ""
  end.

(** [path.with_suffix(suffix)] *)
Definition with_suffix (p : Path) (sfx : string) : result Path :=
  if PyStr.contains_char "/"%char sfx then Raise ValueError
  else if negb (String.eqb sfx "") && negb (String.prefix "." sfx)
          || String.eqb sfx "."
  then Raise ValueError
  else if String.eqb (name p) "" then Raise ValueError
  else
    let old := suffix p in
    Ok {| parent := parent p;
          name := String.substring 0 (String.length (name p) - String.length old)
                    (name p) +:+ sfx |}.

Section Script.
Context `{Numerics}.
Variable env : Env.

Definition print (line : string) : M unit := emit (EPrint line).

Definition input (prompt : string) : M string :=
  emit (EInput prompt);; mret (typed env prompt).

Definition print_command (command : list string) : M unit :=
  print (Style_DIM +:+ "$ " +:+ PyStr.join " " command).

Definition run_command (command : list string) : M CompletedProcess :=
  print_command command;;
  emit (ERun command);;
  lift (sp_run env command).

(** [json.loads(process.stdout)]: every object of the record is a fresh
    dict; [None] is a value that is no object. *)
Definition json_loads (text : json_text) : M (option Metadata) :=
  match text with
  | NotJson => raise ValueError
  | NotObject => mret None
  | Object doc =>
      fs ← alloc_value (j_formats doc);
      ts ← alloc_value (j_thumbnails doc);
      mret (Some {| md_filename := j_filename doc;
                    md_formats_value := fs;
                    md_thumbnails_value := ts |})
  end.

(** [v.strip()], which only a str has *)
Definition str_strip (v : pyval) : M string :=
  match v with
  | PStr s => mret (PyStr.strip s)
  | _ => raise AttributeError
  end.

(** the loop over [metadata.get("formats")]; the first [fmt.get] needs
    [fmt] to be an object *)
Fixpoint formats_loop (fmts : list (json_item nat)) (audio video : list nat)
  : M (list nat * list nat) :=
  match fmts with
  | [] => mret (audio, video)
  | item :: rest =>
      fmt ← lift (item_object item);
      d ← load fmt;
      id ← str_strip (get_or d "format_id" (PStr ""));
      if negb (PyStr.isdigit id) then formats_loop rest audio video
      else if negb (eq_str (get_or d "acodec" (PStr "none")) "none")
      then formats_loop rest (audio ++ [fmt]) video
      else if negb (eq_str (get_or d "vcodec" (PStr "none")) "none")
      then formats_loop rest audio (video ++ [fmt])
      else formats_loop rest audio video
  end.

(** the loop over [metadata.get("thumbnails")] *)
Fixpoint thumbnails_loop (fmts : list (json_item nat)) (image : list nat)
  : M (list nat) :=
  match fmts with
  | [] => mret image
  | item :: rest =>
      fmt ← lift (item_object item);
      d ← load fmt;
      if truthy (get d "resolution")
      then thumbnails_loop rest (image ++ [fmt])
      else thumbnails_loop rest image
  end.

Definition request_ytdlp_metadata (yturl : string) : M Formats :=
  let command := [ytdlp_bin CONFIG; "-j"; yturl] in
  process ← run_command command;
  (if negb (returncode process =? 0)%Z
   then print (Fore_RED +:+ "Critical error:");;
        print (stderr process);;
        raise SystemExit
   else mret tt);;
  loaded ← json_loads (stdout process);
  metadata ← lift (py_object loaded);
  fmts ← lift (py_iter (md_formats_value metadata));
  '(audio, video) ← formats_loop fmts [] [];
  fmts ← lift (py_iter (md_thumbnails_value metadata));
  image ← thumbnails_loop fmts [];
  mret {| audio := audio; video := video; image := image; metadata := metadata |}.

Definition ytdlp_download (yturl fmt : string) (ytdlp_args : list string) : M Z :=
  let command := ([ytdlp_bin CONFIG; "-f"; fmt; yturl] ++ ytdlp_args)%list in
  print_command command;;
  emit (EPopen command);;
  mret (popen_wait env command).

End Script.

Section Selectors.
Context `{Numerics}.
Variable env : Env.

(** [pick.pick(options, title, default_index=...)[0]]: the menu opens
    with the cursor on [default_index]; an empty menu or a default
    outside it is a ValueError. *)
Definition pick (options : list PickOption) (title : string) (default_index : nat)
  : M PickOption :=
  if ((length options =? 0) || (length options <=? default_index))%nat
  then raise ValueError
  else
    emit (EPick title options default_index);;
    match options !! ((default_index + cursor_downs env title) mod length options)%nat with
    | Some o => mret o
    | None => raise ValueError
    end.

(** the search [for ind, option in enumerate(options)] for the default *)
Fixpoint index_of_value (options : list PickOption) (dflt : string) (ind : nat)
  : option nat :=
  match options with
  | [] => None
  | option :: rest =>
      if eq_str (value option) dflt then Some ind
      else index_of_value rest dflt (S ind)
  end.

Definition default_index_from (start : nat) (dflt : option string)
  (options : list PickOption) : nat :=
  match dflt with
  | None => start
  | Some d => default start (index_of_value options d 0)
  end.

(** one column [{str(fmt.get(key, 'N/A')):<width}] of a menu line *)
Definition column (d : pydict) (key : string) (width : nat) : string :=
  PyStr.ljust width (py_str (get_or d key (PStr "N/A"))).

Definition audio_text (d : pydict) : string :=
  "id: " +:+ column d "format_id" 5
  +:+ "  codec: " +:+ column d "acodec" 10
  +:+ "  ext: " +:+ column d "audio_ext" 5
  +:+ "  lang: " +:+ column d "language" 3
  +:+ "  bitrate: " +:+ column d "abr" 7
  +:+ "  sample rate: " +:+ column d "asr" 10
  +:+ "  filesize: " +:+ column d "filesize" 10.

Definition video_text (d : pydict) : string :=
  "id: " +:+ column d "format_id" 5
  +:+ "  codec: " +:+ column d "vcodec" 15
  +:+ "  ext: " +:+ column d "video_ext" 5
  +:+ "  format: " +:+ column d "wxh" 10
  +:+ "  bitrate: " +:+ column d "vbr" 10
  +:+ "  fps: " +:+ column d "fps" 4
  +:+ "  filesize: " +:+ column d "filesize" 10.

(** the format string [{width}x{height}] filled from the keys of [fmt] *)
Definition format_wxh (d : pydict) : result string :=
  match d !! "width" with
  | None => Raise (KeyError "width")
  | Some w =>
      match d !! "height" with
      | None => Raise (KeyError "height")
      | Some h => Ok (py_str w +:+ "x" +:+ py_str h)
      end
  end.

(** the body of the loop of [pick_yt_audio_format] *)
Definition audio_option (fmt : nat) : M PickOption :=
  d ← load fmt;
  setitem fmt "filesize" (get_quantity (get d "filesize") "B" (Some "N/A"));;
  d ← load fmt;
  setitem fmt "abr" (get_quantity (get d "abr") "" (Some "N/A"));;
  d ← load fmt;
  setitem fmt "asr" (get_quantity (get d "asr") "Hz" None);;
  d ← load fmt;
  mret {| label := audio_text d; value := get d "format_id"; description := None |}.

(** the body of the loop of [pick_yt_video_format] *)
Definition video_option (fmt : nat) : M PickOption :=
  d ← load fmt;
  setitem fmt "filesize" (get_quantity (get d "filesize") "B" (Some "N/A"));;
  d ← load fmt;
  setitem fmt "vbr" (get_quantity (get d "vbr") "" None);;
  d ← load fmt;
  wxh ← lift (format_wxh d);
  setitem fmt "wxh" (PStr wxh);;
  d ← load fmt;
  mret {| label := video_text d; value := get d "format_id"; description := None |}.

(** [for fmt in formats: ... options.append(...)] *)
Fixpoint options_loop (body : nat -> M PickOption) (formats : list nat)
  (options : list PickOption) : M (list PickOption) :=
  match formats with
  | [] => mret options
  | fmt :: rest =>
      option ← body fmt;
      options_loop body rest (options ++ [option])
  end.

Definition pick_yt_audio_format (formats : list nat) (dflt : option string)
  : M pyval :=
  let options :=
    [ {| label := "best audio"; value := PStr "bestaudio"; description := None |};
      {| label := "no audio"; value := PNone; description := None |} ] in
  options ← options_loop audio_option formats options;
  let default_index := default_index_from 0 dflt options in
  selected ← pick options "Select audio" default_index;
  mret (value selected).

Definition pick_yt_video_format (formats : list nat) (dflt : option string)
  : M pyval :=
  let options :=
    [ {| label := "best video"; value := PStr "bestvideo"; description := None |};
      {| label := "no video"; value := PNone; description := None |} ] in
  options ← options_loop video_option formats options;
  let default_index := default_index_from 0 dflt options in
  selected ← pick options "Select video" default_index;
  mret (value selected).

Definition pick_yt_thumbnail_format (metadata : Metadata) (dflt : option string)
  : M (pyval * list string) :=
  let options :=
    [ {| label := "best thumbnail"; value := PStr "best"; description := None |};
      {| label := "embed thumbnail"; value := PStr "embed";
         description :=
           Some "Supported filetypes for thumbnail embedding are: mp3, mp4" |};
      {| label := "no thumbnail"; value := PNone; description := None |} ] in
  let default_index := default_index_from 2 dflt options in
  selected ← pick options "Select thumbnail" default_index;
  let ytdlp_arg :=
    if eq_str (value selected) "best"
    then ["--write-thumbnail"; "--convert-thumbnails"; "jpg"]
    else if eq_str (value selected) "embed"
    then ["--embed-thumbnail"]
    else [] in
  mret (value selected, ytdlp_arg).

End Selectors.

Section Main.
Context `{Numerics}.
Variable env : Env.

Definition NL : string := String (ascii_of_nat 10) "".

(** [a and b] *)
Definition py_and (a b : pyval) : pyval := if truthy a then b else a.

(** the items of a [str.join] argument; anything but a str is a TypeError *)
Fixpoint str_items (vs : list pyval) : result (list string) :=
  match vs with
  | [] => Ok []
  | PStr s :: rest =>
      match str_items rest with
      | Ok ss => Ok (s :: ss)
      | Raise e => Raise e
      end
  | _ :: _ => Raise TypeError
  end.

(** [audio_format and not video_format] *)
Definition audio_only (audio_format video_format : pyval) : pyval :=
  py_and audio_format (PBool (negb (truthy video_format))).

(** the format expression: the truthy ones of [audio_format],
    [video_format], in that order, joined by a plus sign *)
Definition format_expression (audio_format video_format : pyval) : result string :=
  match str_items (List.filter truthy [audio_format; video_format]) with
  | Ok fmt => Ok (PyStr.join "+" fmt)
  | Raise e => Raise e
  end.

Definition check_dependency_path (expected_path error_message : string) : M bool :=
  try_except
    (run_command env [expected_path];; mret true)
    FileNotFoundError
    (print error_message;; mret false).

(** [main] from [audio_only = ...] to its end: the invocation builder,
    the download and the check of the predicted path *)
Definition invocation_builder (yturl : string) (filepath : Path)
  (audio_format video_format : pyval) (thumbnail_format : pyval * list string)
  : M unit :=
  let audio_only := audio_only audio_format video_format in
  let ytdlp_args := snd thumbnail_format in
  '(ytdlp_args, filepath) ←
    (if truthy audio_only
     then filepath ← lift (with_suffix filepath ".mp3");
          mret ((ytdlp_args ++ ["-x"; "--audio-format"; "mp3"])%list, filepath)
     else filepath ← lift (with_suffix filepath ".mp4");
          mret ((ytdlp_args ++ ["--merge-output-format"; "mp4"])%list, filepath));
  fmt ← lift (format_expression audio_format video_format);
  ytdlp_download env yturl fmt ytdlp_args;;
  emit (EExists filepath);;
  if negb (exists_after env filepath)
  then print (Fore_RED +:+ "downloaded file not found, expected it here:");;
       print (path_str env filepath)
  else
    (match fst thumbnail_format with
     | PNone => mret tt
     | _ =>
         jpg ← lift (with_suffix filepath ".jpg");
         print (Fore_GREEN +:+ "thumbnail stored here:" +:+ NL +:+ " "
                +:+ path_str env (absolute env jpg))
     end);;
    print (Fore_GREEN +:+ "download stored here:" +:+ NL +:+ " "
           +:+ path_str env (absolute env filepath));;
    input env ("press ENTER to exit" +:+ NL);;
    mret tt.

Definition main : M unit :=
  let outdir := output_dirpath env in
  if negb (outdir_exists env)
  then print (Fore_RED +:+ "output directory not found: [edit line 64 to change it]");;
       print (path_str env outdir)
  else
    print_command ["cd"; path_str env outdir];;
    emit (EChdir (path_str env outdir));;
    ffmpeg ← check_dependency_path (ffmpeg_bin CONFIG) "ffmpeg not found";
    if negb ffmpeg then mret tt else
    ytdlp ← check_dependency_path (ytdlp_bin CONFIG) "yt-dlp not found";
    if negb ytdlp then mret tt else
    input_url ← input env "YouTube URL: ";
    let yturl := PyStr.strip input_url in
    formats ← request_ytdlp_metadata env yturl;
    filepath ← lift (py_path (md_filename (metadata formats)));
    audio_format ← pick_yt_audio_format env (audio formats) (audio_format CONFIG);
    video_format ← pick_yt_video_format env (video formats) (video_format CONFIG);
    thumbnail_format ←
      pick_yt_thumbnail_format env (metadata formats) (thumbnail_format CONFIG);
    invocation_builder yturl filepath audio_format video_format thumbnail_format.

End Main.

(** ** Vocabulary of the statements *)

(** The tests of the classifier loop, as predicates on a descriptor. *)
Section Predicates.
Context `{Numerics}.

(** [fmt.get("format_id", "").strip().isdigit()] on a str id *)
Definition digit_id (d : pydict) : bool :=
  match get_or d "format_id" (PStr "") with
  | PStr s => PyStr.isdigit (PyStr.strip s)
  | _ => false
  end.

(** [fmt.get("acodec", "none") != "none"] *)
Definition has_audio (d : pydict) : bool :=
  negb (eq_str (get_or d "acodec" (PStr "none")) "none").

(** [fmt.get("vcodec", "none") != "none"] *)
Definition has_video (d : pydict) : bool :=
  negb (eq_str (get_or d "vcodec" (PStr "none")) "none").

(** the id is a str, so that [.strip()] exists *)
Definition str_id (d : pydict) : bool :=
  match get_or d "format_id" (PStr "") with
  | PStr _ => true
  | _ => false
  end.

Definition audio_candidate (h : list pydict) (l : nat) : bool :=
  digit_id (h !!! l) && has_audio (h !!! l).

Definition video_candidate (h : list pydict) (l : nat) : bool :=
  digit_id (h !!! l) && negb (has_audio (h !!! l)) && has_video (h !!! l).

Definition image_candidate (h : list pydict) (l : nat) : bool :=
  truthy (get (h !!! l) "resolution").

(** the item is an object, so that [.get] exists *)
Definition is_object {A : Type} (item : json_item A) : bool :=
  match item with
  | JObject _ => true
  | JOther => false
  end.

(** the item gets through [fmt.get("format_id", "").strip()]: it is an
    object whose id is a str *)
Definition strippable (item : json_item pydict) : bool :=
  match item with
  | JObject d => str_id d
  | JOther => false
  end.

Definition strippable_at (h : list pydict) (item : json_item nat) : bool :=
  match item with
  | JObject l => str_id (h !!! l)
  | JOther => false
  end.

(** The record holds an array of objects under [formats] and under
    [thumbnails]: the descriptors [fmts] and [ths]. *)
Definition lists_of_objects (doc : json_doc) (fmts ths : list pydict) : Prop :=
  j_formats doc = Some (map JObject fmts)
  /\ j_thumbnails doc = Some (map JObject ths).

(** every object [json.loads] builds for the items of the record, in
    the order in which the store gets them *)
Definition record_objects (doc : json_doc) : list pydict :=
  objects (default [] (j_formats doc)) ++ objects (default [] (j_thumbnails doc)).

(** the items as the store holds them when its next free reference is
    [n]: every object by its reference *)
Fixpoint number_items (n : nat) (items : list (json_item pydict))
  : list (json_item nat) :=
  match items with
  | [] => []
  | JObject _ :: rest => JObject n :: number_items (S n) rest
  | JOther :: rest => JOther :: number_items n rest
  end.

(** the parsed record of [doc] in a store whose next free reference is
    [n] *)
Definition loaded_record (n : nat) (doc : json_doc) : Metadata :=
  {| md_filename := j_filename doc;
     md_formats_value := number_items n <$> j_formats doc;
     md_thumbnails_value :=
       number_items (n + length (objects (default [] (j_formats doc))))
         <$> j_thumbnails doc |}.

(** the dict the fetch returns for a parsed record, over the store [h] *)
Definition classified (h : list pydict) (md : Metadata) : Formats :=
  {| audio := List.filter (audio_candidate h) (md_formats md);
     video := List.filter (video_candidate h) (md_formats md);
     image := List.filter (image_candidate h) (md_thumbnails md);
     metadata := md |}.

(** How the two loops of the fetch end on a record parsed into the
    store [h] from reference [n] on: the first loop needs something to
    go through under [formats] and an object with a str id in every
    item, the second something to go through under [thumbnails] and an
    object in every item. *)
Definition record_outcome (n : nat) (h : list pydict) (doc : json_doc)
  : result Formats :=
  match j_formats doc with
  | None => Raise TypeError
  | Some fmts =>
      if forallb strippable fmts
      then match j_thumbnails doc with
           | None => Raise TypeError
           | Some ths =>
               if forallb is_object ths
               then Ok (classified h (loaded_record n doc))
               else Raise AttributeError
           end
      else Raise AttributeError
  end.

End Predicates.

Section Vocabulary.
Context `{Numerics}.
Variable env : Env.

(** the probe command line *)
Definition probe_command (yturl : string) : list string :=
  [ytdlp_bin CONFIG; "-j"; yturl].

(** what [print_command] writes for a command *)
Definition command_line (command : list string) : event :=
  EPrint (Style_DIM +:+ "$ " +:+ PyStr.join " " command).

(** what a run prints and starts up to the prompt for the URL *)
Definition preamble : list event :=
  [ command_line ["cd"; path_str env (output_dirpath env)];
    EChdir (path_str env (output_dirpath env));
    command_line [ffmpeg_bin CONFIG]; ERun [ffmpeg_bin CONFIG];
    command_line [ytdlp_bin CONFIG]; ERun [ytdlp_bin CONFIG];
    EInput "YouTube URL: " ].

(** what a failing probe adds: the command, the run, the two lines *)
Definition failure_report (yturl : string) (p : CompletedProcess) : list event :=
  [ command_line (probe_command yturl); ERun (probe_command yturl);
    EPrint (Fore_RED +:+ "Critical error:"); EPrint (stderr p) ].

(** the command lines of the downloads started in a trace *)
Definition downloads (trace : list event) : list (list string) :=
  omap (fun e => match e with EPopen command => Some command | _ => None end) trace.

(** What the loop body of the audio selector leaves in a descriptor. *)
Definition audio_row (d : pydict) : pydict :=
  let d1 := <["filesize" := get_quantity (get d "filesize") "B" (Some "N/A")]> d in
  let d2 := <["abr" := get_quantity (get d1 "abr") "" (Some "N/A")]> d1 in
  <["asr" := get_quantity (get d2 "asr") "Hz" None]> d2.

(** What the loop body of the video selector leaves in a descriptor up
    to the format of [wxh], and after it. *)
Definition video_row_quantities (d : pydict) : pydict :=
  let d1 := <["filesize" := get_quantity (get d "filesize") "B" (Some "N/A")]> d in
  <["vbr" := get_quantity (get d1 "vbr") "" None]> d1.

Definition video_row (d : pydict) (wxh : string) : pydict :=
  <["wxh" := PStr wxh]> (video_row_quantities d).

(** The store [h'] differs from [h] at most in the entries [keys] of the
    dicts referenced by [fmts]. *)
Definition writes_only (keys : list string) (fmts : list nat)
  (h h' : list pydict) : Prop :=
  length h' = length h
  /\ (forall l, ~ In l fmts -> h' !!! l = h !!! l)
  /\ (forall l key, ~ In key keys -> (h' !!! l) !! key = (h !!! l) !! key).

(** the column of [key] in a line built from [d] shows [text] *)
Definition shows (d : pydict) (key : string) (width : nat) (text : string) : Prop :=
  column d key width = PyStr.ljust width text.

(** [d] has no number under [key]: the key is missing, or its value is
    null or does not convert to a float *)
Definition no_number (d : pydict) (key : string) : Prop :=
  py_float (get d key) = None.

(** what a line shows for an attribute it prints as it is: its plain
    [str], or the token when the key is missing *)
Definition plain (d : pydict) (key : string) : string :=
  py_str (get_or d key (PStr "N/A")).

(** what a line shows for an attribute that went through
    [get_quantity] with the token: the quantity of its number, or the
    token when it has none *)
Definition quantity_or_token (d : pydict) (key units : string) : string :=
  match py_float (get d key) with
  | Some x => quantity_str (inr x) units
  | None => "N/A"
  end.

(** a text that is a number with a unit behind it, as quantiphy prints
    a quantity that has units *)
Definition unit_suffixed (text : string) : Prop :=
  exists number units, units <> "" /\ text = quantity_str number units.

(** What a selector can return: no selection, or a sentinel or id,
    which are never empty. *)
Definition selection (v : pyval) : Prop :=
  v = PNone \/ exists s, v = PStr s /\ s <> "".

(** the container the builder settles on, and its flags *)
Definition container (audio_only : bool) : string :=
  if audio_only then "mp3" else "mp4".

Definition container_flags (audio_only : bool) : list string :=
  if audio_only then ["-x"; "--audio-format"; "mp3"]
  else ["--merge-output-format"; "mp4"].

Definition download_command (yturl fmt : string) (ytdlp_args : list string)
  : list string :=
  [ytdlp_bin CONFIG; "-f"; fmt; yturl] ++ ytdlp_args.

(** The builder, run on [filepath] and the selections [a] and [v] from
    the world [w], starts the download with the format expression
    [expr] and, after the thumbnail flags, the flags of [container ao];
    the path it then looks for is [filepath] with the suffix of that
    container; and it ends normally. *)
Definition downloads_with (yturl : string) (filepath : Path) (a v : pyval)
  (thumbnail : pyval * list string) (w : world) (expr : string) (ao : bool) : Prop :=
  exists stem rest,
    let predicted :=
      {| parent := parent filepath; name := stem +:+ String "." (container ao) |} in
    let command :=
      download_command yturl expr (snd thumbnail ++ container_flags ao) in
    with_suffix filepath (String "." (container ao)) = Ok predicted
    /\ suffix predicted = String "." (container ao)
    /\ invocation_builder env yturl filepath a v thumbnail w =
       (Ok tt,
        {| heap := heap w;
           out := out w ++ [command_line command; EPopen command; EExists predicted]
                        ++ rest |}).


(** the URL [main] works with: the typed line, stripped *)
Definition entered_url : string := PyStr.strip (typed env "YouTube URL: ").

(** A run of [main] from [w] gets to the builder: the output directory
    and both tools are there, the fetch returns [fs], and the three
    selectors return [a], [v] and [t], leaving the world [w4]. *)
Definition reaches_builder (w : world) (fs : Formats) (a v : pyval)
  (t : pyval * list string) (w4 : world) : Prop :=
  outdir_exists env = true
  /\ (exists p, sp_run env [ffmpeg_bin CONFIG] = Ok p)
  /\ (exists p, sp_run env [ytdlp_bin CONFIG] = Ok p)
  /\ exists w1 w2 w3,
       request_ytdlp_metadata env entered_url
         {| heap := heap w; out := out w ++ preamble |} = (Ok fs, w1)
       /\ pick_yt_audio_format env (audio fs) (audio_format CONFIG) w1 = (Ok a, w2)
       /\ pick_yt_video_format env (video fs) (video_format CONFIG) w2 = (Ok v, w3)
       /\ pick_yt_thumbnail_format env (metadata fs) (thumbnail_format CONFIG) w3
          = (Ok t, w4).

End Vocabulary.

(** ** More of the script *)

Section Remux.
Context `{Numerics}.
Variable env : Env.

(** [path.resolve()] on the host *)
Variable resolve : Path -> Path.

(** [ffmpeg_remux(file, audio_only=...)] *)
Definition ffmpeg_remux (file : Path) (audio_only : bool) : M Path :=
  outpath ← lift (with_suffix file (".remux" +:+ suffix file));
  let command :=
    [ffmpeg_bin CONFIG; "-i"; path_str env (resolve file); "-c"; "copy";
     "-c:a"; "aac"; path_str env (resolve outpath)] in
  print_command command;;
  emit (EPopen command);;
  mret outpath.

End Remux.

(** ** More vocabulary *)

(** the same outside, but for the exit status of the downloads *)
Definition with_download_status `{Numerics} (env : Env)
  (status : list string -> Z) : Env :=
  {| output_dirpath := output_dirpath env;
     outdir_exists := outdir_exists env;
     sp_run := sp_run env;
     popen_wait := status;
     typed := typed env;
     cursor_downs := cursor_downs env;
     exists_after := exists_after env;
     path_str := path_str env;
     absolute := absolute env |}.

Section MoreVocabulary.
Context `{Numerics}.
Variable env : Env.

(** [path.stem]: the final component without its suffix *)
Definition stem (p : Path) : string :=
  String.substring 0 (String.length (name p) - String.length (suffix p)) (name p).

(** the options every audio, video and thumbnail menu starts with *)
Definition audio_sentinels : list PickOption :=
  [ {| label := "best audio"; value := PStr "bestaudio"; description := None |};
    {| label := "no audio"; value := PNone; description := None |} ].

Definition video_sentinels : list PickOption :=
  [ {| label := "best video"; value := PStr "bestvideo"; description := None |};
    {| label := "no video"; value := PNone; description := None |} ].

Definition thumbnail_options : list PickOption :=
  [ {| label := "best thumbnail"; value := PStr "best"; description := None |};
    {| label := "embed thumbnail"; value := PStr "embed";
       description :=
         Some "Supported filetypes for thumbnail embedding are: mp3, mp4" |};
    {| label := "no thumbnail"; value := PNone; description := None |} ].

(** what the thumbnail selector returns for the option at each index *)
Definition thumbnail_outcomes : list (pyval * list string) :=
  [ (PStr "best", ["--write-thumbnail"; "--convert-thumbnails"; "jpg"]);
    (PStr "embed", ["--embed-thumbnail"]);
    (PNone, []) ].

(** the ids of the descriptors [fmts] in the store [h] *)
Definition format_ids (h : list pydict) (fmts : list nat) : list pyval :=
  map (fun l => get (h !!! l) "format_id") fmts.

(** the option the user confirms in a menu opened on [default_index] *)
Definition confirmed (options : list PickOption) (title : string)
  (default_index : nat) : option PickOption :=
  options !! ((default_index + cursor_downs env title) mod length options)%nat.

(** A computation starts no download, however it ends. *)
Definition no_download {A : Type} (m : M A) : Prop :=
  forall w, downloads (out (snd (m w))) = downloads (out w).

(** A computation starts at most one download, and that one fetches
    [yturl]. *)
Definition at_most_one_download {A : Type} (yturl : string) (m : M A) : Prop :=
  forall w,
    downloads (out (snd (m w))) = downloads (out w)
    \/ exists fmt args,
         downloads (out (snd (m w)))
         = downloads (out w) ++ [download_command yturl fmt args].

(** what the builder reports once the download has run *)
Definition report (thumbnail : pyval) (predicted jpg : Path) : list event :=
  if exists_after env predicted
  then (match thumbnail with
        | PNone => []
        | _ => [EPrint (Fore_GREEN +:+ "thumbnail stored here:" +:+ NL +:+ " "
                        +:+ path_str env (absolute env jpg))]
        end)
       ++ [EPrint (Fore_GREEN +:+ "download stored here:" +:+ NL +:+ " "
                   +:+ path_str env (absolute env predicted));
           EInput ("press ENTER to exit" +:+ NL)]
  else [EPrint (Fore_RED +:+ "downloaded file not found, expected it here:");
        EPrint (path_str env predicted)].

(** the two stores have the same size and hold the same dicts at [fmts] *)
Definition agree_on (fmts : list nat) (h1 h2 : list pydict) : Prop :=
  length h1 = length h2 /\ forall l, In l fmts -> h1 !!! l = h2 !!! l.

End MoreVocabulary.

Section MenuLines.
Context `{Numerics}.

(** the menu option the audio selector builds from a descriptor as
    fetched, and the one the video selector builds when the descriptor
    has [width] and [height] *)
Definition audio_line_of (d : pydict) : PickOption :=
  {| label := audio_text (audio_row d); value := get d "format_id";
     description := None |}.

Definition video_line_of (d : pydict) : PickOption :=
  match format_wxh d with
  | Ok wxh =>
      {| label := video_text (video_row d wxh); value := get d "format_id";
         description := None |}
  | Raise _ => {| label := ""; value := PNone; description := None |}
  end.

(** the descriptor the video selector leaves behind *)
Definition video_left (d : pydict) : pydict :=
  match format_wxh d with
  | Ok wxh => video_row d wxh
  | Raise _ => video_row_quantities d
  end.

(** what the classifier asks of a descriptor of the record for the
    audio and for the video list *)
Definition audio_descriptor (d : pydict) : bool := digit_id d && has_audio d.

Definition video_descriptor (d : pydict) : bool :=
  digit_id d && negb (has_audio d) && has_video d.

(** the columns of an audio and of a video line, with their widths *)
Definition audio_columns : list (string * nat) :=
  [("format_id", 5); ("acodec", 10); ("audio_ext", 5); ("language", 3);
   ("abr", 7); ("asr", 10); ("filesize", 10)].

Definition video_columns : list (string * nat) :=
  [("format_id", 5); ("vcodec", 15); ("video_ext", 5); ("wxh", 10);
   ("vbr", 10); ("fps", 4); ("filesize", 10)].

(** every value of [d] shown in [columns] is no longer than its column *)
Definition fits (d : pydict) (columns : list (string * nat)) : bool :=
  forallb (fun c => (String.length (py_str (get_or d (fst c) (PStr "N/A")))
                     <=? snd c)%nat) columns.

(** every descriptor of [fmts] has [width] and [height] *)
Definition sized (h : list pydict) (fmts : list nat) : Prop :=
  forall l, In l fmts ->
    is_Some ((h !!! l) !! "width") /\ is_Some ((h !!! l) !! "height").

End MenuLines.

(** ** A stand-in for the numeric interface, for concrete runs

    Floats are the integral ones; a str converts when it is a plain run
    of ASCII digits; a quantity prints as quantiphy prints an integer
    below 1000: the digits, then a space and the units when there are
    units. *)
Module Demo.

Fixpoint digits_value (s : string) (acc : Z) : option Z :=
  match s with
  | EmptyString => Some acc
  | String c s' =>
      let n := Z.of_N (N_of_ascii c) in
      if ((48 <=? n) && (n <=? 57))%Z then digits_value s' (10 * acc + (n - 48))%Z
      else None
  end.

#[local] Instance numerics : Numerics := {|
  float := Z;
  float_of_int z := Some z;
  float_of_str s := match s with EmptyString => None | _ => digits_value s 0 end;
  float_bool z := negb (z =? 0)%Z;
  float_str z := pretty z +:+ ".0";
  quantity_str n u :=
    pretty (match n with inl z => z | inr z => z end)
    +:+ (if String.eqb u "" then "" else " " +:+ u)
|}.

Definition env (downs_audio downs_video downs_thumbnail : nat)
  (probe : CompletedProcess) : Env := {|
  output_dirpath := {| parent := "/home/user/"; name := "Downloads" |};
  outdir_exists := true;
  sp_run command :=
    match command with
    | [_] => Ok {| returncode := 1; stdout := NotJson; stderr := "" |}
    | _ => Ok probe
    end;
  popen_wait _ := 0%Z;
  typed _ := "https://youtu.be/x ";
  cursor_downs title :=
    if String.eqb title "Select audio" then downs_audio
    else if String.eqb title "Select video" then downs_video
    else downs_thumbnail;
  exists_after _ := true;
  path_str p := parent p +:+ name p;
  absolute p :=
    match parent p with
    | EmptyString => {| parent := "/home/user/Downloads/"; name := name p |}
    | _ => p
    end
|}.

Definition start : world := {| heap := []; out := [] |}.

(** a record as the probe prints it: a file name and two arrays of
    objects *)
Definition record (file : string) (fmts ths : list pydict) : json_doc := {|
  j_filename := Some {| parent := ""; name := file |};
  j_formats := Some (map JObject fmts);
  j_thumbnails := Some (map JObject ths)
|}.

(** the probe record of the end-to-end scenario of the specification *)
Definition clip_descriptors : list pydict :=
  [ {[ "format_id" := PStr "140"; "acodec" := PStr "mp4a.40.2";
       "vcodec" := PStr "none"; "abr" := PInt 129; "audio_ext" := PStr "m4a" ]};
    {[ "format_id" := PStr "137"; "acodec" := PStr "none";
       "vcodec" := PStr "avc1.640028"; "width" := PInt 1920;
       "height" := PInt 1080; "fps" := PInt 30; "video_ext" := PStr "mp4" ]} ].

Definition clip : json_doc := record "clip.webm" clip_descriptors [].

Definition probe_ok (doc : json_doc) : CompletedProcess :=
  {| returncode := 0; stdout := Object doc; stderr := "" |}.

End Demo.

(** ** Concrete records and runs *)

Module Scenarios.
Import Demo.
#[local] Existing Instance Demo.numerics.

Definition url : string := "https://youtu.be/x".

(** one audio format with a tagged id, as yt-dlp names its
    dynamic-range-compressed variants *)
Definition tagged : json_doc :=
  record "clip.webm"
    [ {[ "format_id" := PStr "140-drc"; "acodec" := PStr "mp4a.40.2";
         "vcodec" := PStr "none" ]} ] [].

(** one audio format whose id has a leading blank *)
Definition padded : json_doc :=
  record "clip.webm"
    [ {[ "format_id" := PStr " 140"; "acodec" := PStr "mp4a.40.2";
         "vcodec" := PStr "none" ]} ] [].

(** thumbnails with an empty, a proper and no resolution *)
Definition thumbs : json_doc :=
  record "clip.webm" []
    [ {[ "url" := PStr "https://i.ytimg.com/a.jpg"; "resolution" := PStr "" ]};
      {[ "url" := PStr "https://i.ytimg.com/b.jpg"; "resolution" := PStr "1280x720" ]};
      {[ "url" := PStr "https://i.ytimg.com/c.jpg" ]} ].

(** a video format without [width], and the record that holds only it *)
Definition unsized : pydict :=
  {[ "format_id" := PStr "137"; "acodec" := PStr "none";
     "vcodec" := PStr "avc1.640028"; "height" := PInt 1080 ]}.

Definition narrow : json_doc := record "clip.webm" [unsized] [].

(** a probe that failed *)
Definition failed : CompletedProcess :=
  {| returncode := 1; stdout := NotJson; stderr := "ERROR: Unsupported URL" |}.

(** the store right after the fetch of a record *)
Definition fetched (doc : json_doc) : world :=
  snd (request_ytdlp_metadata (env 0 0 0 (probe_ok doc)) url start).

Definition clip_path : Path := {| parent := ""; name := "clip.webm" |}.

(** the candidate lists of a fetch of [clip] *)
Definition clip_formats : Formats := {|
  audio := [0]; video := [1]; image := [];
  metadata :=
  {| md_filename := Some clip_path;
     md_formats_value := Some [JObject 0; JObject 1];
     md_thumbnails_value := Some [] |}
|}.

Definition tagged_formats : Formats := {|
  audio := []; video := []; image := [];
  metadata :=
  {| md_filename := Some clip_path;
     md_formats_value := Some [JObject 0];
     md_thumbnails_value := Some [] |}
|}.

Definition padded_formats : Formats := {|
  audio := [0]; video := []; image := [];
  metadata :=
  {| md_filename := Some clip_path;
     md_formats_value := Some [JObject 0];
     md_thumbnails_value := Some [] |}
|}.

Definition thumbs_formats : Formats := {|
  audio := []; video := []; image := [1];
  metadata :=
  {| md_filename := Some clip_path;
     md_formats_value := Some [];
     md_thumbnails_value := Some [JObject 0; JObject 1; JObject 2] |}
|}.

(** the world after the audio selector of the scenario *)
Definition after_audio : world :=
  snd (pick_yt_audio_format (env 2 2 0 (probe_ok clip)) [0] (audio_format CONFIG)
         (fetched clip)).

(** the descriptors of [clip] after the loop body of their selector *)
Definition audio_line : result PickOption := fst (audio_option 0 (fetched clip)).
Definition audio_after : pydict := heap (snd (audio_option 0 (fetched clip))) !!! 0.
Definition video_line : result PickOption := fst (video_option 1 (fetched clip)).
Definition video_after : pydict := heap (snd (video_option 1 (fetched clip))) !!! 1.

(** one audio format whose id is a number, not a string *)
Definition numbered_descriptors : list pydict :=
  [ {[ "format_id" := PInt 140; "acodec" := PStr "mp4a.40.2";
       "vcodec" := PStr "none" ]} ].

Definition numbered : json_doc := record "clip.webm" numbered_descriptors [].

(** the record of the scenario with the rates of both formats filled
    in, and the line of its video format *)
Definition rated_descriptors : list pydict :=
  [ {[ "format_id" := PStr "140"; "acodec" := PStr "mp4a.40.2";
       "vcodec" := PStr "none"; "abr" := PInt 129; "asr" := PInt 44100;
       "audio_ext" := PStr "m4a" ]};
    {[ "format_id" := PStr "137"; "acodec" := PStr "none";
       "vcodec" := PStr "avc1.640028"; "width" := PInt 1920;
       "height" := PInt 1080; "fps" := PInt 30; "vbr" := PInt 500;
       "video_ext" := PStr "mp4" ]} ].

Definition rated : json_doc := record "clip.webm" rated_descriptors [].

Definition rated_video_line : result PickOption :=
  fst (video_option 1 (fetched rated)).

(** the record of the scenario without its [thumbnails], and without
    its [filename] *)
Definition no_thumbnails : json_doc := {|
  j_filename := Some clip_path;
  j_formats := Some (map JObject clip_descriptors);
  j_thumbnails := None
|}.

Definition no_filename : json_doc := {|
  j_filename := None;
  j_formats := Some (map JObject clip_descriptors);
  j_thumbnails := Some []
|}.

(** a machine with the output directory and neither tool *)
Definition missing_tools : Env := {|
  output_dirpath := {| parent := "/home/user/"; name := "Downloads" |};
  outdir_exists := true;
  sp_run _ := Raise FileNotFoundError;
  popen_wait _ := 0%Z;
  typed _ := "";
  cursor_downs _ := 0;
  exists_after _ := false;
  path_str p := parent p +:+ name p;
  absolute p := p
|}.

End Scenarios.

(** ** How the pieces run *)

Section Runs.
Context `{Numerics}.
Variable env : Env.

Lemma bind_run {A B : Type} (m : M A) (k : A -> M B) (w : world) :
  (m ≫= k) w =
  match m w with
  | (Ok a, w') => k a w'
  | (Raise e, w') => (Raise e, w')
  end.
Proof. reflexivity. Qed.

Lemma objects_cons_object {A : Type} (x : A) (items : list (json_item A)) :
  objects (JObject x :: items) = x :: objects items.
Proof. reflexivity. Qed.

Lemma objects_map {A : Type} (xs : list A) : objects (map JObject xs) = xs.
Proof.
  induction xs as [|x xs IH]; [done|]. cbn [map].
  by rewrite objects_cons_object, IH.
Qed.

Lemma objects_cons_other {A : Type} (items : list (json_item A)) :
  objects (@JOther A :: items) = objects items.
Proof. reflexivity. Qed.

Lemma all_objects_map {A : Type} (items : list (json_item A)) :
  forallb is_object items = true -> items = map JObject (objects items).
Proof.
  induction items as [|[x|] items IH]; simpl; [done| |done].
  intros Hall. rewrite ?objects_cons_object. simpl. by rewrite <- IH.
Qed.

Lemma is_object_map {A : Type} (xs : list A) :
  forallb is_object (map JObject xs) = true.
Proof. by induction xs. Qed.

Lemma strippable_map (fmts : list pydict) :
  forallb strippable (map JObject fmts) = forallb str_id fmts.
Proof. induction fmts as [|d fmts IH]; [done|]. simpl. by rewrite IH. Qed.

Lemma strippable_objects (items : list (json_item pydict)) :
  forallb strippable items = true ->
  forallb is_object items = true /\ forallb str_id (objects items) = true.
Proof.
  induction items as [|[d|] items IH]; simpl; [done| |done].
  intros [Hd Hrest]%andb_prop. rewrite ?objects_cons_object. simpl.
  rewrite Hd. by apply IH.
Qed.

Lemma objects_number_items (n : nat) (items : list (json_item pydict)) :
  objects (number_items n items) = seq n (length (objects items)).
Proof.
  revert n. induction items as [|[d|] items IH]; intros n; simpl; [done| |].
  - rewrite ?objects_cons_object. simpl. by rewrite IH.
  - rewrite ?objects_cons_other. apply IH.
Qed.

Lemma is_object_number_items (n : nat) (items : list (json_item pydict)) :
  forallb is_object (number_items n items) = forallb is_object items.
Proof.
  revert n. induction items as [|[d|] items IH]; intros n; simpl; [done| |done].
  apply IH.
Qed.

Lemma number_items_objects (n : nat) (ds : list pydict) :
  number_items n (map JObject ds) = map JObject (seq n (length ds)).
Proof.
  revert n. induction ds as [|d ds IH]; intros n; simpl; [done|]. by rewrite IH.
Qed.

(** The numbered items of a record look, in a store that holds its
    objects from the free reference on, as the items of the text do. *)
Lemma strippable_number_items (h rest : list pydict)
  (items : list (json_item pydict)) :
  forallb (strippable_at (h ++ objects items ++ rest))
    (number_items (length h) items)
  = forallb strippable items.
Proof.
  revert h. induction items as [|[d|] items IH]; intros h; simpl; [done| |done].
  rewrite ?objects_cons_object. f_equal.
  - rewrite list_lookup_total_middle by done. done.
  - specialize (IH (h ++ [d])). rewrite length_app, Nat.add_1_r in IH.
    rewrite <- app_assoc in IH. exact IH.
Qed.

Lemma alloc_items_run (items : list (json_item pydict)) (w : world) :
  alloc_items items w =
  (Ok (number_items (length (heap w)) items),
   {| heap := heap w ++ objects items; out := out w |}).
Proof.
  revert w. induction items as [|[d|] items IH]; intros w; simpl.
  - unfold mret, M_ret, objects. simpl. rewrite app_nil_r. by destruct w.
  - rewrite bind_run. simpl. rewrite bind_run, IH. simpl.
    rewrite length_app. simpl. rewrite <- app_assoc. simpl.
    unfold mret, M_ret. by rewrite Nat.add_1_r.
  - rewrite bind_run, IH. reflexivity.
Qed.

Lemma alloc_value_run (value : option (list (json_item pydict))) (w : world) :
  alloc_value value w =
  (Ok (number_items (length (heap w)) <$> value),
   {| heap := heap w ++ objects (default [] value); out := out w |}).
Proof.
  destruct value as [items|]; simpl.
  - by rewrite bind_run, alloc_items_run.
  - unfold mret, M_ret, objects. simpl. rewrite app_nil_r. by destruct w.
Qed.

Lemma json_loads_run (doc : json_doc) (w : world) :
  json_loads (Object doc) w =
  (Ok (Some (loaded_record (length (heap w)) doc)),
   {| heap := heap w ++ record_objects doc; out := out w |}).
Proof.
  unfold json_loads, record_objects, loaded_record.
  rewrite bind_run, alloc_value_run. simpl.
  rewrite bind_run, alloc_value_run. simpl.
  by rewrite length_app, <- app_assoc.
Qed.

(** The first loop raises at the first item that is no object or whose
    id is no str, and else sorts the objects; it leaves the world as it
    is. *)
Lemma formats_loop_run (fmts : list (json_item nat)) (a v : list nat) (w : world) :
  formats_loop fmts a v w =
  (if forallb (strippable_at (heap w)) fmts
   then Ok (a ++ List.filter (audio_candidate (heap w)) (objects fmts),
            v ++ List.filter (video_candidate (heap w)) (objects fmts))
   else Raise AttributeError, w).
Proof.
  revert a v. induction fmts as [|[fmt|] fmts IH]; intros a v; simpl.
  - by rewrite !app_nil_r.
  - rewrite ?objects_cons_object. do 2 (rewrite bind_run; simpl). rewrite bind_run.
    unfold audio_candidate at 1, video_candidate at 1, digit_id, has_audio,
      has_video, str_id.
    destruct (get_or (heap w !!! fmt) "format_id" (PStr "")); simpl; try done.
    destruct (PyStr.isdigit (PyStr.strip s)); simpl.
    + destruct (eq_str _ "none"); simpl.
      * destruct (eq_str _ "none"); simpl; rewrite IH;
          destruct (forallb _ fmts); by rewrite <- ?app_assoc.
      * rewrite IH. destruct (forallb _ fmts); by rewrite <- ?app_assoc.
    + apply IH.
  - by rewrite bind_run.
Qed.

Lemma thumbnails_loop_run (fmts : list (json_item nat)) (image : list nat)
  (w : world) :
  thumbnails_loop fmts image w =
  (if forallb is_object fmts
   then Ok (image ++ List.filter (image_candidate (heap w)) (objects fmts))
   else Raise AttributeError, w).
Proof.
  revert image. induction fmts as [|[fmt|] fmts IH]; intros image; simpl.
  - by rewrite app_nil_r.
  - rewrite ?objects_cons_object. do 2 (rewrite bind_run; simpl).
    unfold image_candidate at 1.
    destruct (truthy _); rewrite IH; destruct (forallb _ fmts);
      by rewrite <- ?app_assoc.
  - by rewrite bind_run.
Qed.

End Runs.

Section Request.
Context `{Numerics}.
Variable env : Env.

(** The fetch after a probe that exited with 0: how it ends for each
    thing [json.loads] can make of the output. *)
Lemma request_after_probe (yturl : string) (w : world) (p : CompletedProcess) :
  sp_run env (probe_command yturl) = Ok p ->
  returncode p = 0%Z ->
  let ran := out w ++ [command_line (probe_command yturl);
                       ERun (probe_command yturl)] in
  request_ytdlp_metadata env yturl w =
  match stdout p with
  | NotJson => (Raise ValueError, {| heap := heap w; out := ran |})
  | NotObject => (Raise AttributeError, {| heap := heap w; out := ran |})
  | Object doc =>
      (record_outcome (length (heap w)) (heap w ++ record_objects doc) doc,
       {| heap := heap w ++ record_objects doc; out := ran |})
  end.
Proof.
  intros Hrun Hrc ran.
  unfold request_ytdlp_metadata, run_command, print_command, print, lift.
  fold (probe_command yturl).
  rewrite !bind_run. simpl. rewrite Hrun, bind_run, Hrc. simpl.
  rewrite bind_run.
  assert (Hran : (out w ++ [EPrint (Style_DIM +:+ "$ "
                              +:+ PyStr.join " " (probe_command yturl))])
                 ++ [ERun (probe_command yturl)] = ran)
    by (unfold ran, command_line; by rewrite <- app_assoc).
  destruct (stdout p) as [| |doc].
  - simpl. by rewrite Hran.
  - simpl. by rewrite Hran.
  - rewrite json_loads_run. simpl. rewrite Hran.
    rewrite bind_run. simpl. rewrite bind_run. simpl.
    unfold record_outcome, record_objects.
    destruct (j_formats doc) as [fmts|] eqn:Hfmts; simpl; [|done].
    rewrite bind_run, formats_loop_run. simpl.
    rewrite strippable_number_items.
    destruct (forallb strippable fmts); [|done]. simpl.
    rewrite bind_run. simpl.
    destruct (j_thumbnails doc) as [ths|] eqn:Hths; simpl; [|done].
    rewrite bind_run, thumbnails_loop_run. simpl.
    rewrite is_object_number_items.
    destruct (forallb is_object ths); [|done]. simpl.
    unfold classified, loaded_record, md_formats, md_thumbnails. simpl.
    rewrite Hfmts, Hths. reflexivity.
Qed.

(** A fetch that returns went through a probe that exited with 0 and
    printed a record with an array of objects under [formats] and under
    [thumbnails], every format id a str; the record's dicts are the new
    objects of the store, in order, and the three candidate lists are
    the filtered reference lists. *)
Lemma request_inv (yturl : string) (w w' : world) (fs : Formats) :
  request_ytdlp_metadata env yturl w = (Ok fs, w') ->
  exists p doc fmts ths,
    sp_run env (probe_command yturl) = Ok p
    /\ returncode p = 0%Z
    /\ stdout p = Object doc
    /\ lists_of_objects doc fmts ths
    /\ forallb str_id fmts = true
    /\ heap w' = heap w ++ fmts ++ ths
    /\ out w' = out w ++ [command_line (probe_command yturl); ERun (probe_command yturl)]
    /\ md_filename (metadata fs) = j_filename doc
    /\ md_formats (metadata fs) = seq (length (heap w)) (length fmts)
    /\ md_thumbnails (metadata fs) =
         seq (length (heap w) + length fmts) (length ths)
    /\ audio fs = List.filter (audio_candidate (heap w')) (md_formats (metadata fs))
    /\ video fs = List.filter (video_candidate (heap w')) (md_formats (metadata fs))
    /\ image fs = List.filter (image_candidate (heap w')) (md_thumbnails (metadata fs)).
Proof.
  intros Hreq.
  destruct (sp_run env (probe_command yturl)) as [p|e] eqn:Hrun.
  2:{ revert Hreq.
      unfold request_ytdlp_metadata, run_command, print_command, print, lift.
      fold (probe_command yturl). rewrite !bind_run. simpl. by rewrite Hrun. }
  destruct (returncode p =? 0)%Z eqn:Hrc.
  2:{ revert Hreq.
      unfold request_ytdlp_metadata, run_command, print_command, print, lift.
      fold (probe_command yturl). rewrite !bind_run. simpl.
      rewrite Hrun, bind_run, Hrc. simpl. rewrite ?bind_run. simpl. done. }
  apply Z.eqb_eq in Hrc.
  rewrite (request_after_probe yturl w p Hrun Hrc) in Hreq.
  destruct (stdout p) as [| |doc] eqn:Hout; [done|done|].
  injection Hreq as Hres <-. unfold record_outcome in Hres.
  destruct (j_formats doc) as [fitems|] eqn:Hfmts; [|done].
  destruct (forallb strippable fitems) eqn:Hstr; [|done].
  destruct (j_thumbnails doc) as [titems|] eqn:Hths; [|done].
  destruct (forallb is_object titems) eqn:Hobj; [|done].
  injection Hres as <-.
  apply strippable_objects in Hstr as [Hfobj Hids].
  apply all_objects_map in Hfobj, Hobj.
  set (fmts := objects fitems) in *. set (ths := objects titems) in *.
  exists p, doc, fmts, ths.
  assert (Hro : record_objects doc = fmts ++ ths)
    by (unfold record_objects; by rewrite Hfmts, Hths).
  assert (Hmf : md_formats (loaded_record (length (heap w)) doc)
                = seq (length (heap w)) (length fmts)).
  { unfold md_formats, loaded_record. simpl. rewrite Hfmts. simpl.
    apply objects_number_items. }
  assert (Hmt : md_thumbnails (loaded_record (length (heap w)) doc)
                = seq (length (heap w) + length fmts) (length ths)).
  { unfold md_thumbnails, loaded_record. simpl. rewrite Hths, Hfmts. simpl.
    apply objects_number_items. }
  simpl. rewrite Hro, Hmf, Hmt.
  repeat split; try done; unfold lists_of_objects; congruence.
Qed.

(** The fetch returns whenever the probe exits with 0 and prints a
    record with an array of objects under [formats] and under
    [thumbnails] in which every format id is a str (or missing). *)
Lemma request_total (yturl : string) (w : world) (p : CompletedProcess)
  (doc : json_doc) (fmts ths : list pydict) :
  sp_run env (probe_command yturl) = Ok p ->
  returncode p = 0%Z ->
  stdout p = Object doc ->
  lists_of_objects doc fmts ths ->
  forallb str_id fmts = true ->
  exists fs w', request_ytdlp_metadata env yturl w = (Ok fs, w').
Proof.
  intros Hrun Hrc Hout [Hfmts Hths] Hids.
  rewrite (request_after_probe yturl w p Hrun Hrc), Hout.
  unfold record_outcome. rewrite Hfmts, Hths, strippable_map, Hids, is_object_map.
  eauto.
Qed.

End Request.

(** ** The classifier *)

Section Classifier.
Context `{Numerics}.
Variable env : Env.

(** The candidate lists keep the order of the probe record. *)
Lemma candidates_in_order (yturl : string) (w w' : world) (fs : Formats) :
  request_ytdlp_metadata env yturl w = (Ok fs, w') ->
  audio fs = List.filter (audio_candidate (heap w')) (md_formats (metadata fs))
  /\ video fs = List.filter (video_candidate (heap w')) (md_formats (metadata fs))
  /\ image fs = List.filter (image_candidate (heap w')) (md_thumbnails (metadata fs)).
Proof.
  intros Hreq. apply request_inv in Hreq as (p & doc & fmts & ths & Hreq). tauto.
Qed.

(** C4, amended: a descriptor of the probe record whose audio codec is
    not none is never a video candidate, and it is an audio candidate
    exactly when its id, stripped of surrounding whitespace, is a run of
    digits. *)
Theorem acodec_audio_when_digit_id (yturl : string) (w w' : world) (fs : Formats)
  (l : nat) :
  request_ytdlp_metadata env yturl w = (Ok fs, w') ->
  In l (md_formats (metadata fs)) ->
  has_audio (heap w' !!! l) = true ->
  (In l (audio fs) <-> digit_id (heap w' !!! l) = true)
  /\ ~ In l (video fs).
Proof.
  intros Hreq Hl Ha. apply candidates_in_order in Hreq as (-> & -> & _).
  rewrite !filter_In. unfold audio_candidate, video_candidate. rewrite Ha.
  split.
  - rewrite andb_true_r. tauto.
  - rewrite andb_false_r. simpl. intros [_ ?]. discriminate.
Qed.

(** C5, amended: a descriptor whose id, stripped of surrounding
    whitespace, is not a run of digits is in neither the audio nor the
    video candidate list. *)
Theorem non_digit_id_excluded (yturl : string) (w w' : world) (fs : Formats)
  (l : nat) :
  request_ytdlp_metadata env yturl w = (Ok fs, w') ->
  In l (md_formats (metadata fs)) ->
  digit_id (heap w' !!! l) = false ->
  ~ In l (audio fs) /\ ~ In l (video fs).
Proof.
  intros Hreq Hl Hid. apply candidates_in_order in Hreq as (-> & -> & _).
  rewrite !filter_In. unfold audio_candidate, video_candidate. rewrite Hid.
  simpl. split; intros [_ ?]; discriminate.
Qed.

(** C6, amended: a thumbnail descriptor is a thumbnail candidate exactly
    when its resolution is truthy; a candidate has the attribute, and a
    str resolution qualifies exactly when it is not empty. *)
Theorem thumbnail_candidate_iff_truthy (yturl : string) (w w' : world)
  (fs : Formats) (l : nat) :
  request_ytdlp_metadata env yturl w = (Ok fs, w') ->
  In l (md_thumbnails (metadata fs)) ->
  (In l (image fs) <-> truthy (get (heap w' !!! l) "resolution") = true)
  /\ (In l (image fs) -> is_Some ((heap w' !!! l) !! "resolution"))
  /\ (forall s, (heap w' !!! l) !! "resolution" = Some (PStr s) ->
        (In l (image fs) <-> s <> "")).
Proof.
  intros Hreq Hl. apply candidates_in_order in Hreq as (_ & _ & ->).
  rewrite !filter_In. unfold image_candidate, get.
  split; [tauto|]. split.
  - intros [_ Ht]. destruct ((heap w' !!! l) !! "resolution"); [eauto|discriminate].
  - intros s Hs. rewrite filter_In. unfold image_candidate, get. rewrite Hs.
    simpl. rewrite negb_true_iff, String.eqb_neq. tauto.
Qed.

End Classifier.

(** ** The metadata fetcher on a failing probe *)

Section ProbeFailure.
Context `{Numerics}.
Variable env : Env.

(** C9: when the probe exits with a non-zero status the fetch ends in
    SystemExit after one run of the probe, having printed the error line
    and the captured stderr; nothing is parsed into the store and no
    record is returned. A run of [main] that gets to the fetch ends there,
    with the same exit: no menu and no download follow. *)
Theorem probe_failure_is_fatal (yturl : string) (w : world) (p : CompletedProcess) :
  sp_run env (probe_command yturl) = Ok p ->
  returncode p <> 0%Z ->
  request_ytdlp_metadata env yturl w =
    (Raise SystemExit,
     {| heap := heap w; out := out w ++ failure_report yturl p |})
  /\ (outdir_exists env = true ->
      (exists p1, sp_run env [ffmpeg_bin CONFIG] = Ok p1) ->
      (exists p2, sp_run env [ytdlp_bin CONFIG] = Ok p2) ->
      yturl = PyStr.strip (typed env "YouTube URL: ") ->
      main env w =
        (Raise SystemExit,
         {| heap := heap w; out := out w ++ preamble env ++ failure_report yturl p |})).
Proof.
  intros Hrun Hrc.
  assert (Hreq : forall w0, request_ytdlp_metadata env yturl w0 =
    (Raise SystemExit,
     {| heap := heap w0; out := out w0 ++ failure_report yturl p |})).
  { intros w0.
    unfold request_ytdlp_metadata, run_command, print_command, print, lift.
    fold (probe_command yturl).
    rewrite !bind_run. simpl. rewrite Hrun, bind_run.
    apply Z.eqb_neq in Hrc. rewrite Hrc. simpl.
    unfold failure_report, command_line. by rewrite <- !app_assoc. }
  split; [apply Hreq|].
  intros Hdir [p1 H1] [p2 H2] Hurl.
  unfold main. rewrite Hdir. simpl.
  unfold check_dependency_path, try_except, run_command, print_command, print,
    input, lift.
  rewrite !bind_run. simpl.
  change "ffmpeg" with (ffmpeg_bin CONFIG). rewrite H1. simpl.
  rewrite !bind_run. simpl.
  change "yt-dlp" with (ytdlp_bin CONFIG). rewrite H2. simpl.
  do 3 (rewrite bind_run; simpl). rewrite <- Hurl, bind_run, Hreq. simpl.
  unfold preamble, command_line. by rewrite <- !app_assoc.
Qed.

End ProbeFailure.

(** ** The selectors *)

Section Rows.
Context `{Numerics}.

Lemma writes_only_refl (keys : list string) (fmts : list nat) (h : list pydict) :
  writes_only keys fmts h h.
Proof. by repeat split. Qed.

Lemma writes_only_trans (keys : list string) (fmts1 fmts2 : list nat)
  (h1 h2 h3 : list pydict) :
  writes_only keys fmts1 h1 h2 ->
  writes_only keys fmts2 h2 h3 ->
  writes_only keys (fmts1 ++ fmts2) h1 h3.
Proof.
  intros (Hl1 & Hf1 & Hk1) (Hl2 & Hf2 & Hk2). repeat split.
  - congruence.
  - intros l Hl. rewrite in_app_iff in Hl. rewrite Hf2, Hf1; tauto.
  - intros l key Hkey. by rewrite Hk2, Hk1.
Qed.

(** Replacing one dict by one that agrees with it outside [keys]. *)
Lemma writes_only_insert (keys : list string) (fmt : nat) (h : list pydict)
  (d : pydict) :
  (forall key, ~ In key keys -> d !! key = (h !!! fmt) !! key) ->
  writes_only keys [fmt] h (<[fmt := d]> h).
Proof.
  intros Hd. repeat split.
  - apply length_insert.
  - intros l Hl. apply list_lookup_total_insert_ne. simpl in Hl. tauto.
  - intros l key Hkey. destruct (decide (fmt = l)) as [<-|Hne].
    + destruct (decide (fmt < length h)) as [Hlt|Hge].
      * rewrite list_lookup_total_insert_eq by done. by apply Hd.
      * rewrite list_insert_ge by lia. done.
    + by rewrite list_lookup_total_insert_ne.
Qed.

Lemma audio_row_other (d : pydict) (key : string) :
  ~ In key ["filesize"; "abr"; "asr"] -> audio_row d !! key = d !! key.
Proof.
  simpl. intros Hkey. unfold audio_row.
  rewrite !lookup_insert_ne; [done|intros <-; tauto..].
Qed.

Lemma video_row_quantities_other (d : pydict) (key : string) :
  ~ In key ["filesize"; "vbr"; "wxh"] -> video_row_quantities d !! key = d !! key.
Proof.
  simpl. intros Hkey. unfold video_row_quantities.
  rewrite !lookup_insert_ne; [done|intros <-; tauto..].
Qed.

Lemma video_row_other (d : pydict) (wxh key : string) :
  ~ In key ["filesize"; "vbr"; "wxh"] -> video_row d wxh !! key = d !! key.
Proof.
  intros Hkey. unfold video_row.
  rewrite lookup_insert_ne by (intros <-; simpl in Hkey; tauto).
  by apply video_row_quantities_other.
Qed.

End Rows.

Section SelectorRuns.
Context `{Numerics}.
Variable env : Env.

Lemma world_eta (w : world) : {| heap := heap w; out := out w |} = w.
Proof. by destruct w. Qed.

Lemma audio_option_in (fmt : nat) (w : world) :
  fmt < length (heap w) ->
  audio_option fmt w =
  (Ok {| label := audio_text (audio_row (heap w !!! fmt));
         value := get (audio_row (heap w !!! fmt)) "format_id";
         description := None |},
   {| heap := <[fmt := audio_row (heap w !!! fmt)]> (heap w); out := out w |}).
Proof.
  intros Hlt. unfold audio_option, load, setitem.
  repeat (rewrite bind_run; simpl).
  rewrite !list_lookup_total_insert_eq, !list_insert_insert_eq
    by (rewrite ?length_insert; done).
  reflexivity.
Qed.

Lemma audio_option_out (fmt : nat) (w : world) :
  length (heap w) <= fmt ->
  audio_option fmt w =
  (Ok {| label := audio_text (heap w !!! fmt);
         value := get (heap w !!! fmt) "format_id";
         description := None |}, w).
Proof.
  intros Hge. unfold audio_option, load, setitem.
  repeat (rewrite bind_run; simpl).
  rewrite !list_insert_ge by (rewrite ?length_insert; done).
  by rewrite world_eta.
Qed.

Lemma audio_option_writes (fmt : nat) (w : world) :
  exists option w',
    audio_option fmt w = (Ok option, w')
    /\ out w' = out w
    /\ writes_only ["filesize"; "abr"; "asr"] [fmt] (heap w) (heap w').
Proof.
  destruct (decide (fmt < length (heap w))) as [Hlt|Hge].
  - rewrite audio_option_in by done. eexists _, _. split; [done|]. split; [done|].
    simpl. apply writes_only_insert. intros key. apply audio_row_other.
  - rewrite audio_option_out by lia. eexists _, _. split; [done|]. split; [done|].
    apply writes_only_refl.
Qed.

End SelectorRuns.

Section VideoRuns.
Context `{Numerics}.
Variable env : Env.

Lemma format_wxh_quantities (d : pydict) :
  format_wxh (video_row_quantities d) = format_wxh d.
Proof.
  unfold format_wxh.
  rewrite !video_row_quantities_other by (simpl; intuition discriminate). done.
Qed.

Lemma video_option_in (fmt : nat) (w : world) :
  fmt < length (heap w) ->
  video_option fmt w =
  match format_wxh (heap w !!! fmt) with
  | Ok wxh =>
      (Ok {| label := video_text (video_row (heap w !!! fmt) wxh);
             value := get (video_row (heap w !!! fmt) wxh) "format_id";
             description := None |},
       {| heap := <[fmt := video_row (heap w !!! fmt) wxh]> (heap w);
          out := out w |})
  | Raise e =>
      (Raise e,
       {| heap := <[fmt := video_row_quantities (heap w !!! fmt)]> (heap w);
          out := out w |})
  end.
Proof.
  intros Hlt. unfold video_option, load, setitem, lift.
  do 5 (rewrite bind_run; simpl).
  rewrite !list_lookup_total_insert_eq, !list_insert_insert_eq
    by (rewrite ?length_insert; done).
  fold (video_row_quantities (heap w !!! fmt)).
  rewrite bind_run, format_wxh_quantities.
  destruct (format_wxh (heap w !!! fmt)) as [wxh|e]; [|done].
  repeat (rewrite bind_run; simpl).
  rewrite !list_lookup_total_insert_eq, !list_insert_insert_eq
    by (rewrite ?length_insert; done).
  reflexivity.
Qed.

Lemma video_option_out (fmt : nat) (w : world) :
  length (heap w) <= fmt ->
  video_option fmt w =
  match format_wxh (heap w !!! fmt) with
  | Ok wxh =>
      (Ok {| label := video_text (heap w !!! fmt);
             value := get (heap w !!! fmt) "format_id";
             description := None |}, w)
  | Raise e => (Raise e, w)
  end.
Proof.
  intros Hge. unfold video_option, load, setitem, lift.
  do 5 (rewrite bind_run; simpl).
  rewrite !list_insert_ge by (rewrite ?length_insert; done).
  rewrite bind_run.
  destruct (format_wxh (heap w !!! fmt)) as [wxh|e]; [|by rewrite world_eta].
  repeat (rewrite bind_run; simpl).
  rewrite !list_insert_ge by (rewrite ?length_insert; done).
  by rewrite world_eta.
Qed.

(** The body writes only its three keys, and it raises exactly the
    error of the [wxh] format. *)
Lemma video_option_writes (fmt : nat) (w : world) :
  exists r w',
    video_option fmt w = (r, w')
    /\ out w' = out w
    /\ writes_only ["filesize"; "vbr"; "wxh"] [fmt] (heap w) (heap w')
    /\ match format_wxh (heap w !!! fmt) with
       | Ok _ => exists option, r = Ok option
       | Raise e => r = Raise e
       end.
Proof.
  destruct (decide (fmt < length (heap w))) as [Hlt|Hge].
  - rewrite video_option_in by done.
    destruct (format_wxh (heap w !!! fmt)) as [wxh|e]; eexists _, _;
      (split; [done|]); (split; [done|]); (split; [|by eauto]); simpl;
      apply writes_only_insert; intros key.
    + apply video_row_other.
    + apply video_row_quantities_other.
  - rewrite video_option_out by lia.
    destruct (format_wxh (heap w !!! fmt)) as [wxh|e]; eexists _, _;
      (split; [done|]); (split; [done|]); (split; [|by eauto]);
      apply writes_only_refl.
Qed.

End VideoRuns.

Section Loops.
Context `{Numerics}.
Variable env : Env.

Lemma writes_only_cons (keys : list string) (fmt : nat) (fmts : list nat)
  (h h' : list pydict) :
  writes_only keys [fmt] h h' -> writes_only keys (fmt :: fmts) h h'.
Proof.
  intros Hw. change (fmt :: fmts) with ([fmt] ++ fmts).
  eapply writes_only_trans; [exact Hw|apply writes_only_refl].
Qed.

(** A loop whose body writes only [keys] of its own descriptor writes
    only [keys] of the listed descriptors, however it ends. *)
Lemma options_loop_writes (keys : list string) (body : nat -> M PickOption) :
  (forall fmt w, exists r w',
      body fmt w = (r, w') /\ out w' = out w
      /\ writes_only keys [fmt] (heap w) (heap w')) ->
  forall fmts options w, exists r w',
    options_loop body fmts options w = (r, w') /\ out w' = out w
    /\ writes_only keys fmts (heap w) (heap w').
Proof.
  intros Hbody fmts. induction fmts as [|fmt fmts IH]; intros options w; simpl.
  - eexists _, _. split; [done|]. split; [done|]. apply writes_only_refl.
  - rewrite bind_run. destruct (Hbody fmt w) as (r & w1 & -> & Hout & Hw).
    destruct r as [option|e].
    + destruct (IH (options ++ [option]) w1) as (r' & w' & -> & Hout' & Hw').
      eexists _, _. split; [done|]. split; [congruence|].
      change (fmt :: fmts) with ([fmt] ++ fmts). by eapply writes_only_trans.
    + eexists _, _. split; [done|]. split; [done|]. by apply writes_only_cons.
Qed.

(** A loop that returns has appended one option per descriptor. *)
Lemma options_loop_length (body : nat -> M PickOption) (fmts : list nat)
  (options options' : list PickOption) (w w' : world) :
  options_loop body fmts options w = (Ok options', w') ->
  length options' = length options + length fmts.
Proof.
  revert options w. induction fmts as [|fmt fmts IH]; intros options w; simpl.
  - intros [= <- _]. lia.
  - rewrite bind_run. destruct (body fmt w) as [[option|e] w1]; [|discriminate].
    intros Hr%IH. rewrite Hr, length_app. simpl. lia.
Qed.

Lemma index_of_value_bound (options : list PickOption) (dflt : string)
  (ind i : nat) :
  index_of_value options dflt ind = Some i -> i < ind + length options.
Proof.
  revert ind. induction options as [|o options IH]; intros ind; simpl; [done|].
  destruct (eq_str (value o) dflt).
  - intros [= <-]. lia.
  - intros Hi%IH. lia.
Qed.

Lemma default_index_bound (start : nat) (dflt : option string)
  (options : list PickOption) :
  start < length options -> default_index_from start dflt options < length options.
Proof.
  intros Hs. unfold default_index_from. destruct dflt as [d|]; [|done].
  destruct (index_of_value options d 0) as [i|] eqn:Hi; simpl; [|done].
  by apply index_of_value_bound in Hi.
Qed.

(** A menu with a valid default returns one of its options and leaves
    the store alone. *)
Lemma pick_run (options : list PickOption) (title : string) (default_index : nat)
  (w : world) :
  default_index < length options ->
  exists option,
    In option options
    /\ pick env options title default_index w =
       (Ok option,
        {| heap := heap w; out := out w ++ [EPick title options default_index] |}).
Proof.
  intros Hlt. unfold pick.
  destruct (length options =? 0)%nat eqn:H0; [apply Nat.eqb_eq in H0; lia|].
  destruct (length options <=? default_index)%nat eqn:Hle; [apply Nat.leb_le in Hle; lia|].
  simpl. rewrite bind_run. simpl.
  destruct (lookup_lt_is_Some_2 options
    ((default_index + cursor_downs env title) mod length options)) as [o Ho].
  { apply Nat.mod_upper_bound. lia. }
  rewrite Ho. exists o. split; [|done].
  apply list_elem_of_In. by eapply list_elem_of_lookup_2.
Qed.

Lemma pick_heap (options : list PickOption) (title : string) (default_index : nat)
  (w : world) :
  heap (snd (pick env options title default_index w)) = heap w.
Proof.
  unfold pick. destruct (_ || _); [done|]. rewrite bind_run. simpl.
  by destruct (options !! _).
Qed.

End Loops.

Section SelectorTheorems.
Context `{Numerics}.
Variable env : Env.

Lemma audio_selector_writes (formats : list nat) (dflt : option string) (w : world) :
  writes_only ["filesize"; "abr"; "asr"] formats (heap w)
    (heap (snd (pick_yt_audio_format env formats dflt w))).
Proof.
  unfold pick_yt_audio_format. rewrite bind_run.
  match goal with
  | |- context [options_loop audio_option formats ?o w] =>
      destruct (options_loop_writes ["filesize"; "abr"; "asr"] audio_option)
        with (fmts := formats) (options := o) (w := w)
        as (r & w1 & -> & _ & Hw)
  end.
  { intros fmt w0. destruct (audio_option_writes fmt w0) as (o & w' & ? & ? & ?).
    eauto. }
  destruct r as [options|e]; [|done].
  rewrite bind_run.
  pose proof (pick_heap env options "Select audio"
                (default_index_from 0 dflt options) w1) as Hp.
  destruct (pick env options _ _ w1) as [[o|e] w2]; simpl in *; by rewrite Hp.
Qed.

Lemma video_selector_writes (formats : list nat) (dflt : option string) (w : world) :
  writes_only ["filesize"; "vbr"; "wxh"] formats (heap w)
    (heap (snd (pick_yt_video_format env formats dflt w))).
Proof.
  unfold pick_yt_video_format. rewrite bind_run.
  match goal with
  | |- context [options_loop video_option formats ?o w] =>
      destruct (options_loop_writes ["filesize"; "vbr"; "wxh"] video_option)
        with (fmts := formats) (options := o) (w := w)
        as (r & w1 & -> & _ & Hw)
  end.
  { intros fmt w0.
    destruct (video_option_writes fmt w0) as (r & w' & ? & ? & ? & _). eauto. }
  destruct r as [options|e]; [|done].
  rewrite bind_run.
  pose proof (pick_heap env options "Select video"
                (default_index_from 0 dflt options) w1) as Hp.
  destruct (pick env options _ _ w1) as [[o|e] w2]; simpl in *; by rewrite Hp.
Qed.

Lemma thumbnail_selector_writes (md : Metadata) (dflt : option string) (w : world) :
  heap (snd (pick_yt_thumbnail_format env md dflt w)) = heap w.
Proof.
  unfold pick_yt_thumbnail_format. rewrite bind_run.
  match goal with
  | |- context [pick env ?o ?t ?i w] =>
      pose proof (pick_heap env o t i w) as Hp;
      destruct (pick env o t i w) as [[o'|e] w2]
  end; simpl in *; by rewrite Hp.
Qed.

Lemma format_wxh_ok (d : pydict) :
  is_Some (d !! "width") -> is_Some (d !! "height") ->
  exists wxh, format_wxh d = Ok wxh.
Proof. unfold format_wxh. intros [w ->] [h ->]. eauto. Qed.

Lemma format_wxh_raise (d : pydict) (e : exn) :
  format_wxh d = Raise e ->
  (d !! "width" = None \/ d !! "height" = None)
  /\ (e = KeyError "width" \/ e = KeyError "height").
Proof.
  unfold format_wxh. destruct (d !! "width"); [destruct (d !! "height")|];
    intros [= <-]; auto.
Qed.

Lemma video_loop_ok (fmts : list nat) (options : list PickOption) (w : world) :
  (forall l, In l fmts ->
     is_Some ((heap w !!! l) !! "width") /\ is_Some ((heap w !!! l) !! "height")) ->
  exists options' w',
    options_loop video_option fmts options w = (Ok options', w')
    /\ out w' = out w.
Proof.
  revert options w. induction fmts as [|fmt fmts IH]; intros options w Hall; simpl.
  - eauto.
  - rewrite bind_run.
    destruct (video_option_writes fmt w) as (r & w1 & -> & Hout & Hw & Hr).
    destruct (Hall fmt) as [Hwd Hht]; [by left|].
    destruct (format_wxh_ok _ Hwd Hht) as [wxh Hwxh]. rewrite Hwxh in Hr.
    destruct Hr as [option ->].
    destruct (IH (options ++ [option]) w1) as (options' & w' & -> & Hout').
    + intros l Hl. destruct Hw as (_ & _ & Hk).
      rewrite !Hk by (simpl; intuition discriminate). apply Hall. by right.
    + eexists _, _. split; [done|]. congruence.
Qed.

Lemma video_loop_fail (fmts : list nat) (options : list PickOption) (w : world) :
  (exists l, In l fmts
     /\ ((heap w !!! l) !! "width" = None \/ (heap w !!! l) !! "height" = None)) ->
  exists key w',
    options_loop video_option fmts options w = (Raise (KeyError key), w')
    /\ (key = "width" \/ key = "height")
    /\ out w' = out w.
Proof.
  revert options w. induction fmts as [|fmt fmts IH]; intros options w (l & Hl & Hmiss);
    simpl; [done|].
  rewrite bind_run.
  destruct (video_option_writes fmt w) as (r & w1 & -> & Hout & Hw & Hr).
  destruct (format_wxh (heap w !!! fmt)) as [wxh|e] eqn:Hwxh.
  - destruct Hr as [option ->].
    destruct (IH (options ++ [option]) w1) as (key & w' & -> & Hkey & Hout').
    + exists l. destruct Hw as (_ & _ & Hk).
      rewrite !Hk by (simpl; intuition discriminate).
      split; [|done]. destruct Hl as [<-|Hl]; [|done].
      unfold format_wxh in Hwxh. destruct Hmiss as [Hm|Hm]; rewrite Hm in Hwxh;
        [discriminate|]. by destruct (_ !! "width").
    + eexists _, _. split; [done|]. split; [done|]. congruence.
  - subst r. apply format_wxh_raise in Hwxh as [_ [->| ->]];
      eexists _, _; (split; [done|]); auto.
Qed.

(** C10: the video selector returns a selection when every candidate
    has both [width] and [height]; when a candidate lacks one of them it
    ends in the KeyError of that key, before any menu is shown. *)
Theorem video_selector_needs_width_and_height (formats : list nat)
  (dflt : option string) (w : world) :
  ((forall l, In l formats ->
      is_Some ((heap w !!! l) !! "width") /\ is_Some ((heap w !!! l) !! "height")) ->
   exists selected w', pick_yt_video_format env formats dflt w = (Ok selected, w'))
  /\ ((exists l, In l formats
         /\ ((heap w !!! l) !! "width" = None \/ (heap w !!! l) !! "height" = None)) ->
      exists key w',
        pick_yt_video_format env formats dflt w = (Raise (KeyError key), w')
        /\ (key = "width" \/ key = "height")
        /\ out w' = out w).
Proof.
  split.
  - intros Hall. unfold pick_yt_video_format. rewrite bind_run.
    match goal with
    | |- context [options_loop video_option formats ?o w] =>
        destruct (video_loop_ok formats o w Hall) as (options & w1 & Hloop & _)
    end.
    rewrite Hloop, bind_run.
    destruct (pick_run env options "Select video"
                (default_index_from 0 dflt options) w1) as (o & _ & ->).
    + apply default_index_bound. apply options_loop_length in Hloop.
      rewrite Hloop. simpl. lia.
    + eauto.
  - intros Hmiss. unfold pick_yt_video_format. rewrite bind_run.
    match goal with
    | |- context [options_loop video_option formats ?o w] =>
        destruct (video_loop_fail formats o w Hmiss) as (key & w1 & -> & Hkey & Hout)
    end.
    eauto.
Qed.

End SelectorTheorems.

(** ** The rendered candidate lines *)

Section Columns.
Context `{Numerics}.

Lemma get_quantity_number (v : pyval) (model : string) (info : option string)
  (x : float) :
  py_float v = Some x -> get_quantity v model info = PQuantity (inr x) model.
Proof. unfold get_quantity. by intros ->. Qed.

Lemma get_absent (d : pydict) (key : string) : d !! key = None -> get d key = PNone.
Proof. unfold get. by intros ->. Qed.

Lemma audio_row_lookup (d : pydict) :
  audio_row d !! "filesize" = Some (get_quantity (get d "filesize") "B" (Some "N/A"))
  /\ audio_row d !! "abr" = Some (get_quantity (get d "abr") "" (Some "N/A"))
  /\ audio_row d !! "asr" = Some (get_quantity (get d "asr") "Hz" None).
Proof.
  unfold audio_row, get. repeat split.
  - rewrite !lookup_insert_ne by done. by rewrite lookup_insert_eq.
  - rewrite !lookup_insert_ne by done. rewrite lookup_insert_eq.
    by rewrite lookup_insert_ne.
  - rewrite lookup_insert_eq. by rewrite !lookup_insert_ne.
Qed.

Lemma video_row_lookup (d : pydict) (wxh : string) :
  video_row d wxh !! "filesize"
    = Some (get_quantity (get d "filesize") "B" (Some "N/A"))
  /\ video_row d wxh !! "vbr" = Some (get_quantity (get d "vbr") "" None)
  /\ video_row d wxh !! "wxh" = Some (PStr wxh)
  /\ video_row d wxh !! "fps" = d !! "fps".
Proof.
  unfold video_row, video_row_quantities, get. repeat split.
  - rewrite !lookup_insert_ne by done. by rewrite lookup_insert_eq.
  - rewrite !lookup_insert_ne by done. rewrite lookup_insert_eq.
    by rewrite lookup_insert_ne.
  - by rewrite lookup_insert_eq.
  - by rewrite !lookup_insert_ne.
Qed.

Lemma missing_no_number (d : pydict) (key : string) :
  d !! key = None -> no_number d key.
Proof. unfold no_number. by intros ->%get_absent. Qed.

Lemma get_quantity_info (v : pyval) (model info : string) :
  py_float v = None -> get_quantity v model (Some info) = PStr info.
Proof. unfold get_quantity. by intros ->. Qed.

Lemma get_quantity_zero (v : pyval) (model : string) :
  py_float v = None -> get_quantity v model None = PQuantity (inl 0%Z) model.
Proof. unfold get_quantity. by intros ->. Qed.

(** What the two columns without an [info] text show for a descriptor
    that has no number there: the quantity zero, not the token. *)
Lemma rate_columns_default_to_zero (d : pydict) (wxh : string) :
  (no_number d "asr" ->
   shows (audio_row d) "asr" 10 (quantity_str (inl 0%Z) "Hz"))
  /\ (no_number d "vbr" ->
      shows (video_row d wxh) "vbr" 10 (quantity_str (inl 0%Z) "")).
Proof.
  destruct (audio_row_lookup d) as (_ & _ & Hasr).
  destruct (video_row_lookup d wxh) as (_ & Hvbr & _).
  unfold shows, column, get_or, no_number.
  split; intros Habs; rewrite ?Hasr, ?Hvbr, (get_quantity_zero _ _ Habs); done.
Qed.

End Columns.

Section ColumnTheorem.
Context `{Numerics}.

Lemma quantity_or_token_shown (d : pydict) (key units : string) :
  py_str (get_quantity (get d key) units (Some "N/A"))
  = quantity_or_token d key units.
Proof.
  unfold quantity_or_token, get_quantity. by destruct (py_float (get d key)).
Qed.

Lemma plain_audio_row (d : pydict) (key : string) :
  ~ In key ["filesize"; "abr"; "asr"] ->
  get_or (audio_row d) key (PStr "N/A") = get_or d key (PStr "N/A").
Proof. intros Hkey. unfold get_or. by rewrite audio_row_other. Qed.

Lemma plain_video_row (d : pydict) (wxh key : string) :
  ~ In key ["filesize"; "vbr"; "wxh"] ->
  get_or (video_row d wxh) key (PStr "N/A") = get_or d key (PStr "N/A").
Proof. intros Hkey. unfold get_or. by rewrite video_row_other. Qed.

(** C7, amended: the line of a candidate, character by character.  In
    an audio line the id, codec, extension and language show as their
    plain [str], or as the token N/A when missing; the bitrate and the
    file size show as the quantiphy quantity of their number, without
    unit and with the unit B, or as the token N/A when they are
    missing, null or no number; and a sample rate that is a number
    shows as its quantity with the unit Hz.  In a video line, for a
    candidate with width and height, the id, codec and extension show
    in the same way, the format as width x height, the file size as in
    an audio line, a bitrate that is a number as its quantity without
    unit, and the frame rate as its plain [str], without unit, or as
    the token N/A when missing.  Every column is padded on the right
    to its width.  (What a sample rate or a video bitrate without
    number shows is not part of this statement.) *)
Theorem numeric_columns (fmt : nat) (w : world) :
  fmt < length (heap w) ->
  let d := heap w !!! fmt in
  (exists asr_text w',
      audio_option fmt w =
      (Ok {| label :=
               "id: " +:+ PyStr.ljust 5 (plain d "format_id")
               +:+ "  codec: " +:+ PyStr.ljust 10 (plain d "acodec")
               +:+ "  ext: " +:+ PyStr.ljust 5 (plain d "audio_ext")
               +:+ "  lang: " +:+ PyStr.ljust 3 (plain d "language")
               +:+ "  bitrate: " +:+ PyStr.ljust 7 (quantity_or_token d "abr" "")
               +:+ "  sample rate: " +:+ PyStr.ljust 10 asr_text
               +:+ "  filesize: "
               +:+ PyStr.ljust 10 (quantity_or_token d "filesize" "B");
             value := get d "format_id";
             description := None |}, w')
      /\ forall x, py_float (get d "asr") = Some x ->
           asr_text = quantity_str (inr x) "Hz")
  /\ forall width height,
       d !! "width" = Some width -> d !! "height" = Some height ->
       exists vbr_text w',
         video_option fmt w =
         (Ok {| label :=
                  "id: " +:+ PyStr.ljust 5 (plain d "format_id")
                  +:+ "  codec: " +:+ PyStr.ljust 15 (plain d "vcodec")
                  +:+ "  ext: " +:+ PyStr.ljust 5 (plain d "video_ext")
                  +:+ "  format: "
                  +:+ PyStr.ljust 10 (py_str width +:+ "x" +:+ py_str height)
                  +:+ "  bitrate: " +:+ PyStr.ljust 10 vbr_text
                  +:+ "  fps: " +:+ PyStr.ljust 4 (plain d "fps")
                  +:+ "  filesize: "
                  +:+ PyStr.ljust 10 (quantity_or_token d "filesize" "B");
                value := get d "format_id";
                description := None |}, w')
         /\ forall x, py_float (get d "vbr") = Some x ->
              vbr_text = quantity_str (inr x) "".
Proof.
  intros Hlt d. split.
  - rewrite audio_option_in by done. fold d.
    destruct (audio_row_lookup d) as (Hfs & Habr & Hasr).
    exists (py_str (get_quantity (get d "asr") "Hz" None)). eexists. split.
    + f_equal. f_equal. unfold audio_text, column, plain.
      rewrite !plain_audio_row by (simpl; intuition discriminate).
      replace (get_or (audio_row d) "abr" (PStr "N/A"))
        with (get_quantity (get d "abr") "" (Some "N/A"))
        by (unfold get_or; by rewrite Habr).
      replace (get_or (audio_row d) "asr" (PStr "N/A"))
        with (get_quantity (get d "asr") "Hz" None)
        by (unfold get_or; by rewrite Hasr).
      replace (get_or (audio_row d) "filesize" (PStr "N/A"))
        with (get_quantity (get d "filesize") "B" (Some "N/A"))
        by (unfold get_or; by rewrite Hfs).
      rewrite !quantity_or_token_shown. f_equal.
      unfold get. by rewrite audio_row_other by (simpl; intuition discriminate).
    + intros x Hx. by rewrite (get_quantity_number _ _ _ _ Hx).
  - intros width height Hwd Hht. rewrite video_option_in by done. fold d.
    assert (Hwxh : format_wxh d = Ok (py_str width +:+ "x" +:+ py_str height))
      by (unfold format_wxh; by rewrite Hwd, Hht).
    rewrite Hwxh.
    destruct (video_row_lookup d (py_str width +:+ "x" +:+ py_str height))
      as (Hfs & Hvbr & Hw & _).
    exists (py_str (get_quantity (get d "vbr") "" None)). eexists. split.
    + f_equal. f_equal. unfold video_text, column, plain.
      rewrite !plain_video_row by (simpl; intuition discriminate).
      set (wxh := py_str width +:+ "x" +:+ py_str height) in *.
      replace (get_or (video_row d wxh) "vbr" (PStr "N/A"))
        with (get_quantity (get d "vbr") "" None)
        by (unfold get_or; by rewrite Hvbr).
      replace (get_or (video_row d wxh) "wxh" (PStr "N/A")) with (PStr wxh)
        by (unfold get_or; by rewrite Hw).
      replace (get_or (video_row d wxh) "filesize" (PStr "N/A"))
        with (get_quantity (get d "filesize") "B" (Some "N/A"))
        by (unfold get_or; by rewrite Hfs).
      rewrite (plain_video_row d wxh "fps") by (simpl; intuition discriminate).
      rewrite !quantity_or_token_shown. f_equal.
      unfold get. by rewrite video_row_other by (simpl; intuition discriminate).
    + intros x Hx. by rewrite (get_quantity_number _ _ _ _ Hx).
Qed.

End ColumnTheorem.

(** ** Paths: what [with_suffix] gives for the suffixes of the script *)

Section Paths.

Lemma append_cons (c : ascii) (s t : string) :
  String c s +:+ t = String c (s +:+ t).
Proof. reflexivity. Qed.

Lemma length_append (s t : string) :
  String.length (s +:+ t) = String.length s + String.length t.
Proof. induction s as [|c s IH]; [done|]. rewrite append_cons. simpl. by rewrite IH. Qed.

Lemma length_substring_le (n m : nat) (s : string) :
  String.length (String.substring n m s) <= m.
Proof.
  revert n m. induction s as [|c s IH]; intros [|n] [|m]; simpl; try lia.
  - specialize (IH 0 m). lia.
  - apply IH.
  - apply IH.
Qed.

Lemma length_substring_prefix (m : nat) (s : string) :
  m <= String.length s -> String.length (String.substring 0 m s) = m.
Proof.
  revert m. induction s as [|c s IH]; intros [|m]; simpl; try lia.
  intros Hm. rewrite IH; lia.
Qed.

Lemma substring_all (s : string) : String.substring 0 (String.length s) s = s.
Proof. induction s as [|c s IH]; [done|]. simpl. by rewrite IH. Qed.

Lemma substring_append_drop (s t : string) (m : nat) :
  String.substring (String.length s) m (s +:+ t) = String.substring 0 m t.
Proof. induction s as [|c s IH]; [done|]. rewrite append_cons. simpl. apply IH. Qed.

Lemma rfind_dot_none (s : string) :
  PyStr.contains_char "."%char s = false -> PyStr.rfind_dot s = None.
Proof.
  induction s as [|c s IH]; [done|].
  cbn [PyStr.contains_char PyStr.rfind_dot].
  destruct (Ascii.eqb "." c) eqn:Hc; [intros; discriminate|].
  intros Hs. rewrite (IH Hs). by rewrite Ascii.eqb_sym, Hc.
Qed.

Lemma rfind_dot_extension (stem ext : string) :
  PyStr.contains_char "."%char ext = false ->
  PyStr.rfind_dot (stem +:+ String "." ext) = Some (String.length stem).
Proof.
  intros Hext. induction stem as [|c stem IH].
  - change ("" +:+ String "." ext) with (String "." ext).
    cbn [PyStr.rfind_dot]. by rewrite (rfind_dot_none _ Hext).
  - rewrite append_cons. cbn [PyStr.rfind_dot String.length]. by rewrite IH.
Qed.

Lemma suffix_shorter (p : Path) :
  name p <> "" -> String.length (suffix p) < String.length (name p).
Proof.
  intros Hname. assert (0 < String.length (name p)).
  { destruct (name p); [done|simpl; lia]. }
  unfold suffix. destruct (PyStr.rfind_dot (name p)) as [i|]; [|simpl; lia].
  destruct ((0 <? i) && (i <? String.length (name p) - 1))%nat eqn:Hi; [|simpl; lia].
  apply andb_prop in Hi as [Hi1%Nat.ltb_lt Hi2%Nat.ltb_lt].
  pose proof (length_substring_le i (String.length (name p) - i) (name p)). lia.
Qed.

(** Replacing the suffix by a dot and an extension without dot or
    separator keeps the parent, leaves a name, and the new path has that
    suffix. *)
Lemma with_suffix_extension (p : Path) (ext : string) :
  name p <> "" ->
  ext <> "" ->
  PyStr.contains_char "."%char ext = false ->
  PyStr.contains_char "/"%char ext = false ->
  exists stem,
    stem <> ""
    /\ with_suffix p (String "." ext)
       = Ok {| parent := parent p; name := stem +:+ String "." ext |}
    /\ suffix {| parent := parent p; name := stem +:+ String "." ext |}
       = String "." ext.
Proof.
  intros Hname Hext Hdot Hsep.
  pose proof (suffix_shorter p Hname) as Hlt.
  set (stem := String.substring 0 (String.length (name p) - String.length (suffix p))
                 (name p)).
  assert (Hstem : String.length stem = String.length (name p) - String.length (suffix p))
    by (apply length_substring_prefix; lia).
  exists stem. split; [|split].
  - intros Hs. rewrite Hs in Hstem. simpl in Hstem. lia.
  - unfold with_suffix. simpl. rewrite Hsep. simpl.
    destruct ext as [|e ext]; [done|]. simpl.
    apply String.eqb_neq in Hname. by rewrite Hname.
  - unfold suffix. simpl. rewrite (rfind_dot_extension _ _ Hdot).
    rewrite length_append. simpl.
    assert (0 < String.length ext) by (destruct ext; [done|simpl; lia]).
    assert (0 < String.length stem) by lia.
    replace ((0 <? String.length stem)
             && (String.length stem <? String.length stem + S (String.length ext) - 1))%nat
      with true
      by (symmetry; apply andb_true_intro; split; apply Nat.ltb_lt; lia).
    rewrite substring_append_drop.
    replace (String.length stem + S (String.length ext) - String.length stem)
      with (String.length (String "." ext)) by (simpl; lia).
    apply substring_all.
Qed.

End Paths.

(** ** The invocation builder *)

Section Builder.
Context `{Numerics}.
Variable env : Env.

Lemma selection_truthy (v : pyval) :
  selection v -> truthy v = true <-> v <> PNone.
Proof.
  intros [->|(s & -> & Hs)]; simpl; [split; [discriminate|done]|].
  apply String.eqb_neq in Hs. rewrite Hs. simpl. split; [discriminate|done].
Qed.

Lemma audio_only_iff (a v : pyval) :
  selection a -> selection v ->
  truthy (audio_only a v) = true <-> a <> PNone /\ v = PNone.
Proof.
  intros [->|(s & -> & Hs)] [->|(t & -> & Ht)]; unfold audio_only, py_and; simpl;
    try (apply String.eqb_neq in Hs; rewrite Hs);
    try (apply String.eqb_neq in Ht; rewrite Ht); simpl;
    (split; [try discriminate | try (intros [? ?]; congruence)]); done.
Qed.

Lemma format_expression_selections (a v : pyval) :
  selection a -> selection v ->
  exists expr, format_expression a v = Ok expr.
Proof.
  intros [->|(s & -> & Hs)] [->|(t & -> & Ht)]; unfold format_expression; simpl;
    try (apply String.eqb_neq in Hs; rewrite Hs);
    try (apply String.eqb_neq in Ht; rewrite Ht); simpl; eauto.
Qed.

(** A run of the builder on two selections and a path with a name. *)
Lemma builder_run (yturl : string) (filepath : Path) (a v : pyval)
  (thumbnail : pyval * list string) (w : world) :
  selection a -> selection v -> name filepath <> "" ->
  exists stem expr rest,
    let ao := truthy (audio_only a v) in
    let predicted :=
      {| parent := parent filepath; name := stem +:+ String "." (container ao) |} in
    let command :=
      download_command yturl expr (snd thumbnail ++ container_flags ao) in
    stem <> ""
    /\ with_suffix filepath (String "." (container ao)) = Ok predicted
    /\ suffix predicted = String "." (container ao)
    /\ format_expression a v = Ok expr
    /\ invocation_builder env yturl filepath a v thumbnail w =
       (Ok tt,
        {| heap := heap w;
           out := out w ++ [command_line command; EPopen command; EExists predicted]
                        ++ rest |}).
Proof.
  intros Ha Hv Hname.
  destruct (format_expression_selections a v Ha Hv) as [expr Hexpr].
  set (ao := truthy (audio_only a v)).
  destruct (with_suffix_extension filepath (container ao) Hname)
    as (stem & Hstem & Hws & Hsfx); [by destruct ao..|].
  set (predicted := {| parent := parent filepath;
                       name := stem +:+ String "." (container ao) |}) in *.
  assert (Hjpg : exists jpg, with_suffix predicted ".jpg" = Ok jpg).
  { destruct (with_suffix_extension predicted "jpg") as (st & _ & Hj & _); try done.
    - simpl. intros Hn. apply (f_equal String.length) in Hn.
      rewrite length_append in Hn. simpl in Hn. lia.
    - eauto. }
  destruct Hjpg as [jpg Hjpg].
  exists stem, expr.
  unfold invocation_builder, ytdlp_download, print_command, print, input, lift.
  unfold ao in *. clear ao.
  destruct (truthy (audio_only a v)) eqn:Eao; simpl in Hws, Hjpg |- *;
    repeat (rewrite bind_run; simpl); rewrite Hws; simpl;
    repeat (rewrite bind_run; simpl); rewrite Hexpr; simpl;
    repeat (rewrite bind_run; simpl);
    (destruct (exists_after env predicted); simpl;
     [destruct (fst thumbnail)|]);
    eexists; (split; [done|]); (split; [done|]); (split; [done|]);
    (split; [done|]);
    repeat (rewrite bind_run; simpl); rewrite ?Hjpg; simpl;
    repeat (rewrite bind_run; simpl);
    unfold download_command, command_line, emit; simpl;
    rewrite <- ?app_assoc; simpl; reflexivity.
Qed.

End Builder.

(** ** What the selectors return *)

Section Selections.
Context `{Numerics}.
Variable env : Env.

Lemma audio_option_value (fmt : nat) (w w' : world) (o : PickOption) :
  audio_option fmt w = (Ok o, w') -> value o = get (heap w !!! fmt) "format_id".
Proof.
  destruct (decide (fmt < length (heap w))) as [Hlt|Hge].
  - rewrite audio_option_in by done. intros [= <- _]. simpl. unfold get.
    by rewrite audio_row_other by (simpl; intuition discriminate).
  - rewrite audio_option_out by lia. by intros [= <- _].
Qed.

Lemma video_option_value (fmt : nat) (w w' : world) (o : PickOption) :
  video_option fmt w = (Ok o, w') -> value o = get (heap w !!! fmt) "format_id".
Proof.
  destruct (decide (fmt < length (heap w))) as [Hlt|Hge].
  - rewrite video_option_in by done.
    destruct (format_wxh (heap w !!! fmt)); [|discriminate].
    intros [= <- _]. simpl. unfold get.
    by rewrite video_row_other by (simpl; intuition discriminate).
  - rewrite video_option_out by lia.
    destruct (format_wxh (heap w !!! fmt)); [|discriminate]. by intros [= <- _].
Qed.






End Selections.

Section BuilderTheorems.
Context `{Numerics}.
Variable env : Env.

(** A run that gets to the builder is, from there on, the builder. *)
Lemma main_run (w : world) (fs : Formats) (a v : pyval)
  (t : pyval * list string) (w4 : world) (filepath : Path) :
  reaches_builder env w fs a v t w4 ->
  md_filename (metadata fs) = Some filepath ->
  main env w =
  invocation_builder env (entered_url env) filepath a v t w4.
Proof.
  intros (Hdir & [p1 H1] & [p2 H2] & w1 & w2 & w3 & Hreq & Ha & Hv & Ht) Hfile.
  unfold main. rewrite Hdir. simpl.
  unfold check_dependency_path, try_except, run_command, print_command, print,
    input, lift.
  rewrite !bind_run. simpl.
  change "ffmpeg" with (ffmpeg_bin CONFIG). rewrite H1. simpl.
  rewrite !bind_run. simpl.
  change "yt-dlp" with (ytdlp_bin CONFIG). rewrite H2. simpl.
  do 3 (rewrite bind_run; simpl). rewrite bind_run.
  fold (entered_url env).
  match goal with
  | |- context [request_ytdlp_metadata env (entered_url env) ?w0] =>
      replace w0 with {| heap := heap w; out := out w ++ preamble env |}
        by (unfold preamble, command_line; by rewrite <- !app_assoc)
  end.
  rewrite Hreq, bind_run. simpl. rewrite Hfile. simpl. rewrite bind_run.
  change (audio_format CONFIG) with (Some "best") in Ha. rewrite Ha, bind_run.
  change (video_format CONFIG) with (Some "best") in Hv. rewrite Hv, bind_run.
  change (thumbnail_format CONFIG) with (@None string) in Ht. by rewrite Ht.
Qed.

Lemma builder_downloads (yturl : string) (filepath : Path) (a v : pyval)
  (thumbnail : pyval * list string) (w : world) :
  selection a -> selection v -> name filepath <> "" ->
  exists expr,
    format_expression a v = Ok expr
    /\ downloads_with env yturl filepath a v thumbnail w expr (truthy (audio_only a v)).
Proof.
  intros Ha Hv Hname.
  destruct (builder_run env yturl filepath a v thumbnail w Ha Hv Hname)
    as (stem & expr & rest & _ & Hws & Hsfx & Hexpr & Hrun).
  exists expr. split; [done|]. by exists stem, rest.
Qed.

(** C1, amended: for the audio selection 140 and the video selection
    137 the format expression handed to the download is 140+137, the
    audio id first; the flags end with the merge into mp4 and the
    predicted path is the probe's file name with the suffix .mp4. *)
Theorem format_expression_audio_first (yturl : string) (filepath : Path)
  (thumbnail : pyval * list string) (w : world) :
  name filepath <> "" ->
  format_expression (PStr "140") (PStr "137") = Ok "140+137"
  /\ container false = "mp4"
  /\ container_flags false = ["--merge-output-format"; "mp4"]
  /\ downloads_with env yturl filepath (PStr "140") (PStr "137") thumbnail w
       "140+137" false.
Proof.
  intros Hname. split; [done|]. split; [done|]. split; [done|].
  destruct (builder_downloads yturl filepath (PStr "140") (PStr "137") thumbnail w)
    as (expr & Hexpr & Hrun); [right; by eexists|right; by eexists|done|].
  by injection Hexpr as <-.
Qed.

(** C2: for every pair of selections, [audio_only] is true exactly when
    there is an audio selection and no video selection; then the flags
    of the download end with the extraction to mp3 and the predicted
    path has the suffix .mp3, and otherwise they end with the merge into
    mp4 and the suffix is .mp4. *)
Theorem audio_only_decides_container (yturl : string) (filepath : Path)
  (a v : pyval) (thumbnail : pyval * list string) (w : world) :
  selection a -> selection v -> name filepath <> "" ->
  (truthy (audio_only a v) = true <-> a <> PNone /\ v = PNone)
  /\ (container true = "mp3"
      /\ container_flags true = ["-x"; "--audio-format"; "mp3"])
  /\ (container false = "mp4"
      /\ container_flags false = ["--merge-output-format"; "mp4"])
  /\ exists expr,
       downloads_with env yturl filepath a v thumbnail w expr (truthy (audio_only a v)).
Proof.
  intros Ha Hv Hname. split; [by apply audio_only_iff|].
  split; [done|]. split; [done|].
  destruct (builder_downloads yturl filepath a v thumbnail w Ha Hv Hname)
    as (expr & _ & Hrun).
  by exists expr.
Qed.

(** C8: with no audio and no video selected the workflow goes on:
    [audio_only] is false, the format expression is the empty string,
    and the builder starts the download with it and the flags of the
    merge into mp4, and ends normally; a run of [main] in which both
    selectors return none is, from there on, that run of the builder. *)
Theorem both_none_still_downloads (yturl : string) (filepath : Path)
  (thumbnail : pyval * list string) (w : world) :
  name filepath <> "" ->
  truthy (audio_only PNone PNone) = false
  /\ format_expression PNone PNone = Ok ""
  /\ container_flags false = ["--merge-output-format"; "mp4"]
  /\ downloads_with env yturl filepath PNone PNone thumbnail w "" false
  /\ forall w0 fs,
       reaches_builder env w0 fs PNone PNone thumbnail w ->
       md_filename (metadata fs) = Some filepath ->
       entered_url env = yturl ->
       main env w0 = invocation_builder env yturl filepath PNone PNone thumbnail w.
Proof.
  intros Hname. split; [done|]. split; [done|]. split; [done|]. split.
  - destruct (builder_downloads yturl filepath PNone PNone thumbnail w)
      as (expr & Hexpr & Hrun); [by left|by left|done|].
    by injection Hexpr as <-.
  - intros w0 fs Hreach Hfile <-. by apply (main_run w0 fs).
Qed.

End BuilderTheorems.

(** ** More on the fetch and the classifier *)

Section MoreClassifier.
Context `{Numerics}.
Variable env : Env.

Lemma filter_sublist {A : Type} (f : A -> bool) (l : list A) :
  sublist (List.filter f l) l.
Proof.
  induction l as [|x l IH]; simpl; [constructor|].
  destruct (f x); by constructor.
Qed.

(** The new objects of a store, read back through their references. *)
Lemma read_back_allocated (h ds ts : list pydict) :
  map (fun l => (h ++ ds ++ ts) !!! l) (seq (length h) (length ds)) = ds.
Proof.
  revert h. induction ds as [|d ds IH]; intros h; simpl; [done|].
  f_equal.
  - by apply list_lookup_total_middle.
  - replace (h ++ d :: ds ++ ts) with ((h ++ [d]) ++ ds ++ ts)
      by (by rewrite <- app_assoc).
    replace (S (length h)) with (length (h ++ [d]))
      by (rewrite length_app; simpl; lia).
    apply IH.
Qed.


(** X1: the three candidate lists of a fetch share no reference and
    repeat none, each keeps the order of its list in the probe record,
    and every candidate is one of the objects the fetch has created. *)
Theorem candidates_partition (yturl : string) (w w' : world) (fs : Formats) :
  request_ytdlp_metadata env yturl w = (Ok fs, w') ->
  NoDup (audio fs ++ video fs ++ image fs)
  /\ sublist (audio fs) (md_formats (metadata fs))
  /\ sublist (video fs) (md_formats (metadata fs))
  /\ sublist (image fs) (md_thumbnails (metadata fs))
  /\ forall l, In l (audio fs ++ video fs ++ image fs) ->
       length (heap w) <= l < length (heap w').
Proof.
  intros Hreq.
  apply request_inv in Hreq
    as (p & doc & fmts & ths & _ & _ & _ & _ & _ & Hheap & _ & _ & Hf & Ht
        & -> & -> & ->).
  rewrite Hf, Ht.
  set (a := length (heap w)). set (n := length fmts).
  set (m := length ths).
  assert (Hlen : length (heap w') = a + n + m).
  { rewrite Hheap, !length_app. unfold a, n, m. lia. }
  split; [|split; [apply filter_sublist|split; [apply filter_sublist|
    split; [apply filter_sublist|]]]].
  - apply NoDup_app. split; [apply NoDup_ListNoDup, List.NoDup_filter, List.seq_NoDup|]. split.
    + intros l Hla%list_elem_of_In Hin%list_elem_of_In.
      apply filter_In in Hla as [Hl Ha].
      apply in_app_or in Hin as [[_ Hv]%filter_In|[Hl' _]%filter_In].
      * unfold audio_candidate in Ha. unfold video_candidate in Hv.
        destruct (digit_id _), (has_audio _); simpl in *; discriminate.
      * apply in_seq in Hl, Hl'. lia.
    + apply NoDup_app. split; [apply NoDup_ListNoDup, List.NoDup_filter, List.seq_NoDup|]. split.
      * intros l [Hl _]%list_elem_of_In%filter_In [Hl' _]%list_elem_of_In%filter_In.
        apply in_seq in Hl, Hl'. lia.
      * apply NoDup_ListNoDup, List.NoDup_filter, List.seq_NoDup.
  - intros l Hin. rewrite Hlen.
    apply in_app_or in Hin as [Hin|Hin]; [|apply in_app_or in Hin as [Hin|Hin]];
      apply filter_In in Hin as [Hl%in_seq _]; lia.
Qed.



(** X4: when the probe exits with 0 and prints a record whose formats
    are an array of objects in which some format id is no str (a
    number, or null), the fetch ends in AttributeError, whatever the
    record holds under [thumbnails]: the objects of the record are in
    the store by then, nothing is printed after the command, and no
    candidate list is returned. *)
Theorem fetch_stops_at_id_without_strip (yturl : string) (w : world)
  (p : CompletedProcess) (doc : json_doc) (fmts : list pydict) :
  sp_run env (probe_command yturl) = Ok p ->
  returncode p = 0%Z ->
  stdout p = Object doc ->
  j_formats doc = Some (map JObject fmts) ->
  forallb str_id fmts = false ->
  request_ytdlp_metadata env yturl w =
    (Raise AttributeError,
     {| heap := heap w ++ record_objects doc;
        out := out w ++ [command_line (probe_command yturl);
                         ERun (probe_command yturl)] |}).
Proof.
  intros Hrun Hrc Hout Hfmts Hids.
  rewrite (request_after_probe env yturl w p Hrun Hrc), Hout.
  unfold record_outcome. by rewrite Hfmts, strippable_map, Hids.
Qed.

(** X23: what the fetch does with an output that is no such record,
    after a probe that exited with 0.  Output that is no JSON text
    ends it in ValueError, and a JSON value that is no object in
    AttributeError, with nothing in the store.  For a JSON object, whose
    objects are in the store by then: nothing to go through under
    [formats] (the key is missing, or null) is a TypeError; an item of
    [formats] that is no object, or whose id is no str, an
    AttributeError; with every item of [formats] an object with a str
    id, nothing to go through under [thumbnails] is a TypeError, and an
    item of [thumbnails] that is no object an AttributeError.  In every
    case only the probe command was printed and run. *)
Theorem fetch_stops_on_other_output (yturl : string) (w : world)
  (p : CompletedProcess) :
  sp_run env (probe_command yturl) = Ok p ->
  returncode p = 0%Z ->
  let ran := out w ++ [command_line (probe_command yturl);
                       ERun (probe_command yturl)] in
  (stdout p = NotJson ->
   request_ytdlp_metadata env yturl w
   = (Raise ValueError, {| heap := heap w; out := ran |}))
  /\ (stdout p = NotObject ->
      request_ytdlp_metadata env yturl w
      = (Raise AttributeError, {| heap := heap w; out := ran |}))
  /\ forall doc, stdout p = Object doc ->
       let w1 := {| heap := heap w ++ record_objects doc; out := ran |} in
       (j_formats doc = None ->
        request_ytdlp_metadata env yturl w = (Raise TypeError, w1))
       /\ (forall items,
             j_formats doc = Some items -> forallb strippable items = false ->
             request_ytdlp_metadata env yturl w = (Raise AttributeError, w1))
       /\ (forall fmts,
             j_formats doc = Some (map JObject fmts) ->
             forallb str_id fmts = true ->
             j_thumbnails doc = None ->
             request_ytdlp_metadata env yturl w = (Raise TypeError, w1))
       /\ (forall fmts items,
             j_formats doc = Some (map JObject fmts) ->
             forallb str_id fmts = true ->
             j_thumbnails doc = Some items -> forallb is_object items = false ->
             request_ytdlp_metadata env yturl w = (Raise AttributeError, w1)).
Proof.
  intros Hrun Hrc ran.
  pose proof (request_after_probe env yturl w p Hrun Hrc) as Hreq.
  fold ran in Hreq.
  split; [by intros Hout; rewrite Hout in Hreq|].
  split; [by intros Hout; rewrite Hout in Hreq|].
  intros doc Hout w1. rewrite Hout in Hreq. fold w1 in Hreq.
  rewrite Hreq. unfold record_outcome.
  split; [by intros ->|]. split; [by intros items -> ->|]. split.
  - intros fmts -> Hids ->. by rewrite strippable_map, Hids.
  - intros fmts items -> Hids -> Hobj. by rewrite strippable_map, Hids, Hobj.
Qed.

End MoreClassifier.

(** ** More on the selectors *)

Section MoreSelectors.
Context `{Numerics}.
Variable env : Env.

(** A menu with a valid default shows itself once and returns the
    option the user confirms. *)
Lemma pick_confirmed (options : list PickOption) (title : string)
  (default_index : nat) (w : world) :
  default_index < length options ->
  exists o,
    confirmed env options title default_index = Some o
    /\ pick env options title default_index w =
       (Ok o, {| heap := heap w;
                 out := out w ++ [EPick title options default_index] |}).
Proof.
  intros Hlt. unfold pick, confirmed.
  destruct (length options =? 0)%nat eqn:H0; [apply Nat.eqb_eq in H0; lia|].
  destruct (length options <=? default_index)%nat eqn:Hle;
    [apply Nat.leb_le in Hle; lia|].
  simpl. rewrite bind_run. simpl.
  destruct (lookup_lt_is_Some_2 options
    ((default_index + cursor_downs env title) mod length options)) as [o Ho].
  { apply Nat.mod_upper_bound. lia. }
  rewrite Ho. eauto.
Qed.

Lemma format_ids_kept (keys : list string) (touched fmts : list nat)
  (h h' : list pydict) :
  writes_only keys touched h h' -> ~ In "format_id" keys ->
  format_ids h' fmts = format_ids h fmts.
Proof.
  intros (_ & _ & Hk) Hkey. unfold format_ids. apply map_ext. intros l.
  unfold get. by rewrite Hk.
Qed.

(** A loop that returns has appended one option per descriptor, whose
    values are the ids of the descriptors, in order. *)
Lemma loop_menu (keys : list string) (body : nat -> M PickOption) :
  ~ In "format_id" keys ->
  (forall fmt w, exists r w',
      body fmt w = (r, w') /\ out w' = out w
      /\ writes_only keys [fmt] (heap w) (heap w')) ->
  (forall fmt w o w',
      body fmt w = (Ok o, w') -> value o = get (heap w !!! fmt) "format_id") ->
  forall fmts options w options' w',
    options_loop body fmts options w = (Ok options', w') ->
    exists rows,
      options' = options ++ rows
      /\ map value rows = format_ids (heap w) fmts
      /\ out w' = out w.
Proof.
  intros Hkey Hwrites Hvalue fmts.
  induction fmts as [|fmt fmts IH]; intros options w options' w'; simpl.
  - intros [= <- <-]. exists []. by rewrite app_nil_r.
  - rewrite bind_run.
    destruct (Hwrites fmt w) as (r & w1 & Hbody & Hout & Hw). rewrite Hbody.
    destruct r as [o|e]; [|discriminate].
    intros (rows & -> & Hrows & Hout')%IH.
    exists (o :: rows). rewrite <- app_assoc. split; [done|]. split; [|congruence].
    simpl. rewrite (Hvalue _ _ _ _ Hbody), Hrows.
    by rewrite (format_ids_kept _ _ _ _ _ Hw Hkey).
Qed.

Lemma audio_loop_returns (fmts : list nat) (options : list PickOption) (w : world) :
  exists options' w', options_loop audio_option fmts options w = (Ok options', w').
Proof.
  revert options w. induction fmts as [|fmt fmts IH]; intros options w; simpl;
    [eauto|].
  rewrite bind_run.
  destruct (audio_option_writes fmt w) as (o & w1 & -> & _). apply IH.
Qed.

(** X5: the audio selector returns for every list of descriptors, also
    an empty one: it shows one menu that starts with the two sentinel
    options and goes on with one option per descriptor, valued with the
    descriptor's id, opens it on the default, and returns the value of
    the option the user confirms. *)
Theorem audio_selector_always_returns (formats : list nat) (dflt : option string)
  (w : world) :
  exists rows selected,
    let options := audio_sentinels ++ rows in
    let default_index := default_index_from 0 dflt options in
    map value rows = format_ids (heap w) formats
    /\ confirmed env options "Select audio" default_index = Some selected
    /\ fst (pick_yt_audio_format env formats dflt w) = Ok (value selected)
    /\ out (snd (pick_yt_audio_format env formats dflt w))
       = out w ++ [EPick "Select audio" options default_index].
Proof.
  unfold pick_yt_audio_format. fold audio_sentinels. rewrite bind_run.
  destruct (audio_loop_returns formats audio_sentinels w) as (options & w1 & Hloop).
  rewrite Hloop.
  apply (loop_menu ["filesize"; "abr"; "asr"] audio_option) in Hloop
    as (rows & -> & Hrows & Hout).
  - rewrite bind_run.
    destruct (pick_confirmed (audio_sentinels ++ rows) "Select audio"
                (default_index_from 0 dflt (audio_sentinels ++ rows)) w1)
      as (o & Ho & ->).
    { apply default_index_bound. rewrite length_app. simpl. lia. }
    exists rows, o. simpl. by rewrite Hout.
  - simpl. intuition discriminate.
  - intros fmt w0. destruct (audio_option_writes fmt w0) as (o & w0' & ? & ? & ?).
    eauto.
  - intros fmt w0 o w0'. apply audio_option_value.
Qed.

(** X6: over descriptors that all have [width] and [height], the video
    selector returns in the same way: two sentinel options, then one
    option per descriptor valued with its id. *)
Theorem video_selector_returns_when_sized (formats : list nat)
  (dflt : option string) (w : world) :
  sized (heap w) formats ->
  exists rows selected,
    let options := video_sentinels ++ rows in
    let default_index := default_index_from 0 dflt options in
    map value rows = format_ids (heap w) formats
    /\ confirmed env options "Select video" default_index = Some selected
    /\ fst (pick_yt_video_format env formats dflt w) = Ok (value selected)
    /\ out (snd (pick_yt_video_format env formats dflt w))
       = out w ++ [EPick "Select video" options default_index].
Proof.
  intros Hsized.
  unfold pick_yt_video_format. fold video_sentinels. rewrite bind_run.
  destruct (video_loop_ok formats video_sentinels w Hsized)
    as (options & w1 & Hloop & _).
  rewrite Hloop.
  apply (loop_menu ["filesize"; "vbr"; "wxh"] video_option) in Hloop
    as (rows & -> & Hrows & Hout).
  - rewrite bind_run.
    destruct (pick_confirmed (video_sentinels ++ rows) "Select video"
                (default_index_from 0 dflt (video_sentinels ++ rows)) w1)
      as (o & Ho & ->).
    { apply default_index_bound. rewrite length_app. simpl. lia. }
    exists rows, o. simpl. by rewrite Hout.
  - simpl. intuition discriminate.
  - intros fmt w0.
    destruct (video_option_writes fmt w0) as (r & w0' & ? & ? & ? & _). eauto.
  - intros fmt w0 o w0'. apply video_option_value.
Qed.

End MoreSelectors.

Section MenuLineTheorems.
Context `{Numerics}.
Variable env : Env.

Lemma audio_loop_lines (fmts : list nat) (options : list PickOption) (w : world) :
  NoDup fmts ->
  (forall l, In l fmts -> l < length (heap w)) ->
  exists w',
    options_loop audio_option fmts options w
      = (Ok (options ++ map (fun l => audio_line_of (heap w !!! l)) fmts), w')
    /\ out w' = out w
    /\ length (heap w') = length (heap w)
    /\ (forall l, In l fmts -> heap w' !!! l = audio_row (heap w !!! l))
    /\ (forall l, ~ In l fmts -> heap w' !!! l = heap w !!! l).
Proof.
  revert options w. induction fmts as [|fmt fmts IH]; intros options w Hnd Hin; simpl.
  - exists w. rewrite app_nil_r. by repeat split.
  - apply NoDup_cons in Hnd as [Hfresh Hnd].
    assert (Hfresh' : ~ In fmt fmts) by (by rewrite <- list_elem_of_In).
    rewrite bind_run, audio_option_in by (apply Hin; by left).
    set (w1 := {| heap := <[fmt:=audio_row (heap w !!! fmt)]> (heap w);
                  out := out w |}).
    destruct (IH (options ++ [ {| label := audio_text (audio_row (heap w !!! fmt));
                                  value := get (audio_row (heap w !!! fmt)) "format_id";
                                  description := None |} ]) w1 Hnd)
      as (w' & Hloop & Hout & Hlen & Hat & Hoff).
    { intros l Hl. simpl. rewrite length_insert. apply Hin. by right. }
    exists w'. rewrite Hloop. split; [|split; [done|split; [|split]]].
    + rewrite <- app_assoc. simpl. do 3 f_equal. f_equal.
      * unfold audio_line_of, get.
        by rewrite audio_row_other by (simpl; intuition discriminate).
      * apply map_ext_in. intros l Hl. simpl.
        rewrite list_lookup_total_insert_ne; [done|]. by intros ->.
    + rewrite Hlen. simpl. apply length_insert.
    + intros l [<-|Hl].
      * rewrite Hoff by done. simpl.
        apply list_lookup_total_insert_eq, Hin. by left.
      * rewrite (Hat l Hl). simpl.
        rewrite list_lookup_total_insert_ne; [done|]. by intros ->.
    + intros l Hl. rewrite Hoff by tauto. simpl.
      apply list_lookup_total_insert_ne. tauto.
Qed.

Lemma video_option_sized (fmt : nat) (w : world) :
  fmt < length (heap w) ->
  is_Some ((heap w !!! fmt) !! "width") -> is_Some ((heap w !!! fmt) !! "height") ->
  video_option fmt w =
  (Ok (video_line_of (heap w !!! fmt)),
   {| heap := <[fmt := video_left (heap w !!! fmt)]> (heap w); out := out w |}).
Proof.
  intros Hlt Hwd Hht. rewrite video_option_in by done.
  unfold video_line_of, video_left.
  destruct (format_wxh_ok _ Hwd Hht) as [wxh ->].
  do 3 f_equal. unfold get.
  by rewrite video_row_other by (simpl; intuition discriminate).
Qed.

Lemma video_loop_lines (fmts : list nat) (options : list PickOption) (w : world) :
  NoDup fmts ->
  (forall l, In l fmts -> l < length (heap w)) ->
  sized (heap w) fmts ->
  exists w',
    options_loop video_option fmts options w
      = (Ok (options ++ map (fun l => video_line_of (heap w !!! l)) fmts), w')
    /\ out w' = out w
    /\ length (heap w') = length (heap w)
    /\ (forall l, In l fmts -> heap w' !!! l = video_left (heap w !!! l))
    /\ (forall l, ~ In l fmts -> heap w' !!! l = heap w !!! l).
Proof.
  revert options w.
  induction fmts as [|fmt fmts IH]; intros options w Hnd Hin Hsized; simpl.
  - exists w. rewrite app_nil_r. by repeat split.
  - apply NoDup_cons in Hnd as [Hfresh Hnd].
    assert (Hfresh' : ~ In fmt fmts) by (by rewrite <- list_elem_of_In).
    destruct (Hsized fmt) as [Hwd Hht]; [by left|].
    rewrite bind_run, video_option_sized by (try done; apply Hin; by left).
    set (w1 := {| heap := <[fmt:=video_left (heap w !!! fmt)]> (heap w);
                  out := out w |}).
    assert (Hsame : forall l, In l fmts -> heap w1 !!! l = heap w !!! l).
    { intros l Hl. simpl. rewrite list_lookup_total_insert_ne; [done|].
      by intros ->. }
    destruct (IH (options ++ [video_line_of (heap w !!! fmt)]) w1 Hnd)
      as (w' & Hloop & Hout & Hlen & Hat & Hoff).
    { intros l Hl. simpl. rewrite length_insert. apply Hin. by right. }
    { intros l Hl. rewrite (Hsame l Hl). apply Hsized. by right. }
    exists w'. rewrite Hloop. split; [|split; [done|split; [|split]]].
    + rewrite <- app_assoc. simpl. do 3 f_equal. f_equal.
      apply map_ext_in. intros l Hl. exact (f_equal video_line_of (Hsame l Hl)).
    + rewrite Hlen. simpl. apply length_insert.
    + intros l [<-|Hl].
      * rewrite Hoff by done. simpl.
        apply list_lookup_total_insert_eq, Hin. by left.
      * by rewrite (Hat l Hl), (Hsame l Hl).
    + intros l Hl. rewrite Hoff by tauto. simpl.
      apply list_lookup_total_insert_ne. tauto.
Qed.

(** X7: over distinct descriptors of the store, the menu of the audio
    selector is the two sentinels followed, in order, by the line of
    each descriptor as it was before the selector ran; afterwards each
    of these descriptors carries the three rendered entries. *)
Theorem audio_menu_lines (formats : list nat) (dflt : option string) (w : world) :
  NoDup formats ->
  (forall l, In l formats -> l < length (heap w)) ->
  let options :=
    audio_sentinels ++ map (fun l => audio_line_of (heap w !!! l)) formats in
  let default_index := default_index_from 0 dflt options in
  let run := pick_yt_audio_format env formats dflt w in
  out (snd run) = out w ++ [EPick "Select audio" options default_index]
  /\ (exists selected,
        confirmed env options "Select audio" default_index = Some selected
        /\ fst run = Ok (value selected))
  /\ (forall l, In l formats -> heap (snd run) !!! l = audio_row (heap w !!! l))
  /\ (forall l, ~ In l formats -> heap (snd run) !!! l = heap w !!! l).
Proof.
  intros Hnd Hin options default_index run. unfold run, pick_yt_audio_format.
  fold audio_sentinels. rewrite bind_run.
  destruct (audio_loop_lines formats audio_sentinels w Hnd Hin)
    as (w1 & -> & Hout & Hlen & Hat & Hoff).
  fold options. rewrite bind_run. fold default_index.
  destruct (pick_confirmed env options "Select audio" default_index w1)
    as (o & Ho & ->).
  { apply default_index_bound. unfold options. rewrite length_app. simpl. lia. }
  simpl. rewrite Hout. split; [done|]. split; [eauto|]. by split.
Qed.

(** X8: the same for the video selector over distinct descriptors that
    all have [width] and [height]; afterwards each of them carries
    [filesize], [vbr] and [wxh]. *)
Theorem video_menu_lines (formats : list nat) (dflt : option string) (w : world) :
  NoDup formats ->
  (forall l, In l formats -> l < length (heap w)) ->
  sized (heap w) formats ->
  let options :=
    video_sentinels ++ map (fun l => video_line_of (heap w !!! l)) formats in
  let default_index := default_index_from 0 dflt options in
  let run := pick_yt_video_format env formats dflt w in
  out (snd run) = out w ++ [EPick "Select video" options default_index]
  /\ (exists selected,
        confirmed env options "Select video" default_index = Some selected
        /\ fst run = Ok (value selected))
  /\ (forall l, In l formats -> heap (snd run) !!! l = video_left (heap w !!! l))
  /\ (forall l, ~ In l formats -> heap (snd run) !!! l = heap w !!! l).
Proof.
  intros Hnd Hin Hsized options default_index run.
  unfold run, pick_yt_video_format. fold video_sentinels. rewrite bind_run.
  destruct (video_loop_lines formats video_sentinels w Hnd Hin Hsized)
    as (w1 & -> & Hout & Hlen & Hat & Hoff).
  fold options. rewrite bind_run. fold default_index.
  destruct (pick_confirmed env options "Select video" default_index w1)
    as (o & Ho & ->).
  { apply default_index_bound. unfold options. rewrite length_app. simpl. lia. }
  simpl. rewrite Hout. split; [done|]. split; [eauto|]. by split.
Qed.

End MenuLineTheorems.

Section RecordAfterSelectors.
Context `{Numerics}.
Variable env : Env.

Lemma format_wxh_missing (d : pydict) :
  d !! "width" = None \/ d !! "height" = None ->
  exists key, format_wxh d = Raise (KeyError key) /\ (key = "width" \/ key = "height").
Proof.
  unfold format_wxh. intros [Hm|Hm]; rewrite Hm; [by eauto|].
  destruct (d !! "width"); eauto.
Qed.

(** The loop of the video selector over candidates of which [l] is the
    first without [width] or [height]: it stops at [l] with the KeyError,
    the candidates before [l] are rewritten in full, [l] has its
    [filesize] and [vbr] rewritten, and nothing else changed. *)
Lemma video_loop_stops (pre : list nat) (l : nat) (post : list nat)
  (options : list PickOption) (w : world) :
  NoDup (pre ++ l :: post) ->
  (forall k, In k (pre ++ l :: post) -> k < length (heap w)) ->
  sized (heap w) pre ->
  (heap w !!! l) !! "width" = None \/ (heap w !!! l) !! "height" = None ->
  exists key w',
    options_loop video_option (pre ++ l :: post) options w
      = (Raise (KeyError key), w')
    /\ (key = "width" \/ key = "height")
    /\ out w' = out w
    /\ length (heap w') = length (heap w)
    /\ (forall k, In k pre -> heap w' !!! k = video_left (heap w !!! k))
    /\ heap w' !!! l = video_row_quantities (heap w !!! l)
    /\ (forall k, ~ In k (pre ++ [l]) -> heap w' !!! k = heap w !!! k).
Proof.
  revert options w.
  induction pre as [|fmt pre IH]; intros options w Hnd Hin Hsized Hmiss; simpl.
  - destruct (format_wxh_missing _ Hmiss) as (key & Hwxh & Hkey).
    rewrite bind_run, video_option_in by (apply Hin; by left).
    rewrite Hwxh. exists key. eexists. split; [done|]. split; [done|]. simpl.
    split; [done|]. split; [apply length_insert|]. split; [done|].
    split; [apply list_lookup_total_insert_eq, Hin; by left|].
    intros k Hk. apply list_lookup_total_insert_ne. tauto.
  - simpl in Hnd. apply NoDup_cons in Hnd as [Hfresh Hnd].
    assert (Hfresh' : ~ In fmt (pre ++ l :: post)) by (by rewrite <- list_elem_of_In).
    destruct (Hsized fmt) as [Hwd Hht]; [by left|].
    rewrite bind_run, video_option_sized by (try done; apply Hin; by left).
    set (w1 := {| heap := <[fmt:=video_left (heap w !!! fmt)]> (heap w);
                  out := out w |}).
    assert (Hsame : forall k, In k (pre ++ l :: post) -> heap w1 !!! k = heap w !!! k).
    { intros k Hk. simpl. rewrite list_lookup_total_insert_ne; [done|].
      by intros ->. }
    assert (Hl : In l (pre ++ l :: post)) by (apply in_or_app; right; by left).
    destruct (IH (options ++ [video_line_of (heap w !!! fmt)]) w1 Hnd)
      as (key & w' & Hloop & Hkey & Hout & Hlen & Hat & Hstop & Hoff).
    { intros k Hk. simpl. rewrite length_insert. apply Hin. by right. }
    { intros k Hk. rewrite Hsame by (apply in_or_app; by left). apply Hsized.
      by right. }
    { by rewrite (Hsame l Hl). }
    exists key, w'. rewrite Hloop. split; [done|]. split; [done|].
    split; [done|]. split; [rewrite Hlen; simpl; apply length_insert|].
    assert (Hfmt : ~ In fmt (pre ++ [l])).
    { intros Hk. apply Hfresh'. apply in_app_or in Hk as [Hk|[<-|[]]];
        apply in_or_app; [by left|right; by left]. }
    split; [|split].
    + intros k [<-|Hk].
      * rewrite Hoff by done. simpl.
        apply list_lookup_total_insert_eq, Hin. by left.
      * rewrite (Hat k Hk). by rewrite Hsame by (apply in_or_app; by left).
    + by rewrite Hstop, (Hsame l Hl).
    + intros k Hk. rewrite Hoff by tauto. simpl.
      apply list_lookup_total_insert_ne. tauto.
Qed.

(** C3, amended: the selectors rewrite the descriptors of the probe
    record they are given, and nothing else. Over distinct descriptors
    of the store: the audio selector leaves in each of them the
    rendered [filesize], [abr] and [asr]; the video selector, when each
    has [width] and [height], returns and leaves in each of them the
    rendered [filesize] and [vbr] and the new [wxh]; when [l] is the
    first without [width] or [height], it ends in a KeyError, the
    descriptors before [l] are rewritten in full, [l] has the rendered
    [filesize] and [vbr] and no [wxh], and those after [l] are as
    fetched. Every other entry, every other object and the number of
    objects stay as they were, and the thumbnail selector writes
    nothing. *)
Theorem selectors_rewrite_their_candidates (formats : list nat)
  (dflt : option string) (md : Metadata) (w : world) :
  NoDup formats ->
  (forall l, In l formats -> l < length (heap w)) ->
  let audio_run := pick_yt_audio_format env formats dflt w in
  let video_run := pick_yt_video_format env formats dflt w in
  ((forall l, In l formats ->
      heap (snd audio_run) !!! l = audio_row (heap w !!! l))
   /\ writes_only ["filesize"; "abr"; "asr"] formats (heap w) (heap (snd audio_run)))
  /\ (writes_only ["filesize"; "vbr"; "wxh"] formats (heap w) (heap (snd video_run))
      /\ (sized (heap w) formats ->
          (exists selected, fst video_run = Ok selected)
          /\ forall l wxh, In l formats -> format_wxh (heap w !!! l) = Ok wxh ->
               heap (snd video_run) !!! l = video_row (heap w !!! l) wxh)
      /\ (forall pre l post,
            formats = pre ++ l :: post ->
            sized (heap w) pre ->
            (heap w !!! l) !! "width" = None \/ (heap w !!! l) !! "height" = None ->
            (exists key, fst video_run = Raise (KeyError key))
            /\ (forall k wxh, In k pre -> format_wxh (heap w !!! k) = Ok wxh ->
                  heap (snd video_run) !!! k = video_row (heap w !!! k) wxh)
            /\ heap (snd video_run) !!! l = video_row_quantities (heap w !!! l)
            /\ (forall k, In k post ->
                  heap (snd video_run) !!! k = heap w !!! k)))
  /\ heap (snd (pick_yt_thumbnail_format env md dflt w)) = heap w.
Proof.
  intros Hnd Hin audio_run video_run.
  split; [split|split; [split; [|split]|]].
  - unfold audio_run, pick_yt_audio_format. rewrite bind_run.
    match goal with
    | |- context [options_loop audio_option formats ?o w] =>
        destruct (audio_loop_lines formats o w Hnd Hin)
          as (w1 & -> & _ & _ & Hat & _)
    end.
    rewrite bind_run.
    match goal with
    | |- context [pick env ?o ?t ?i w1] =>
        pose proof (pick_heap env o t i w1) as Hp;
        destruct (pick env o t i w1) as [[o'|e] w2]
    end; simpl in *; by rewrite Hp.
  - apply audio_selector_writes.
  - apply video_selector_writes.
  - intros Hsized. unfold video_run, pick_yt_video_format. rewrite bind_run.
    match goal with
    | |- context [options_loop video_option formats ?o w] =>
        destruct (video_loop_lines formats o w Hnd Hin Hsized)
          as (w1 & Hloop & _ & _ & Hat & _)
    end.
    rewrite Hloop, bind_run.
    match goal with
    | |- context [pick env ?o ?t ?i w1] =>
        destruct (pick_run env o t i w1) as (o' & _ & ->)
    end.
    { apply default_index_bound. rewrite length_app. simpl. lia. }
    simpl. split; [by eauto|].
    intros l wxh Hl Hwxh. rewrite (Hat l Hl). unfold video_left.
    by rewrite Hwxh.
  - intros pre l post -> Hsized Hmiss.
    unfold video_run, pick_yt_video_format. rewrite bind_run.
    match goal with
    | |- context [options_loop video_option _ ?o w] =>
        destruct (video_loop_stops pre l post o w Hnd Hin Hsized Hmiss)
          as (key & w1 & -> & _ & _ & _ & Hat & Hstop & Hoff)
    end.
    simpl. split; [by eauto|]. split; [|split; [done|]].
    + intros k wxh Hk Hwxh. rewrite (Hat k Hk). unfold video_left. by rewrite Hwxh.
    + intros k Hk. apply Hoff. intros Hk'.
      apply NoDup_app in Hnd as (_ & Hdisj & Hnd2).
      apply NoDup_cons in Hnd2 as [Hl _].
      apply in_app_or in Hk' as [Hk'|[<-|[]]].
      * apply (Hdisj k); rewrite list_elem_of_In; [done|by right].
      * apply Hl. by rewrite list_elem_of_In.
  - apply thumbnail_selector_writes.
Qed.

End RecordAfterSelectors.

Section Defaults.
Context `{Numerics}.
Variable env : Env.

Lemma index_of_value_spec (options : list PickOption) (d : string) (ind : nat) :
  match index_of_value options d ind with
  | Some i =>
      exists k o,
        i = ind + k /\ options !! k = Some o /\ eq_str (value o) d = true
        /\ forall j o', j < k -> options !! j = Some o' -> eq_str (value o') d = false
  | None => Forall (fun o => eq_str (value o) d = false) options
  end.
Proof.
  revert ind. induction options as [|o options IH]; intros ind; simpl; [constructor|].
  destruct (eq_str (value o) d) eqn:Ho.
  - exists 0, o. repeat split; [lia|done|]. intros j o' Hj. lia.
  - specialize (IH (S ind)). destruct (index_of_value options d (S ind)) as [i|].
    + destruct IH as (k & o1 & -> & Hk & Hmatch & Hfirst).
      exists (S k), o1. repeat split; [lia|done|done|].
      intros [|j] o' Hj; simpl; [by intros [= <-]|].
      apply Hfirst. lia.
    + by constructor.
Qed.

(** X9: the cursor of a menu starts on the first option whose value
    equals the default; without a default, or when no option has that
    value, it starts on the selector's own start index. *)
Theorem default_index_is_first_match (start : nat) (dflt : option string)
  (options : list PickOption) :
  match dflt with
  | None => default_index_from start dflt options = start
  | Some d =>
      let i := default_index_from start dflt options in
      (exists o,
          options !! i = Some o /\ eq_str (value o) d = true
          /\ forall j o', j < i -> options !! j = Some o' ->
               eq_str (value o') d = false)
      \/ (i = start /\ Forall (fun o => eq_str (value o) d = false) options)
  end.
Proof.
  destruct dflt as [d|]; [|done]. simpl.
  pose proof (index_of_value_spec options d 0) as Hspec.
  destruct (index_of_value options d 0) as [i|]; simpl.
  - left. destruct Hspec as (k & o & -> & Hk & Hmatch & Hfirst). simpl. eauto.
  - by right.
Qed.

Lemma digit_id_is_not_best (d : pydict) :
  digit_id d = true -> eq_str (get d "format_id") "best" = false.
Proof.
  unfold digit_id, get_or, get.
  destruct (d !! "format_id") as [v|]; simpl; [|done].
  destruct v; try done. simpl. intros Hd.
  destruct (String.eqb_spec s "best") as [->|]; [|done].
  vm_compute in Hd. discriminate.
Qed.

Lemma no_match_no_index (options : list PickOption) (d : string) (ind : nat) :
  Forall (fun o => eq_str (value o) d = false) options ->
  index_of_value options d ind = None.
Proof.
  intros Hall. revert ind. induction Hall as [|o options Ho _ IH]; intros ind; simpl;
    [done|].
  by rewrite Ho.
Qed.

(** X10: with the defaults as shipped in CONFIG, which name no option,
    the audio menu over candidates with digit ids opens on its first
    option, and so does the video menu when the selector gets that
    far. *)
Theorem shipped_defaults_match_no_option (formats : list nat) (w : world) :
  (forall l, In l formats -> digit_id (heap w !!! l) = true) ->
  (exists options,
      out (snd (pick_yt_audio_format env formats (audio_format CONFIG) w))
      = out w ++ [EPick "Select audio" options 0])
  /\ (forall selected w',
        pick_yt_video_format env formats (video_format CONFIG) w = (Ok selected, w') ->
        exists options, out w' = out w ++ [EPick "Select video" options 0]).
Proof.
  intros Hids.
  assert (Hrows : forall rows : list PickOption,
    map value rows = format_ids (heap w) formats ->
    Forall (fun o => eq_str (value o) "best" = false) rows).
  { intros rows Hrows. apply Forall_forall. intros o Ho%list_elem_of_In.
    apply (in_map value) in Ho. rewrite Hrows in Ho. unfold format_ids in Ho.
    apply in_map_iff in Ho as (l & <- & Hl).
    apply digit_id_is_not_best, Hids, Hl. }
  split.
  - unfold pick_yt_audio_format. fold audio_sentinels. rewrite bind_run.
    destruct (audio_loop_returns formats audio_sentinels w) as (options & w1 & Hloop).
    rewrite Hloop.
    apply (loop_menu ["filesize"; "abr"; "asr"] audio_option) in Hloop
      as (rows & -> & Hvalues & Hout).
    + rewrite bind_run.
      assert (Hi : default_index_from 0 (audio_format CONFIG) (audio_sentinels ++ rows)
                   = 0).
      { simpl. by rewrite (no_match_no_index rows "best" 2 (Hrows rows Hvalues)). }
      rewrite Hi.
      destruct (pick_confirmed env (audio_sentinels ++ rows) "Select audio" 0 w1)
        as (o & _ & ->); [rewrite length_app; simpl; lia|].
      simpl. rewrite Hout. eauto.
    + simpl. intuition discriminate.
    + intros fmt w0. destruct (audio_option_writes fmt w0) as (o & w0' & ? & ? & ?).
      eauto.
    + intros fmt w0 o w0'. apply audio_option_value.
  - intros selected w'. unfold pick_yt_video_format. fold video_sentinels.
    rewrite bind_run.
    destruct (options_loop video_option formats video_sentinels w)
      as [[options|e] w1] eqn:Hloop; [|discriminate].
    apply (loop_menu ["filesize"; "vbr"; "wxh"] video_option) in Hloop
      as (rows & -> & Hvalues & Hout).
    + rewrite bind_run.
      assert (Hi : default_index_from 0 (video_format CONFIG) (video_sentinels ++ rows)
                   = 0).
      { simpl. by rewrite (no_match_no_index rows "best" 2 (Hrows rows Hvalues)). }
      rewrite Hi.
      destruct (pick_confirmed env (video_sentinels ++ rows) "Select video" 0 w1)
        as (o & _ & ->); [rewrite length_app; simpl; lia|].
      intros [= _ <-]. simpl. rewrite Hout. eauto.
    + simpl. intuition discriminate.
    + intros fmt w0.
      destruct (video_option_writes fmt w0) as (r & w0' & ? & ? & ? & _). eauto.
    + intros fmt w0 o w0'. apply video_option_value.
Qed.

Lemma thumbnail_selector_run (md : Metadata) (dflt : option string) (w : world) :
  let i := default_index_from 2 dflt thumbnail_options in
  let k := ((i + cursor_downs env "Select thumbnail") mod 3)%nat in
  exists t,
    thumbnail_outcomes !! k = Some t
    /\ pick_yt_thumbnail_format env md dflt w =
       (Ok t, {| heap := heap w;
                 out := out w ++ [EPick "Select thumbnail" thumbnail_options i] |}).
Proof.
  intros i k.
  unfold pick_yt_thumbnail_format. fold thumbnail_options. fold i.
  rewrite bind_run.
  destruct (pick_confirmed env thumbnail_options "Select thumbnail" i w)
    as (o & Ho & ->).
  { apply default_index_bound. simpl. lia. }
  unfold confirmed in Ho. change (length thumbnail_options) with 3 in Ho.
  fold k in Ho.
  assert (Hk : k < 3) by (apply Nat.mod_upper_bound; lia).
  destruct k as [|[|[|k]]]; [| | |lia]; injection Ho as <-; eexists; by split.
Qed.

(** X11: the thumbnail selector always returns, without touching the
    store: it shows its three options once, opened on the option named
    by the default (best, embed) and on the third, no thumbnail,
    otherwise, and returns the value and the flags of the option the
    user confirms. *)
Theorem thumbnail_selector_outcomes (md : Metadata) (dflt : option string)
  (w : world) :
  let i := default_index_from 2 dflt thumbnail_options in
  let k := ((i + cursor_downs env "Select thumbnail") mod 3)%nat in
  (exists t,
      thumbnail_outcomes !! k = Some t
      /\ pick_yt_thumbnail_format env md dflt w =
         (Ok t, {| heap := heap w;
                   out := out w ++ [EPick "Select thumbnail" thumbnail_options i] |}))
  /\ (dflt = Some "best" -> i = 0)
  /\ (dflt = Some "embed" -> i = 1)
  /\ (dflt <> Some "best" -> dflt <> Some "embed" -> i = 2).
Proof.
  intros i k. split; [|split; [by intros ->|split; [by intros ->|]]].
  - apply thumbnail_selector_run.
  - intros Hb He. unfold i, default_index_from. destruct dflt as [d|]; [|done].
    rewrite (no_match_no_index thumbnail_options d 0); [done|].
    unfold thumbnail_options.
    repeat constructor; cbn [eq_str value]; try apply String.eqb_neq; congruence.
Qed.

End Defaults.

(** ** More on [main] and the builder *)

Section MoreMain.
Context `{Numerics}.
Variable env : Env.

(** X12: the dependency check runs the tool once without arguments. A
    tool that starts counts as present, whatever its exit status; only
    FileNotFoundError makes the check print its message and answer
    false; any other error of the run goes on to the caller. *)
Theorem dependency_check_outcomes (expected_path error_message : string)
  (w : world) :
  let ran := {| heap := heap w;
                out := out w ++ [command_line [expected_path]; ERun [expected_path]] |} in
  match sp_run env [expected_path] with
  | Ok _ => check_dependency_path env expected_path error_message w = (Ok true, ran)
  | Raise FileNotFoundError =>
      check_dependency_path env expected_path error_message w
      = (Ok false, {| heap := heap w; out := out ran ++ [EPrint error_message] |})
  | Raise e =>
      check_dependency_path env expected_path error_message w = (Raise e, ran)
  end.
Proof.
  unfold check_dependency_path, try_except, run_command, print_command, print, lift.
  rewrite !bind_run. simpl.
  destruct (sp_run env [expected_path]) as [p|e]; simpl.
  - unfold command_line. by rewrite <- app_assoc.
  - destruct e; simpl; rewrite ?bind_run; unfold command_line, emit; simpl;
      by rewrite <- ?app_assoc.
Qed.

(** X13: [main] ends normally, before it asks for a URL and before any
    probe, when the output directory is missing (it then runs nothing at
    all), when ffmpeg is missing (it then does not look for yt-dlp), and
    when yt-dlp is missing. *)
Theorem main_stops_before_the_prompt (w : world) :
  (outdir_exists env = false ->
   main env w =
   (Ok tt,
    {| heap := heap w;
       out := out w ++
         [EPrint (Fore_RED +:+ "output directory not found: [edit line 64 to change it]");
          EPrint (path_str env (output_dirpath env))] |}))
  /\ (outdir_exists env = true ->
      sp_run env [ffmpeg_bin CONFIG] = Raise FileNotFoundError ->
      main env w =
      (Ok tt,
       {| heap := heap w;
          out := out w ++
            [command_line ["cd"; path_str env (output_dirpath env)];
             EChdir (path_str env (output_dirpath env));
             command_line [ffmpeg_bin CONFIG]; ERun [ffmpeg_bin CONFIG];
             EPrint "ffmpeg not found"] |}))
  /\ (outdir_exists env = true ->
      (exists p, sp_run env [ffmpeg_bin CONFIG] = Ok p) ->
      sp_run env [ytdlp_bin CONFIG] = Raise FileNotFoundError ->
      main env w =
      (Ok tt,
       {| heap := heap w;
          out := out w ++
            [command_line ["cd"; path_str env (output_dirpath env)];
             EChdir (path_str env (output_dirpath env));
             command_line [ffmpeg_bin CONFIG]; ERun [ffmpeg_bin CONFIG];
             command_line [ytdlp_bin CONFIG]; ERun [ytdlp_bin CONFIG];
             EPrint "yt-dlp not found"] |})).
Proof.
  split; [|split].
  - intros Hdir. unfold main. rewrite Hdir. simpl. unfold print, emit.
    rewrite bind_run. simpl. by rewrite <- app_assoc.
  - intros Hdir Hff. unfold main. rewrite Hdir. simpl.
    unfold check_dependency_path, try_except, run_command, print_command, print,
      lift.
    rewrite !bind_run. simpl.
    change "ffmpeg" with (ffmpeg_bin CONFIG). rewrite Hff. simpl.
    repeat (rewrite bind_run; simpl).
    unfold command_line, emit. simpl. by rewrite <- !app_assoc.
  - intros Hdir [p Hff] Hyt. unfold main. rewrite Hdir. simpl.
    unfold check_dependency_path, try_except, run_command, print_command, print,
      lift.
    rewrite !bind_run. simpl.
    change "ffmpeg" with (ffmpeg_bin CONFIG). rewrite Hff. simpl.
    rewrite !bind_run. simpl.
    change "yt-dlp" with (ytdlp_bin CONFIG). rewrite Hyt. simpl.
    repeat (rewrite bind_run; simpl).
    unfold command_line, emit. simpl. by rewrite <- !app_assoc.
Qed.

End MoreMain.

Section MorePaths.

Lemma substring_prefix_append (s t : string) :
  String.substring 0 (String.length s) (s +:+ t) = s.
Proof.
  induction s as [|c s IH]; simpl.
  - by destruct t.
  - by rewrite IH.
Qed.

Lemma contains_char_append (c : ascii) (s t : string) :
  PyStr.contains_char c (s +:+ t)
  = PyStr.contains_char c s || PyStr.contains_char c t.
Proof.
  induction s as [|d s IH]; [done|].
  change (String d s +:+ t) with (String d (s +:+ t)).
  cbn [PyStr.contains_char]. rewrite IH. by destruct (Ascii.eqb c d).
Qed.

Lemma contains_char_substring (c : ascii) (n m : nat) (s : string) :
  PyStr.contains_char c s = false ->
  PyStr.contains_char c (String.substring n m s) = false.
Proof.
  revert n m. induction s as [|d s IH]; intros n m.
  - by destruct n, m.
  - cbn [PyStr.contains_char]. destruct (Ascii.eqb c d) eqn:Hd; [done|].
    intros Hs. destruct n as [|n], m as [|m]; simpl; try done.
    + rewrite Hd. by apply IH.
    + by apply IH.
    + by apply IH.
Qed.

Lemma rfind_dot_none_inv (s : string) :
  PyStr.rfind_dot s = None -> PyStr.contains_char "."%char s = false.
Proof.
  induction s as [|c s IH]; [done|]. cbn [PyStr.contains_char PyStr.rfind_dot].
  destruct (PyStr.rfind_dot s); [done|].
  rewrite (Ascii.eqb_sym "." c). destruct (Ascii.eqb c "."); [done|]. auto.
Qed.

(** From the last dot on, a string is that dot and a part without dot. *)
Lemma rfind_dot_tail (s : string) (i : nat) :
  PyStr.rfind_dot s = Some i ->
  exists ext,
    String.substring i (String.length s - i) s = String "." ext
    /\ PyStr.contains_char "."%char ext = false
    /\ String.length s = i + S (String.length ext).
Proof.
  revert i. induction s as [|c s IH]; intros i; [done|].
  cbn [PyStr.rfind_dot].
  destruct (PyStr.rfind_dot s) as [j|] eqn:Hj.
  - intros [= <-]. destruct (IH j eq_refl) as (ext & Hsub & Hdot & Hlen).
    exists ext. simpl. split; [done|]. split; [done|]. lia.
  - destruct (Ascii.eqb_spec c ".") as [->|]; [|done]. intros [= <-].
    exists s. simpl. rewrite substring_all.
    split; [done|]. split; [by apply rfind_dot_none_inv|done].
Qed.

(** A suffix that is not empty is a dot and an extension without dot. *)
Lemma suffix_shape (p : Path) :
  suffix p <> "" ->
  exists ext,
    suffix p = String "." ext /\ ext <> ""
    /\ PyStr.contains_char "."%char ext = false.
Proof.
  unfold suffix. destruct (PyStr.rfind_dot (name p)) as [i|] eqn:Hi; [|done].
  destruct ((0 <? i) && (i <? String.length (name p) - 1))%nat eqn:Hc; [|done].
  intros _. apply andb_prop in Hc as [_ Hc%Nat.ltb_lt].
  destruct (rfind_dot_tail _ _ Hi) as (ext & -> & Hdot & Hlen).
  exists ext. split; [done|]. split; [|done].
  intros ->. simpl in Hlen. lia.
Qed.

Lemma length_stem (p : Path) :
  name p <> "" ->
  String.length (stem p) = String.length (name p) - String.length (suffix p)
  /\ 0 < String.length (stem p).
Proof.
  intros Hname. pose proof (suffix_shorter p Hname) as Hlt.
  assert (Hlen : String.length (stem p)
                 = String.length (name p) - String.length (suffix p))
    by (apply length_substring_prefix; lia).
  split; [done|lia].
Qed.

Lemma with_suffix_stem (p : Path) (ext : string) :
  name p <> "" -> ext <> "" -> PyStr.contains_char "/"%char ext = false ->
  with_suffix p (String "." ext)
  = Ok {| parent := parent p; name := stem p +:+ String "." ext |}.
Proof.
  intros Hname Hext Hsep. unfold with_suffix. simpl. rewrite Hsep. simpl.
  destruct ext as [|e ext]; [done|]. simpl.
  apply String.eqb_neq in Hname. by rewrite Hname.
Qed.

Lemma suffix_of_extension (q s ext : string) :
  s <> "" -> ext <> "" -> PyStr.contains_char "."%char ext = false ->
  suffix {| parent := q; name := s +:+ String "." ext |} = String "." ext.
Proof.
  intros Hs Hext Hdot. unfold suffix. simpl.
  rewrite (rfind_dot_extension _ _ Hdot), length_append. simpl.
  assert (0 < String.length ext) by (destruct ext; [done|simpl; lia]).
  assert (0 < String.length s) by (destruct s; [done|simpl; lia]).
  replace ((0 <? String.length s)
           && (String.length s <? String.length s + S (String.length ext) - 1))%nat
    with true
    by (symmetry; apply andb_true_intro; split; apply Nat.ltb_lt; lia).
  rewrite substring_append_drop.
  replace (String.length s + S (String.length ext) - String.length s)
    with (String.length (String "." ext)) by (simpl; lia).
  apply substring_all.
Qed.

Lemma stem_of_extension (q s ext : string) :
  s <> "" -> ext <> "" -> PyStr.contains_char "."%char ext = false ->
  stem {| parent := q; name := s +:+ String "." ext |} = s.
Proof.
  intros Hs Hext Hdot. unfold stem.
  rewrite (suffix_of_extension q s ext Hs Hext Hdot). simpl.
  rewrite length_append. simpl.
  replace (String.length s + S (String.length ext) - S (String.length ext))
    with (String.length s) by lia.
  apply substring_prefix_append.
Qed.

Lemma stem_nonempty (p : Path) : name p <> "" -> stem p <> "".
Proof.
  intros Hname Hs. destruct (length_stem p Hname) as [_ Hpos].
  rewrite Hs in Hpos. simpl in Hpos. lia.
Qed.

End MorePaths.

Section BuilderReport.
Context `{Numerics}.
Variable env : Env.

(** The whole run of the builder on a file name and an expression. *)
Lemma builder_run_trace (yturl : string) (filepath : Path) (a v : pyval)
  (thumbnail : pyval * list string) (w : world) (expr : string) :
  name filepath <> "" ->
  format_expression a v = Ok expr ->
  let ao := truthy (audio_only a v) in
  let predicted :=
    {| parent := parent filepath;
       name := stem filepath +:+ String "." (container ao) |} in
  let jpg :=
    {| parent := parent filepath; name := stem filepath +:+ ".jpg" |} in
  let command :=
    download_command yturl expr (snd thumbnail ++ container_flags ao) in
  invocation_builder env yturl filepath a v thumbnail w =
  (Ok tt,
   {| heap := heap w;
      out := out w ++ [command_line command; EPopen command; EExists predicted]
                   ++ report env (fst thumbnail) predicted jpg |}).
Proof.
  intros Hname Hexpr ao predicted jpg command.
  assert (Hws : with_suffix filepath (String "." (container ao)) = Ok predicted)
    by (apply with_suffix_stem; [done|by destruct ao..]).
  assert (Hstem : stem predicted = stem filepath).
  { apply stem_of_extension; [by apply stem_nonempty|by destruct ao..]. }
  assert (Hjpg : with_suffix predicted ".jpg" = Ok jpg).
  { rewrite (with_suffix_stem predicted "jpg"); [by rewrite Hstem|..|done|done].
    simpl. intros Hn. apply (f_equal String.length) in Hn.
    rewrite length_append in Hn. simpl in Hn. lia. }
  subst command. unfold report.
  unfold invocation_builder, ytdlp_download, print_command, print, input, lift.
  fold ao. clearbody predicted jpg.
  destruct ao eqn:Eao; simpl in Hws, Hjpg |- *;
    repeat (rewrite bind_run; simpl); rewrite Hws; simpl;
    repeat (rewrite bind_run; simpl); rewrite Hexpr; simpl;
    repeat (rewrite bind_run; simpl);
    (destruct (exists_after env predicted); simpl;
     [destruct (fst thumbnail)|]);
    repeat (rewrite bind_run; simpl); rewrite ?Hjpg; simpl;
    repeat (rewrite bind_run; simpl);
    unfold download_command, command_line, emit; simpl;
    rewrite <- ?app_assoc; simpl; reflexivity.
Qed.

(** X14: The builder, from the two selections to the end of [main]:
    when the file name from the metadata is not empty and the format
    expression is a string [expr], the builder ends normally, leaves
    the store alone and adds to the trace exactly the download command
    line, the download, the look-up of the predicted path, and the
    report.  The predicted path is the stem of the file name with the
    container as suffix, in the same directory; the thumbnail the
    report names is the same stem with the suffix jpg. *)
Theorem builder_trace (yturl : string) (filepath : Path) (a v : pyval)
  (thumbnail : pyval * list string) (w : world) (expr : string) :
  name filepath <> "" ->
  format_expression a v = Ok expr ->
  let ao := truthy (audio_only a v) in
  let predicted :=
    {| parent := parent filepath;
       name := stem filepath +:+ String "." (container ao) |} in
  let jpg :=
    {| parent := parent filepath; name := stem filepath +:+ ".jpg" |} in
  let command :=
    download_command yturl expr (snd thumbnail ++ container_flags ao) in
  invocation_builder env yturl filepath a v thumbnail w =
  (Ok tt,
   {| heap := heap w;
      out := out w ++ [command_line command; EPopen command; EExists predicted]
                   ++ report env (fst thumbnail) predicted jpg |}).
Proof. apply builder_run_trace. Qed.

End BuilderReport.

Section NoDownloads.
Context `{Numerics}.
Variable env : Env.

Lemma downloads_snoc (trace : list event) (e : event) :
  downloads (trace ++ [e])
  = downloads trace ++ match e with EPopen command => [command] | _ => [] end.
Proof. unfold downloads. rewrite omap_app. by destruct e. Qed.

Lemma nd_ret {A : Type} (a : A) : no_download (mret a).
Proof. by intros w. Qed.

Lemma nd_raise {A : Type} (e : exn) : no_download (@raise _ A e).
Proof. by intros w. Qed.

Lemma nd_lift {A : Type} (r : result A) : no_download (lift r).
Proof. by intros w. Qed.

Lemma nd_load (fmt : nat) : no_download (load fmt).
Proof. by intros w. Qed.

Lemma nd_setitem (fmt : nat) (key : string) (v : pyval) :
  no_download (setitem fmt key v).
Proof. by intros w. Qed.

Lemma nd_alloc (d : pydict) : no_download (alloc d).
Proof. by intros w. Qed.

Lemma nd_print (line : string) : no_download (print line).
Proof. intros w. simpl. rewrite downloads_snoc. apply app_nil_r. Qed.

Lemma nd_emit (e : event) :
  match e with EPopen _ => False | _ => True end -> no_download (emit e).
Proof.
  intros He w. simpl. rewrite downloads_snoc.
  destruct e; try apply app_nil_r. done.
Qed.

Lemma nd_bind {A B : Type} (m : M A) (k : A -> M B) :
  no_download m -> (forall a, no_download (k a)) -> no_download (m ≫= k).
Proof.
  intros Hm Hk w. rewrite bind_run. specialize (Hm w).
  destruct (m w) as [[a|e] w1]; simpl in *; [by rewrite Hk|done].
Qed.

Lemma nd_try_except {A : Type} (body : M A) (e : exn) (handler : M A) :
  no_download body -> no_download handler ->
  no_download (try_except body e handler).
Proof.
  intros Hb Hh w. unfold try_except. specialize (Hb w).
  destruct (body w) as [[a|e'] w1]; simpl in *; [done|].
  destruct (decide (e' = e)); [by rewrite Hh|done].
Qed.

Lemma nd_input (prompt : string) : no_download (input env prompt).
Proof. apply nd_bind; [by apply nd_emit|intros _; apply nd_ret]. Qed.

Lemma nd_print_command (command : list string) :
  no_download (print_command command).
Proof. apply nd_print. Qed.

Lemma nd_run_command (command : list string) :
  no_download (run_command env command).
Proof.
  apply nd_bind; [apply nd_print_command|intros _].
  apply nd_bind; [by apply nd_emit|intros _; apply nd_lift].
Qed.

Lemma nd_alloc_items (items : list (json_item pydict)) :
  no_download (alloc_items items).
Proof.
  induction items as [|[d|] items IH]; [apply nd_ret| |]; simpl.
  - apply nd_bind; [apply nd_alloc|intros l].
    apply nd_bind; [apply IH|intros ls; apply nd_ret].
  - apply nd_bind; [apply IH|intros ls; apply nd_ret].
Qed.

Lemma nd_alloc_value (value : option (list (json_item pydict))) :
  no_download (alloc_value value).
Proof.
  destruct value as [items|]; [|apply nd_ret]. simpl.
  apply nd_bind; [apply nd_alloc_items|intros ls; apply nd_ret].
Qed.

Lemma nd_json_loads (text : json_text) : no_download (json_loads text).
Proof.
  destruct text as [| |doc]; [apply nd_raise|apply nd_ret|]. simpl.
  apply nd_bind; [apply nd_alloc_value|intros fs].
  apply nd_bind; [apply nd_alloc_value|intros ts; apply nd_ret].
Qed.

Lemma nd_formats_loop (fmts : list (json_item nat)) (audio video : list nat) :
  no_download (formats_loop fmts audio video).
Proof.
  revert audio video. induction fmts as [|item rest IH]; intros audio video;
    [apply nd_ret|]. simpl.
  apply nd_bind; [apply nd_lift|intros fmt].
  apply nd_bind; [apply nd_load|intros d].
  apply nd_bind; [destruct (get_or d "format_id" (PStr "")); simpl;
                  first [apply nd_ret|apply nd_raise]|intros id].
  repeat (match goal with |- context [if ?b then _ else _] => destruct b end);
    apply IH.
Qed.

Lemma nd_thumbnails_loop (fmts : list (json_item nat)) (image : list nat) :
  no_download (thumbnails_loop fmts image).
Proof.
  revert image. induction fmts as [|item rest IH]; intros image; [apply nd_ret|].
  simpl. apply nd_bind; [apply nd_lift|intros fmt].
  apply nd_bind; [apply nd_load|intros d].
  destruct (truthy (get d "resolution")); apply IH.
Qed.

Lemma nd_request (yturl : string) :
  no_download (request_ytdlp_metadata env yturl).
Proof.
  unfold request_ytdlp_metadata.
  apply nd_bind; [apply nd_run_command|intros process].
  apply nd_bind; [|intros _].
  { destruct (negb (returncode process =? 0)%Z); [|apply nd_ret].
    apply nd_bind; [apply nd_print|intros _].
    apply nd_bind; [apply nd_print|intros _; apply nd_raise]. }
  apply nd_bind; [apply nd_json_loads|intros loaded].
  apply nd_bind; [apply nd_lift|intros md].
  apply nd_bind; [apply nd_lift|intros fmts].
  apply nd_bind; [apply nd_formats_loop|intros [audio video]].
  apply nd_bind; [apply nd_lift|intros ths].
  apply nd_bind; [apply nd_thumbnails_loop|intros image; apply nd_ret].
Qed.

Lemma nd_audio_option (fmt : nat) : no_download (audio_option fmt).
Proof.
  unfold audio_option.
  repeat (apply nd_bind; [first [apply nd_load|apply nd_setitem]|intros ?]).
  apply nd_ret.
Qed.

Lemma nd_video_option (fmt : nat) : no_download (video_option fmt).
Proof.
  unfold video_option.
  repeat (apply nd_bind;
          [first [apply nd_load|apply nd_setitem|apply nd_lift]|intros ?]).
  apply nd_ret.
Qed.

Lemma nd_options_loop (body : nat -> M PickOption) (formats : list nat)
  (options : list PickOption) :
  (forall fmt, no_download (body fmt)) ->
  no_download (options_loop body formats options).
Proof.
  intros Hbody. revert options.
  induction formats as [|fmt rest IH]; intros options; [apply nd_ret|].
  simpl. apply nd_bind; [apply Hbody|intros option; apply IH].
Qed.

Lemma nd_pick (options : list PickOption) (title : string) (default_index : nat) :
  no_download (pick env options title default_index).
Proof.
  unfold pick.
  destruct ((length options =? 0) || (length options <=? default_index))%nat;
    [apply nd_raise|].
  apply nd_bind; [by apply nd_emit|intros _].
  destruct (options !! _); [apply nd_ret|apply nd_raise].
Qed.

Lemma nd_audio_selector (formats : list nat) (dflt : option string) :
  no_download (pick_yt_audio_format env formats dflt).
Proof.
  unfold pick_yt_audio_format.
  apply nd_bind; [apply nd_options_loop, nd_audio_option|intros options].
  apply nd_bind; [apply nd_pick|intros selected; apply nd_ret].
Qed.

Lemma nd_video_selector (formats : list nat) (dflt : option string) :
  no_download (pick_yt_video_format env formats dflt).
Proof.
  unfold pick_yt_video_format.
  apply nd_bind; [apply nd_options_loop, nd_video_option|intros options].
  apply nd_bind; [apply nd_pick|intros selected; apply nd_ret].
Qed.

Lemma nd_thumbnail_selector (md : Metadata) (dflt : option string) :
  no_download (pick_yt_thumbnail_format env md dflt).
Proof.
  unfold pick_yt_thumbnail_format.
  apply nd_bind; [apply nd_pick|intros selected; apply nd_ret].
Qed.

Lemma nd_check_dependency_path (expected_path error_message : string) :
  no_download (check_dependency_path env expected_path error_message).
Proof.
  apply nd_try_except.
  - apply nd_bind; [apply nd_run_command|intros _; apply nd_ret].
  - apply nd_bind; [apply nd_print|intros _; apply nd_ret].
Qed.

Lemma once_of_nd {A : Type} (yturl : string) (m : M A) :
  no_download m -> at_most_one_download yturl m.
Proof. intros Hm w. by left. Qed.

Lemma once_bind {A B : Type} (yturl : string) (m : M A) (k : A -> M B) :
  no_download m -> (forall a, at_most_one_download yturl (k a)) ->
  at_most_one_download yturl (m ≫= k).
Proof.
  intros Hm Hk w. rewrite bind_run. specialize (Hm w).
  destruct (m w) as [[a|e] w1]; simpl in *; [|by left].
  rewrite <- Hm. apply Hk.
Qed.

Lemma once_download_then {B : Type} (yturl fmt : string) (args : list string)
  (k : Z -> M B) :
  (forall rc, no_download (k rc)) ->
  at_most_one_download yturl (ytdlp_download env yturl fmt args ≫= k).
Proof.
  intros Hk w. right. exists fmt, args.
  unfold ytdlp_download, print_command, print.
  repeat (rewrite bind_run; simpl). rewrite Hk. simpl.
  by rewrite !downloads_snoc, app_nil_r.
Qed.

Lemma once_builder (yturl : string) (filepath : Path) (a v : pyval)
  (thumbnail : pyval * list string) :
  at_most_one_download yturl
    (invocation_builder env yturl filepath a v thumbnail).
Proof.
  unfold invocation_builder.
  apply once_bind.
  { destruct (truthy (audio_only a v));
      (apply nd_bind; [apply nd_lift|intros ?; apply nd_ret]). }
  intros [ytdlp_args predicted].
  apply once_bind; [apply nd_lift|intros fmt].
  apply once_download_then. intros _.
  apply nd_bind; [by apply nd_emit|intros _].
  destruct (negb (exists_after env predicted)).
  - apply nd_bind; [apply nd_print|intros _; apply nd_print].
  - apply nd_bind.
    + destruct (fst thumbnail); try apply nd_ret;
        (apply nd_bind; [apply nd_lift|intros jpg; apply nd_print]).
    + intros _. apply nd_bind; [apply nd_print|intros _].
      apply nd_bind; [apply nd_input|intros _; apply nd_ret].
Qed.

(** X15: Nothing but the builder starts a download: however they end,
    normally or with an exception, the check of a tool, the fetch of
    the metadata and the three selectors leave the downloads of the
    trace as they were. *)
Theorem only_the_builder_downloads (expected_path error_message yturl : string)
  (formats : list nat) (md : Metadata) (dflt : option string) :
  no_download (check_dependency_path env expected_path error_message)
  /\ no_download (request_ytdlp_metadata env yturl)
  /\ no_download (pick_yt_audio_format env formats dflt)
  /\ no_download (pick_yt_video_format env formats dflt)
  /\ no_download (pick_yt_thumbnail_format env md dflt).
Proof.
  split; [apply nd_check_dependency_path|].
  split; [apply nd_request|].
  split; [apply nd_audio_selector|].
  split; [apply nd_video_selector|apply nd_thumbnail_selector].
Qed.

(** X16: Whatever the environment answers, a run of [main] starts at
    most one download, and that one is a yt-dlp command with -f for
    the URL typed at the prompt, stripped. *)
Theorem main_downloads_at_most_once :
  at_most_one_download (entered_url env) (main env).
Proof.
  unfold main. destruct (negb (outdir_exists env)).
  { apply once_of_nd. apply nd_bind; [apply nd_print|intros _; apply nd_print]. }
  apply once_bind; [apply nd_print_command|intros _].
  apply once_bind; [by apply nd_emit|intros _].
  apply once_bind; [apply nd_check_dependency_path|intros ffmpeg].
  destruct (negb ffmpeg); [apply once_of_nd, nd_ret|].
  apply once_bind; [apply nd_check_dependency_path|intros ytdlp].
  destruct (negb ytdlp); [apply once_of_nd, nd_ret|].
  intros w. rewrite bind_run. simpl. rewrite bind_run. simpl.
  fold (entered_url env).
  set (w1 := {| heap := heap w; out := out w ++ [EInput "YouTube URL: "] |}).
  assert (Hw1 : downloads (out w) = downloads (out w1))
    by (simpl; by rewrite downloads_snoc, app_nil_r).
  rewrite Hw1. revert w1 Hw1. intros w1 _. revert w1.
  apply once_bind; [apply nd_request|intros fs].
  apply once_bind; [apply nd_lift|intros filepath].
  apply once_bind; [apply nd_audio_selector|intros a].
  apply once_bind; [apply nd_video_selector|intros v].
  apply once_bind; [apply nd_thumbnail_selector|intros t].
  apply once_builder.
Qed.

End NoDownloads.

Section RemuxTheorem.
Context `{Numerics}.
Variable env : Env.
Variable resolve : Path -> Path.

Lemma append_assoc (s t u : string) : (s +:+ t) +:+ u = s +:+ (t +:+ u).
Proof.
  induction s as [|c s IH]; [done|].
  change (String c ((s +:+ t) +:+ u) = String c (s +:+ (t +:+ u))).
  by rewrite IH.
Qed.

Lemma suffix_no_separator (p : Path) :
  PyStr.contains_char "/"%char (name p) = false ->
  PyStr.contains_char "/"%char (suffix p) = false.
Proof.
  intros Hsep. unfold suffix. destruct (PyStr.rfind_dot (name p)); [|done].
  destruct (_ && _); [|done]. by apply contains_char_substring.
Qed.

(** X17: The remux helper, for a file whose name is not empty and holds
    no separator: it returns a path in the same directory whose name is
    the stem of the input, then .remux, then the suffix of the input,
    so six characters longer and never the input itself; that path
    keeps the suffix of the input, or has the suffix .remux when the
    input has none.  The one process it starts is ffmpeg, reading the
    resolved input and writing the resolved output, and the audio_only
    argument changes nothing. *)
Theorem remux_writes_beside_the_input (file : Path) (audio_only : bool)
  (w : world) :
  name file <> "" ->
  PyStr.contains_char "/"%char (name file) = false ->
  let outpath :=
    {| parent := parent file;
       name := stem file +:+ ".remux" +:+ suffix file |} in
  let command :=
    [ffmpeg_bin CONFIG; "-i"; path_str env (resolve file); "-c"; "copy";
     "-c:a"; "aac"; path_str env (resolve outpath)] in
  ffmpeg_remux env resolve file audio_only w
  = (Ok outpath,
     {| heap := heap w;
        out := out w ++ [command_line command; EPopen command] |})
  /\ String.length (name outpath) = String.length (name file) + 6
  /\ outpath <> file
  /\ suffix outpath = (if String.eqb (suffix file) "" then ".remux" else suffix file).
Proof.
  intros Hname Hsep outpath command.
  assert (Hws : with_suffix file (".remux" +:+ suffix file) = Ok outpath).
  { change (".remux" +:+ suffix file) with (String "." ("remux" +:+ suffix file)).
    apply with_suffix_stem; [done|done|].
    rewrite contains_char_append. by rewrite suffix_no_separator. }
  assert (Hlen : String.length (name outpath) = String.length (name file) + 6).
  { subst outpath. cbn [name]. rewrite !length_append.
    destruct (length_stem file Hname) as [-> _].
    pose proof (suffix_shorter file Hname). simpl. lia. }
  split; [|split; [done|split]].
  - unfold ffmpeg_remux, print_command, print, lift.
    rewrite bind_run. simpl. rewrite Hws. simpl.
    repeat (rewrite bind_run; simpl).
    unfold command_line, emit. simpl. by rewrite <- app_assoc.
  - intros Heq. rewrite Heq in Hlen. lia.
  - destruct (String.eqb_spec (suffix file) "") as [He|Hne].
    + subst outpath. rewrite He.
      change (stem file +:+ ".remux" +:+ "") with (stem file +:+ String "." "remux").
      apply suffix_of_extension; [by apply stem_nonempty|done|done].
    + destruct (suffix_shape file Hne) as (ext & Hext & Hext_ne & Hdot).
      subst outpath. rewrite Hext.
      rewrite <- append_assoc.
      apply suffix_of_extension; [|done|done].
      intros Hn. apply (f_equal String.length) in Hn.
      rewrite length_append in Hn. simpl in Hn. lia.
Qed.

End RemuxTheorem.

Section Composition.
Context `{Numerics}.
Variable env : Env.

Lemma map_filter_through {A B C : Type} (r : A -> B) (f : B -> C)
  (g : B -> bool) (g' : A -> bool) (l : list A) :
  (forall x, g' x = g (r x)) ->
  map (fun x => f (r x)) (List.filter g' l) = map f (List.filter g (map r l)).
Proof.
  intros Hg. induction l as [|x l IH]; [done|]. simpl. rewrite Hg.
  destruct (g (r x)); simpl; by rewrite IH.
Qed.

(** The fetch and the audio selector, chained as in [main]: what the
    user has seen by then, and what the video selector will find. *)
Lemma fetch_and_audio_menu (yturl : string) (w : world)
  (p : CompletedProcess) (doc : json_doc) (fmts ths : list pydict)
  (da : option string) :
  sp_run env (probe_command yturl) = Ok p ->
  returncode p = 0%Z ->
  stdout p = Object doc ->
  lists_of_objects doc fmts ths ->
  forallb str_id fmts = true ->
  let audio_menu :=
    audio_sentinels
    ++ map audio_line_of (List.filter audio_descriptor fmts) in
  let audio_default := default_index_from 0 da audio_menu in
  exists fs w1 a w2,
    request_ytdlp_metadata env yturl w = (Ok fs, w1)
    /\ pick_yt_audio_format env (audio fs) da w1 = (Ok (value a), w2)
    /\ confirmed env audio_menu "Select audio" audio_default = Some a
    /\ out w2 = out w ++ [command_line (probe_command yturl);
                          ERun (probe_command yturl);
                          EPick "Select audio" audio_menu audio_default]
    /\ NoDup (video fs)
    /\ (forall l, In l (video fs) ->
          l < length (heap w2) /\ heap w2 !!! l = heap w1 !!! l)
    /\ md_filename (metadata fs) = j_filename doc
    /\ heap w1 = heap w ++ fmts ++ ths
    /\ map (fun l => heap w1 !!! l) (video fs)
       = List.filter video_descriptor fmts.
Proof.
  intros Hrun Hrc Hstdout Hlists Hstr audio_menu audio_default.
  destruct (request_total env yturl w p doc fmts ths Hrun Hrc Hstdout Hlists Hstr)
    as (fs & w1 & Hreq).
  destruct (request_inv env yturl w w1 fs Hreq)
    as (p' & doc' & fmts' & ths' & Hrun' & _ & Hstdout' & Hlists' & _ & Hheap
        & Hout & Hfile & Hfmts & _ & Ha & Hv & _).
  assert (p' = p) by congruence. subst p'.
  assert (doc' = doc) by congruence. subst doc'.
  assert (fmts' = fmts /\ ths' = ths) as [-> ->].
  { destruct Hlists as [Hf Ht], Hlists' as [Hf' Ht'].
    rewrite Hf in Hf'. rewrite Ht in Ht'.
    injection Hf' as Hf'. injection Ht' as Ht'.
    apply (f_equal objects) in Hf', Ht'. rewrite !objects_map in Hf', Ht'.
    by split. }
  assert (Hread : map (fun l => heap w1 !!! l) (md_formats (metadata fs))
                  = fmts)
    by (rewrite Hheap, Hfmts; apply read_back_allocated).
  assert (Hrange : forall l, In l (md_formats (metadata fs)) ->
                     l < length (heap w1)).
  { intros l Hl. rewrite Hfmts in Hl. apply in_seq in Hl.
    rewrite Hheap, !length_app. lia. }
  assert (Hnd : forall f, NoDup (List.filter f (md_formats (metadata fs)))).
  { intros f. rewrite Hfmts.
    apply NoDup_ListNoDup, List.NoDup_filter, List.seq_NoDup. }
  assert (Hamenu : audio_sentinels
                   ++ map (fun l => audio_line_of (heap w1 !!! l)) (audio fs)
                   = audio_menu).
  { unfold audio_menu. f_equal. rewrite Ha, <- Hread.
    by apply (map_filter_through (fun l => heap w1 !!! l) audio_line_of). }
  destruct (audio_loop_lines (audio fs) audio_sentinels w1)
    as (w2 & Hloop2 & Hout2 & Hlen2 & _ & Hoff2).
  { rewrite Ha. apply Hnd. }
  { intros l Hl. rewrite Ha in Hl. apply filter_In in Hl as [Hl _]. auto. }
  rewrite Hamenu in Hloop2.
  destruct (pick_confirmed env audio_menu "Select audio" audio_default w2)
    as (a & Hca & Hpa).
  { apply default_index_bound. unfold audio_menu. rewrite length_app. simpl. lia. }
  exists fs, w1, a,
    {| heap := heap w2;
       out := out w2 ++ [EPick "Select audio" audio_menu audio_default] |}.
  split; [done|]. split.
  { unfold pick_yt_audio_format. fold audio_sentinels.
    rewrite bind_run, Hloop2, bind_run. fold audio_default. by rewrite Hpa. }
  split; [done|]. split.
  { simpl. rewrite Hout2, Hout. by rewrite <- !app_assoc. }
  split; [rewrite Hv; apply Hnd|]. split; [|split; [done|split; [done|]]].
  - intros l Hl. simpl. rewrite Hlen2. split.
    + rewrite Hv in Hl. apply filter_In in Hl as [Hl _]. auto.
    + apply Hoff2. rewrite Ha. rewrite Hv in Hl.
      apply filter_In in Hl as [_ Hl]. intros Hl'.
      apply filter_In in Hl' as [_ Hl'].
      unfold video_candidate in Hl. unfold audio_candidate in Hl'.
      apply andb_prop in Hl' as [_ Hl'].
      rewrite Hl' in Hl. simpl in Hl. by rewrite andb_false_r in Hl.
  - rewrite Hv, <- Hread.
    rewrite <- (map_id (List.filter video_descriptor _)).
    by apply (map_filter_through (fun l => heap w1 !!! l) (fun d => d)).
Qed.

(** The fetch and the two selectors, chained as in [main]. *)
Lemma fetch_and_menus (yturl : string) (w : world)
  (p : CompletedProcess) (doc : json_doc) (fmts ths : list pydict)
  (da dv : option string) :
  sp_run env (probe_command yturl) = Ok p ->
  returncode p = 0%Z ->
  stdout p = Object doc ->
  lists_of_objects doc fmts ths ->
  forallb str_id fmts = true ->
  (forall d, In d fmts -> video_descriptor d = true ->
     is_Some (d !! "width") /\ is_Some (d !! "height")) ->
  let audio_menu :=
    audio_sentinels
    ++ map audio_line_of (List.filter audio_descriptor fmts) in
  let video_menu :=
    video_sentinels
    ++ map video_line_of (List.filter video_descriptor fmts) in
  let audio_default := default_index_from 0 da audio_menu in
  let video_default := default_index_from 0 dv video_menu in
  exists fs w1 a w2 v w3,
    request_ytdlp_metadata env yturl w = (Ok fs, w1)
    /\ pick_yt_audio_format env (audio fs) da w1 = (Ok (value a), w2)
    /\ pick_yt_video_format env (video fs) dv w2 = (Ok (value v), w3)
    /\ confirmed env audio_menu "Select audio" audio_default = Some a
    /\ confirmed env video_menu "Select video" video_default = Some v
    /\ out w3 = out w ++ [command_line (probe_command yturl);
                          ERun (probe_command yturl);
                          EPick "Select audio" audio_menu audio_default;
                          EPick "Select video" video_menu video_default].
Proof.
  intros Hrun Hrc Hstdout Hlists Hstr Hsized audio_menu video_menu
    audio_default video_default.
  destruct (fetch_and_audio_menu yturl w p doc fmts ths da Hrun Hrc Hstdout
              Hlists Hstr)
    as (fs & w1 & a & w2 & Hreq & Ha & Hca & Hout & Hnd & Hkept & _ & _ & Hvideo).
  fold audio_menu audio_default in Ha, Hca, Hout.
  destruct (video_loop_lines (video fs) video_sentinels w2)
    as (w3 & Hloop3 & Hout3 & Hlen3 & _ & _).
  { exact Hnd. }
  { intros l Hl. by apply Hkept. }
  { intros l Hl. destruct (Hkept l Hl) as [_ ->].
    assert (Hd : In (heap w1 !!! l) (List.filter video_descriptor fmts)).
    { rewrite <- Hvideo. by apply (in_map (fun l => heap w1 !!! l)). }
    apply filter_In in Hd as [Hd Hv]. by apply Hsized. }
  assert (Hsame : map (fun l => video_line_of (heap w2 !!! l)) (video fs)
                  = map video_line_of (List.filter video_descriptor fmts)).
  { rewrite <- Hvideo, map_map. apply map_ext_in. intros l Hl.
    by destruct (Hkept l Hl) as [_ ->]. }
  rewrite Hsame in Hloop3. fold video_menu in Hloop3.
  destruct (pick_confirmed env video_menu "Select video" video_default w3)
    as (v & Hcv & Hpv).
  { apply default_index_bound. unfold video_menu. rewrite length_app. simpl. lia. }
  exists fs, w1, a, w2, v,
    {| heap := heap w3;
       out := out w3 ++ [EPick "Select video" video_menu video_default] |}.
  split; [done|]. split; [done|]. split.
  { unfold pick_yt_video_format. fold video_sentinels.
    rewrite bind_run, Hloop3, bind_run. fold video_default. by rewrite Hpv. }
  split; [done|]. split; [done|].
  simpl. rewrite Hout3, Hout. by rewrite <- !app_assoc.
Qed.

(** X18: the fetch, then the audio selector on its audio list, then the
    video selector on its video list, run one after the other on one
    store, which is the order in which [main] calls them: when the
    probe exits with 0 and prints a JSON object that holds an array of
    objects under [formats] and under [thumbnails], whose format ids
    are all strings and whose video candidates all have width and
    height, the three calls return, and what the user sees is the probe
    command and then two menus.  The audio menu is the two
    audio sentinels and the line of each descriptor of the record that
    has a digit id and an audio codec; the video menu is the two video
    sentinels and the line of each descriptor with a digit id, no audio
    codec and a video codec.  Both keep the order of the record, and
    the video lines are built from the descriptors as the probe printed
    them: the writes of the audio selector into the shared record do
    not reach them. *)
Theorem menus_show_the_record (yturl : string) (w : world)
  (p : CompletedProcess) (doc : json_doc) (fmts ths : list pydict)
  (da dv : option string) :
  sp_run env (probe_command yturl) = Ok p ->
  returncode p = 0%Z ->
  stdout p = Object doc ->
  lists_of_objects doc fmts ths ->
  forallb str_id fmts = true ->
  (forall d, In d fmts -> video_descriptor d = true ->
     is_Some (d !! "width") /\ is_Some (d !! "height")) ->
  let audio_menu :=
    audio_sentinels
    ++ map audio_line_of (List.filter audio_descriptor fmts) in
  let video_menu :=
    video_sentinels
    ++ map video_line_of (List.filter video_descriptor fmts) in
  let audio_default := default_index_from 0 da audio_menu in
  let video_default := default_index_from 0 dv video_menu in
  exists fs w1 a w2 v w3,
    request_ytdlp_metadata env yturl w = (Ok fs, w1)
    /\ pick_yt_audio_format env (audio fs) da w1 = (Ok (value a), w2)
    /\ pick_yt_video_format env (video fs) dv w2 = (Ok (value v), w3)
    /\ confirmed env audio_menu "Select audio" audio_default = Some a
    /\ confirmed env video_menu "Select video" video_default = Some v
    /\ out w3 = out w ++ [command_line (probe_command yturl);
                          ERun (probe_command yturl);
                          EPick "Select audio" audio_menu audio_default;
                          EPick "Select video" video_menu video_default].
Proof. apply fetch_and_menus. Qed.

End Composition.

Section Widths.
Context `{Numerics}.

Lemma length_spaces (n : nat) :
  String.length (string_of_list_ascii (repeat " "%char n)) = n.
Proof. induction n as [|n IH]; [done|]. simpl. by rewrite IH. Qed.

Lemma length_column (d : pydict) (key : string) (width : nat) :
  String.length (column d key width)
  = Nat.max width (String.length (py_str (get_or d key (PStr "N/A")))).
Proof.
  unfold column, PyStr.ljust. rewrite length_append, length_spaces. lia.
Qed.

Lemma max_excess (w n : nat) : Nat.max w n = w + (n - w).
Proof. lia. Qed.

Lemma leb_excess (w n : nat) : (n <=? w)%nat = true <-> n - w = 0.
Proof. rewrite Nat.leb_le. lia. Qed.

(** X19: The columns of a menu line are padded, never cut: an audio
    line has at least 116 characters and a video line at least 119,
    and a line has exactly that length, so that the lines of a menu
    stand in columns, exactly when every value it shows is no longer
    than its column. *)
Theorem menu_lines_align (d : pydict) :
  116 <= String.length (audio_text d)
  /\ (String.length (audio_text d) = 116 <-> fits d audio_columns = true)
  /\ 119 <= String.length (video_text d)
  /\ (String.length (video_text d) = 119 <-> fits d video_columns = true).
Proof.
  unfold audio_text, video_text, fits, audio_columns, video_columns.
  rewrite !length_append, !length_column, !max_excess.
  cbn [forallb fst snd String.length].
  rewrite !andb_true_iff, !leb_excess.
  repeat match goal with
         | |- context [String.length ?s - ?w] =>
             generalize (String.length s - w); intros ?
         end.
  lia.
Qed.

End Widths.

Section DownloadStatus.
Context `{Numerics}.
Variable env : Env.

(** X20: The exit status of the download is never looked at: a run of
    [main] prints, asks, starts and returns the same whatever status
    yt-dlp ends the download with; whether the download worked is
    judged by the look-up of the predicted file alone. *)
Theorem download_status_is_ignored (status : list string -> Z) (w : world) :
  main (with_download_status env status) w = main env w.
Proof. reflexivity. Qed.

End DownloadStatus.

Section WholeRun.
Context `{Numerics}.
Variable env : Env.

(** With the output directory and both tools there, [main] is, after
    the change of directory, the two checks and the prompt, what it
    does from the fetch on. *)
Lemma main_after_checks (w : world) :
  outdir_exists env = true ->
  (exists q, sp_run env [ffmpeg_bin CONFIG] = Ok q) ->
  (exists q, sp_run env [ytdlp_bin CONFIG] = Ok q) ->
  main env w =
  (formats ← request_ytdlp_metadata env (entered_url env);
   filepath ← lift (py_path (md_filename (metadata formats)));
   audio_format ← pick_yt_audio_format env (audio formats) (audio_format CONFIG);
   video_format ← pick_yt_video_format env (video formats) (video_format CONFIG);
   thumbnail_format ←
     pick_yt_thumbnail_format env (metadata formats) (thumbnail_format CONFIG);
   invocation_builder env (entered_url env) filepath audio_format video_format
     thumbnail_format)
    {| heap := heap w; out := out w ++ preamble env |}.
Proof.
  intros Hdir [q1 H1] [q2 H2].
  unfold main. rewrite Hdir. simpl.
  unfold check_dependency_path, try_except, run_command, print_command, print,
    input.
  rewrite !bind_run. simpl. unfold lift at 1.
  change "ffmpeg" with (ffmpeg_bin CONFIG). rewrite H1. simpl.
  rewrite !bind_run. simpl. unfold lift at 1.
  change "yt-dlp" with (ytdlp_bin CONFIG). rewrite H2. simpl.
  do 3 (rewrite bind_run; simpl).
  fold (entered_url env).
  unfold preamble, command_line. by rewrite <- !app_assoc.
Qed.


End WholeRun.

Section Abort.
Context `{Numerics}.
Variable env : Env.

(** X22: one video candidate without width or height stops the whole
    run.  When the output directory is there, both tools can be run,
    and the probe of the typed URL exits with 0 and prints a JSON
    object that holds an array of objects under [formats] and under
    [thumbnails] and a str under [filename], whose format ids are all
    strings, but in which some descriptor with a digit id, no audio
    codec and a video codec has no width or no height, then [main]
    ends in a KeyError for width or height: after the user has
    confirmed an option of the audio menu, before any video menu is
    shown, and without a download. *)
Theorem main_aborts_on_unsized_video (w : world) (p : CompletedProcess)
  (doc : json_doc) (fmts ths : list pydict) (file : Path) (d : pydict) :
  outdir_exists env = true ->
  (exists q, sp_run env [ffmpeg_bin CONFIG] = Ok q) ->
  (exists q, sp_run env [ytdlp_bin CONFIG] = Ok q) ->
  sp_run env (probe_command (entered_url env)) = Ok p ->
  returncode p = 0%Z ->
  stdout p = Object doc ->
  lists_of_objects doc fmts ths ->
  j_filename doc = Some file ->
  forallb str_id fmts = true ->
  In d fmts ->
  video_descriptor d = true ->
  d !! "width" = None \/ d !! "height" = None ->
  let audio_menu :=
    audio_sentinels
    ++ map audio_line_of (List.filter audio_descriptor fmts) in
  let audio_default := default_index_from 0 (audio_format CONFIG) audio_menu in
  exists key h',
    (key = "width" \/ key = "height")
    /\ main env w =
       (Raise (KeyError key),
        {| heap := h';
           out := out w ++ preamble env
                  ++ [command_line (probe_command (entered_url env));
                      ERun (probe_command (entered_url env));
                      EPick "Select audio" audio_menu audio_default] |}).
Proof.
  intros Hdir Hffmpeg Hytdlp Hrun Hrc Hstdout Hlists Hfile Hstr Hd Hvd Hmiss
    audio_menu audio_default.
  set (w0 := {| heap := heap w; out := out w ++ preamble env |}).
  destruct (fetch_and_audio_menu env (entered_url env) w0 p doc fmts ths
              (audio_format CONFIG) Hrun Hrc Hstdout Hlists Hstr)
    as (fs & w1 & a & w2 & Hreq & Ha & _ & Hout & _ & Hkept & Hmd & _ & Hvideo).
  fold audio_menu audio_default in Ha, Hout.
  rewrite Hfile in Hmd.
  assert (Hl : exists l, In l (video fs) /\ heap w2 !!! l = d).
  { assert (Hin : In d (map (fun l => heap w1 !!! l) (video fs)))
      by (rewrite Hvideo; apply filter_In; by split).
    apply in_map_iff in Hin as (l & <- & Hl). exists l. split; [done|].
    by destruct (Hkept l Hl). }
  destruct Hl as (l & Hl & Hwl).
  destruct (video_loop_fail (video fs)
              [ {| label := "best video"; value := PStr "bestvideo";
                   description := None |};
                {| label := "no video"; value := PNone; description := None |} ] w2)
    as (key & w3 & Hloop & Hkey & Hout3).
  { exists l. split; [done|]. by rewrite Hwl. }
  exists key, (heap w3). split; [done|].
  rewrite (main_after_checks env w Hdir Hffmpeg Hytdlp). fold w0.
  rewrite bind_run, Hreq, bind_run. unfold lift at 1, py_path. rewrite Hmd.
  cbv beta iota. rewrite bind_run, Ha, bind_run.
  unfold pick_yt_video_format. rewrite bind_run, Hloop.
  destruct w3 as [h3 o3]. simpl in Hout3 |- *. rewrite Hout3, Hout.
  unfold w0. simpl. by rewrite <- !app_assoc.
Qed.

(** X24: a record that lacks one of the three keys stops the whole run
    before any menu.  When the output directory is there, both tools
    can be run, and the probe of the typed URL exits with 0 and prints
    a JSON object, [main] ends in a TypeError right after the probe,
    with no menu shown and no download started, in each of these
    cases: there is nothing to go through under [formats]; the formats
    are an array of objects with str ids and there is nothing to go
    through under [thumbnails]; both are arrays of objects, the format
    ids are strings, and there is no str under [filename]. *)
Theorem main_stops_on_incomplete_record (w : world) (p : CompletedProcess)
  (doc : json_doc) :
  outdir_exists env = true ->
  (exists q, sp_run env [ffmpeg_bin CONFIG] = Ok q) ->
  (exists q, sp_run env [ytdlp_bin CONFIG] = Ok q) ->
  sp_run env (probe_command (entered_url env)) = Ok p ->
  returncode p = 0%Z ->
  stdout p = Object doc ->
  let stopped : result unit * world :=
    (Raise TypeError,
     {| heap := heap w ++ record_objects doc;
        out := out w ++ preamble env
               ++ [command_line (probe_command (entered_url env));
                   ERun (probe_command (entered_url env))] |}) in
  (j_formats doc = None -> main env w = stopped)
  /\ (forall fmts,
        j_formats doc = Some (map JObject fmts) ->
        forallb str_id fmts = true ->
        j_thumbnails doc = None ->
        main env w = stopped)
  /\ (forall fmts ths,
        lists_of_objects doc fmts ths ->
        forallb str_id fmts = true ->
        j_filename doc = None ->
        main env w = stopped).
Proof.
  intros Hdir Hffmpeg Hytdlp Hrun Hrc Hstdout stopped.
  set (w0 := {| heap := heap w; out := out w ++ preamble env |}).
  pose proof (request_after_probe env (entered_url env) w0 p Hrun Hrc) as Hreq.
  rewrite Hstdout in Hreq. simpl in Hreq. rewrite <- app_assoc in Hreq.
  rewrite (main_after_checks env w Hdir Hffmpeg Hytdlp). fold w0.
  rewrite bind_run, Hreq. unfold record_outcome.
  split; [by intros ->|]. split.
  - intros fmts -> Hids ->. by rewrite strippable_map, Hids.
  - intros fmts ths [-> ->] Hids Hfile.
    rewrite strippable_map, Hids, is_object_map.
    rewrite bind_run. unfold lift at 1. simpl. by rewrite Hfile.
Qed.

End Abort.

(** ** The statements on concrete runs *)

Import Demo Scenarios.
#[local] Existing Instance Demo.numerics.

Lemma pair_from_fst {A B : Type} (p : A * B) (a : A) :
  fst p = a -> p = (a, snd p).
Proof. intros <-. by destruct p. Defined.

Lemma clip_fetch :
  request_ytdlp_metadata (env 0 0 0 (probe_ok clip)) url start
  = (Ok clip_formats, fetched clip).
Proof. apply pair_from_fst. vm_compute. reflexivity. Defined.

Lemma tagged_fetch :
  request_ytdlp_metadata (env 0 0 0 (probe_ok tagged)) url start
  = (Ok tagged_formats, fetched tagged).
Proof. apply pair_from_fst. vm_compute. reflexivity. Defined.

Lemma padded_fetch :
  request_ytdlp_metadata (env 0 0 0 (probe_ok padded)) url start
  = (Ok padded_formats, fetched padded).
Proof. apply pair_from_fst. vm_compute. reflexivity. Defined.

Lemma thumbs_fetch :
  request_ytdlp_metadata (env 0 0 0 (probe_ok thumbs)) url start
  = (Ok thumbs_formats, fetched thumbs).
Proof. apply pair_from_fst. vm_compute. reflexivity. Defined.

(** The end-to-end scenario of the specification: audio 140, video 137,
    no thumbnail. The one download is started with 140+137, so the
    expression is not 137+140 (C1 as stated). *)
Lemma video_first_expression_refuted :
  format_expression (PStr "140") (PStr "137") = Ok "140+137"
  /\ format_expression (PStr "140") (PStr "137") <> Ok "137+140"
  /\ downloads (out (snd (main (env 2 2 0 (probe_ok clip)) start)))
     = [["yt-dlp"; "-f"; "140+137"; url; "--merge-output-format"; "mp4"]]
  /\ downloads (out (snd (main (env 2 2 0 (probe_ok clip)) start)))
     <> [["yt-dlp"; "-f"; "137+140"; url; "--merge-output-format"; "mp4"]].
Proof.
  assert (Hrun : downloads (out (snd (main (env 2 2 0 (probe_ok clip)) start)))
     = [["yt-dlp"; "-f"; "140+137"; url; "--merge-output-format"; "mp4"]])
    by (vm_compute; reflexivity).
  split; [reflexivity|]. split; [discriminate|]. split; [exact Hrun|].
  rewrite Hrun. discriminate.
Qed.

Lemma format_expression_audio_first_witness :
  name clip_path <> ""
  /\ format_expression (PStr "140") (PStr "137") = Ok "140+137"
  /\ downloads_with (env 2 2 0 (probe_ok clip)) url clip_path (PStr "140") (PStr "137")
       (PNone, []) start "140+137" false.
Proof.
  assert (Hname : name clip_path <> "") by discriminate.
  destruct (format_expression_audio_first (env 2 2 0 (probe_ok clip)) url clip_path
              (PNone, []) start Hname) as (Hexpr & _ & _ & Hrun).
  exact (conj Hname (conj Hexpr Hrun)).
Defined.

Lemma audio_only_decides_container_witness :
  selection (PStr "140") /\ selection PNone /\ name clip_path <> ""
  /\ truthy (audio_only (PStr "140") PNone) = true
  /\ exists expr,
       downloads_with (env 2 1 0 (probe_ok clip)) url clip_path (PStr "140") PNone
         (PNone, []) start expr true.
Proof.
  assert (Ha : selection (PStr "140"))
    by (right; exists "140"; split; [reflexivity|discriminate]).
  assert (Hv : selection PNone) by (left; reflexivity).
  assert (Hname : name clip_path <> "") by discriminate.
  destruct (audio_only_decides_container (env 2 1 0 (probe_ok clip)) url clip_path
              (PStr "140") PNone (PNone, []) start Ha Hv Hname)
    as (Hiff & _ & _ & Hrun).
  exact (conj Ha (conj Hv (conj Hname (conj eq_refl Hrun)))).
Defined.

Lemma both_none_still_downloads_witness :
  name clip_path <> ""
  /\ downloads_with (env 1 1 0 (probe_ok clip)) url clip_path PNone PNone
       (PNone, []) start "" false
  /\ downloads (out (snd (main (env 1 1 0 (probe_ok clip)) start)))
     = [["yt-dlp"; "-f"; ""; url; "--merge-output-format"; "mp4"]].
Proof.
  assert (Hname : name clip_path <> "") by discriminate.
  destruct (both_none_still_downloads (env 1 1 0 (probe_ok clip)) url clip_path
              (PNone, []) start Hname) as (_ & _ & _ & Hrun & _).
  split; [exact Hname|]. split; [exact Hrun|]. vm_compute. reflexivity.
Defined.

(** The audio selector changes the probe record (C3 as stated): the
    first descriptor of the fetched record is an audio candidate without
    [filesize]; after the selector, which returns the selection 140, it
    has one. *)
Lemma probe_record_is_rewritten :
  request_ytdlp_metadata (env 0 0 0 (probe_ok clip)) url start
    = (Ok clip_formats, fetched clip)
  /\ In 0 (md_formats (metadata clip_formats))
  /\ fst (pick_yt_audio_format (env 2 2 0 (probe_ok clip)) (audio clip_formats)
            (audio_format CONFIG) (fetched clip)) = Ok (PStr "140")
  /\ (heap (fetched clip) !!! 0) !! "filesize" = None
  /\ (heap after_audio !!! 0) !! "filesize" = Some (PStr "N/A")
  /\ heap after_audio <> heap (fetched clip).
Proof.
  split; [exact clip_fetch|]. split; [left; reflexivity|].
  split; [vm_compute; reflexivity|]. split; [vm_compute; reflexivity|].
  assert (Hafter : (heap after_audio !!! 0) !! "filesize" = Some (PStr "N/A"))
    by (vm_compute; reflexivity).
  split; [exact Hafter|].
  intros Heq. rewrite Heq in Hafter. vm_compute in Hafter. discriminate.
Qed.

Lemma selectors_rewrite_their_candidates_witness :
  (heap (snd (pick_yt_audio_format (env 2 2 0 (probe_ok clip)) [0] (Some "best")
                (fetched clip))) !!! 0
   = audio_row (heap (fetched clip) !!! 0)
   /\ audio_row (heap (fetched clip) !!! 0) !! "filesize" = Some (PStr "N/A"))
  /\ (format_wxh (heap (fetched clip) !!! 1) = Ok "1920x1080"
      /\ (exists selected,
            fst (pick_yt_video_format (env 2 2 0 (probe_ok clip)) [1] (Some "best")
                   (fetched clip)) = Ok selected)
      /\ heap (snd (pick_yt_video_format (env 2 2 0 (probe_ok clip)) [1]
                      (Some "best") (fetched clip))) !!! 1
         = video_row (heap (fetched clip) !!! 1) "1920x1080")
  /\ ((heap (fetched narrow) !!! 0) !! "width" = None
      /\ (exists key,
            fst (pick_yt_video_format (env 0 2 0 (probe_ok narrow)) [0] (Some "best")
                   (fetched narrow)) = Raise (KeyError key))
      /\ heap (snd (pick_yt_video_format (env 0 2 0 (probe_ok narrow)) [0]
                      (Some "best") (fetched narrow))) !!! 0
         = video_row_quantities (heap (fetched narrow) !!! 0)).
Proof.
  assert (Hin0 : forall l, In l [0] -> l < length (heap (fetched clip)))
    by (intros l [<-|[]]; vm_compute; lia).
  assert (Hin1 : forall l, In l [1] -> l < length (heap (fetched clip)))
    by (intros l [<-|[]]; vm_compute; lia).
  assert (Hin : forall l, In l [0] -> l < length (heap (fetched narrow)))
    by (intros l [<-|[]]; vm_compute; lia).
  assert (Hwxh : format_wxh (heap (fetched clip) !!! 1) = Ok "1920x1080")
    by (vm_compute; reflexivity).
  assert (Hmiss : (heap (fetched narrow) !!! 0) !! "width" = None)
    by (vm_compute; reflexivity).
  split; [|split].
  - destruct (selectors_rewrite_their_candidates (env 2 2 0 (probe_ok clip)) [0]
                (Some "best") (metadata clip_formats) (fetched clip)
                (NoDup_singleton 0) Hin0) as [[Hat _] _].
    split; [apply Hat; by left|]. vm_compute. reflexivity.
  - destruct (selectors_rewrite_their_candidates (env 2 2 0 (probe_ok clip)) [1]
                (Some "best") (metadata clip_formats) (fetched clip)
                (NoDup_singleton 1) Hin1) as [_ [(_ & Hsized & _) _]].
    destruct Hsized as [Hret Hat].
    { intros l [<-|[]]. split; vm_compute; eexists; reflexivity. }
    split; [exact Hwxh|]. split; [exact Hret|]. apply Hat; [by left|exact Hwxh].
  - destruct (selectors_rewrite_their_candidates (env 0 2 0 (probe_ok narrow)) [0]
                (Some "best") (metadata clip_formats) (fetched narrow)
                (NoDup_singleton 0) Hin) as [_ [(_ & _ & Hsplit) _]].
    destruct (Hsplit [] 0 [] eq_refl) as (Hret & _ & Hstop & _).
    { intros l []. }
    { left. exact Hmiss. }
    split; [exact Hmiss|]. split; [exact Hret|exact Hstop].
Defined.

(** An audio format with a tagged id is in the record, has an audio
    codec, and is no audio candidate (C4 as stated). *)
Lemma tagged_audio_format_is_dropped :
  request_ytdlp_metadata (env 0 0 0 (probe_ok tagged)) url start
    = (Ok tagged_formats, fetched tagged)
  /\ In 0 (md_formats (metadata tagged_formats))
  /\ (heap (fetched tagged) !!! 0) !! "acodec" = Some (PStr "mp4a.40.2")
  /\ has_audio (heap (fetched tagged) !!! 0) = true
  /\ ~ In 0 (audio tagged_formats).
Proof.
  split; [exact tagged_fetch|]. split; [left; reflexivity|].
  split; [vm_compute; reflexivity|]. split; [vm_compute; reflexivity|].
  simpl. tauto.
Qed.

Lemma acodec_audio_when_digit_id_witness :
  request_ytdlp_metadata (env 0 0 0 (probe_ok clip)) url start
    = (Ok clip_formats, fetched clip)
  /\ In 0 (md_formats (metadata clip_formats))
  /\ has_audio (heap (fetched clip) !!! 0) = true
  /\ (In 0 (audio clip_formats) <-> digit_id (heap (fetched clip) !!! 0) = true)
  /\ ~ In 0 (video clip_formats).
Proof.
  assert (Hl : In 0 (md_formats (metadata clip_formats))) by (left; reflexivity).
  assert (Ha : has_audio (heap (fetched clip) !!! 0) = true)
    by (vm_compute; reflexivity).
  exact (conj clip_fetch (conj Hl (conj Ha
    (acodec_audio_when_digit_id (env 0 0 0 (probe_ok clip)) url start (fetched clip)
       clip_formats 0 clip_fetch Hl Ha)))).
Defined.

(** A format whose id is not all digits, for its leading blank, is an
    audio candidate (C5 as stated). *)
Lemma padded_id_is_kept :
  request_ytdlp_metadata (env 0 0 0 (probe_ok padded)) url start
    = (Ok padded_formats, fetched padded)
  /\ In 0 (md_formats (metadata padded_formats))
  /\ (heap (fetched padded) !!! 0) !! "format_id" = Some (PStr " 140")
  /\ PyStr.isdigit " 140" = false
  /\ In 0 (audio padded_formats).
Proof.
  split; [exact padded_fetch|]. split; [left; reflexivity|].
  split; [vm_compute; reflexivity|]. split; [vm_compute; reflexivity|].
  left. reflexivity.
Qed.

Lemma non_digit_id_excluded_witness :
  request_ytdlp_metadata (env 0 0 0 (probe_ok tagged)) url start
    = (Ok tagged_formats, fetched tagged)
  /\ In 0 (md_formats (metadata tagged_formats))
  /\ digit_id (heap (fetched tagged) !!! 0) = false
  /\ ~ In 0 (audio tagged_formats) /\ ~ In 0 (video tagged_formats).
Proof.
  assert (Hl : In 0 (md_formats (metadata tagged_formats))) by (left; reflexivity).
  assert (Hid : digit_id (heap (fetched tagged) !!! 0) = false)
    by (vm_compute; reflexivity).
  exact (conj tagged_fetch (conj Hl (conj Hid
    (non_digit_id_excluded (env 0 0 0 (probe_ok tagged)) url start (fetched tagged)
       tagged_formats 0 tagged_fetch Hl Hid)))).
Defined.

(** A thumbnail whose resolution is there, and empty, is no thumbnail
    candidate (C6 as stated). *)
Lemma empty_resolution_is_dropped :
  request_ytdlp_metadata (env 0 0 0 (probe_ok thumbs)) url start
    = (Ok thumbs_formats, fetched thumbs)
  /\ In 0 (md_thumbnails (metadata thumbs_formats))
  /\ (heap (fetched thumbs) !!! 0) !! "resolution" = Some (PStr "")
  /\ ~ In 0 (image thumbs_formats).
Proof.
  split; [exact thumbs_fetch|]. split; [left; reflexivity|].
  split; [vm_compute; reflexivity|].
  simpl. intros [Heq|[]]. discriminate.
Qed.

Lemma thumbnail_candidate_iff_truthy_witness :
  request_ytdlp_metadata (env 0 0 0 (probe_ok thumbs)) url start
    = (Ok thumbs_formats, fetched thumbs)
  /\ In 1 (md_thumbnails (metadata thumbs_formats))
  /\ (In 1 (image thumbs_formats)
      <-> truthy (get (heap (fetched thumbs) !!! 1) "resolution") = true).
Proof.
  assert (Hl : In 1 (md_thumbnails (metadata thumbs_formats)))
    by (right; left; reflexivity).
  exact (conj thumbs_fetch (conj Hl
    (proj1 (thumbnail_candidate_iff_truthy (env 0 0 0 (probe_ok thumbs)) url start
              (fetched thumbs) thumbs_formats 1 thumbs_fetch Hl)))).
Defined.

(** The video line of a descriptor whose [fps] is 30 shows 30 in the
    fps column, a number without any unit (C7 as stated). *)
Lemma present_fps_has_no_unit :
  (heap (fetched rated) !!! 1) !! "fps" = Some (PInt 30)
  /\ rated_video_line = Ok {|
       label := "id: 137    codec: avc1.640028      ext: mp4    format: 1920x1080   bitrate: 500         fps: 30    filesize: N/A       ";
       value := PStr "137"; description := None |}
  /\ plain (heap (fetched rated) !!! 1) "fps" = "30"
  /\ ~ unit_suffixed "30".
Proof.
  split; [vm_compute; reflexivity|]. split; [vm_compute; reflexivity|].
  split; [vm_compute; reflexivity|].
  intros (number & units & Hunits & Htext).
  assert (Hblank : PyStr.contains_char " "%char (quantity_str number units) = true).
  { cbn [quantity_str numerics]. rewrite contains_char_append.
    destruct (String.eqb_spec units ""); [done|].
    rewrite contains_char_append. simpl. apply orb_true_r. }
  rewrite <- Htext in Hblank. vm_compute in Hblank. discriminate.
Qed.

Lemma numeric_columns_witness :
  0 < length (heap (fetched rated)) /\ 1 < length (heap (fetched rated))
  /\ (exists w',
        audio_option 0 (fetched rated) =
        (Ok {| label := "id: " +:+ PyStr.ljust 5 "140"
                 +:+ "  codec: " +:+ PyStr.ljust 10 "mp4a.40.2"
                 +:+ "  ext: " +:+ PyStr.ljust 5 "m4a"
                 +:+ "  lang: " +:+ PyStr.ljust 3 "N/A"
                 +:+ "  bitrate: " +:+ PyStr.ljust 7 (quantity_str (inr 129%Z) "")
                 +:+ "  sample rate: "
                 +:+ PyStr.ljust 10 (quantity_str (inr 44100%Z) "Hz")
                 +:+ "  filesize: " +:+ PyStr.ljust 10 "N/A";
               value := PStr "140"; description := None |}, w'))
  /\ (exists w',
        video_option 1 (fetched rated) =
        (Ok {| label := "id: " +:+ PyStr.ljust 5 "137"
                 +:+ "  codec: " +:+ PyStr.ljust 15 "avc1.640028"
                 +:+ "  ext: " +:+ PyStr.ljust 5 "mp4"
                 +:+ "  format: " +:+ PyStr.ljust 10 "1920x1080"
                 +:+ "  bitrate: " +:+ PyStr.ljust 10 (quantity_str (inr 500%Z) "")
                 +:+ "  fps: " +:+ PyStr.ljust 4 "30"
                 +:+ "  filesize: " +:+ PyStr.ljust 10 "N/A";
               value := PStr "137"; description := None |}, w')).
Proof.
  assert (Hlt0 : 0 < length (heap (fetched rated))) by (vm_compute; lia).
  assert (Hlt1 : 1 < length (heap (fetched rated))) by (vm_compute; lia).
  split; [exact Hlt0|]. split; [exact Hlt1|]. split.
  - destruct (numeric_columns 0 (fetched rated) Hlt0)
      as [(asr_text & w' & Hrun & Hasr) _].
    rewrite (Hasr 44100%Z eq_refl) in Hrun.
    exists w'. exact Hrun.
  - destruct (proj2 (numeric_columns 1 (fetched rated) Hlt1)
                (PInt 1920) (PInt 1080) eq_refl eq_refl)
      as (vbr_text & w' & Hrun & Hvbr).
    rewrite (Hvbr 500%Z eq_refl) in Hrun.
    exists w'. exact Hrun.
Defined.

Lemma probe_failure_is_fatal_witness :
  sp_run (env 0 0 0 failed) (probe_command url) = Ok failed
  /\ returncode failed <> 0%Z
  /\ request_ytdlp_metadata (env 0 0 0 failed) url start
     = (Raise SystemExit, {| heap := []; out := failure_report url failed |})
  /\ main (env 0 0 0 failed) start
     = (Raise SystemExit,
        {| heap := []; out := preamble (env 0 0 0 failed) ++ failure_report url failed |}).
Proof.
  assert (Hrun : sp_run (env 0 0 0 failed) (probe_command url) = Ok failed)
    by reflexivity.
  assert (Hrc : returncode failed <> 0%Z) by discriminate.
  destruct (probe_failure_is_fatal (env 0 0 0 failed) url start failed Hrun Hrc)
    as [Hreq Hmain].
  split; [exact Hrun|]. split; [exact Hrc|]. split; [exact Hreq|].
  apply Hmain; [reflexivity|eexists; reflexivity|eexists; reflexivity|].
  vm_compute. reflexivity.
Defined.

Lemma video_selector_needs_width_and_height_witness :
  (exists selected w',
      pick_yt_video_format (env 0 2 0 (probe_ok clip)) [1] (Some "best") (fetched clip)
      = (Ok selected, w'))
  /\ (heap (fetched narrow) !!! 0) !! "width" = None
  /\ exists key w',
       pick_yt_video_format (env 0 2 0 (probe_ok narrow)) [0] (Some "best")
         (fetched narrow) = (Raise (KeyError key), w')
       /\ (key = "width" \/ key = "height")
       /\ out w' = out (fetched narrow).
Proof.
  assert (Hmiss : (heap (fetched narrow) !!! 0) !! "width" = None)
    by (vm_compute; reflexivity).
  split; [|split; [exact Hmiss|]].
  - apply (proj1 (video_selector_needs_width_and_height (env 0 2 0 (probe_ok clip))
                    [1] (Some "best") (fetched clip))).
    intros l [<-|[]]. split; vm_compute; eexists; reflexivity.
  - apply (proj2 (video_selector_needs_width_and_height (env 0 2 0 (probe_ok narrow))
                    [0] (Some "best") (fetched narrow))).
    exists 0. split; [left; reflexivity|left; exact Hmiss].
Defined.

(** ** Further statements on concrete runs *)

Lemma candidates_partition_witness :
  request_ytdlp_metadata (env 0 0 0 (probe_ok clip)) url start
    = (Ok clip_formats, fetched clip)
  /\ NoDup (audio clip_formats ++ video clip_formats ++ image clip_formats)
  /\ sublist (audio clip_formats) (md_formats (metadata clip_formats))
  /\ sublist (video clip_formats) (md_formats (metadata clip_formats)).
Proof.
  destruct (candidates_partition (env 0 0 0 (probe_ok clip)) url start
              (fetched clip) clip_formats clip_fetch)
    as (Hnd & Ha & Hv & _).
  exact (conj clip_fetch (conj Hnd (conj Ha Hv))).
Defined.


Lemma fetch_stops_at_id_without_strip_witness :
  sp_run (env 0 0 0 (probe_ok numbered)) (probe_command url) = Ok (probe_ok numbered)
  /\ j_formats numbered = Some (map JObject numbered_descriptors)
  /\ forallb str_id numbered_descriptors = false
  /\ request_ytdlp_metadata (env 0 0 0 (probe_ok numbered)) url start =
       (Raise AttributeError,
        {| heap := heap start ++ record_objects numbered;
           out := out start ++ [command_line (probe_command url);
                                ERun (probe_command url)] |}).
Proof.
  assert (Hid : forallb str_id numbered_descriptors = false)
    by (vm_compute; reflexivity).
  split; [reflexivity|]. split; [reflexivity|]. split; [exact Hid|].
  exact (fetch_stops_at_id_without_strip (env 0 0 0 (probe_ok numbered)) url start
           (probe_ok numbered) numbered numbered_descriptors
           eq_refl eq_refl eq_refl eq_refl Hid).
Defined.

Lemma clip_video_sized : sized (heap (fetched clip)) [1].
Proof. intros l [<-|[]]. split; vm_compute; eexists; reflexivity. Defined.

Lemma clip_in_range (l : nat) : In l [0; 1] -> l < length (heap (fetched clip)).
Proof. intros [<-|[<-|[]]]; vm_compute; lia. Defined.

Lemma video_selector_returns_when_sized_witness :
  sized (heap (fetched clip)) [1]
  /\ exists rows selected,
       let options := video_sentinels ++ rows in
       let default_index := default_index_from 0 (video_format CONFIG) options in
       map value rows = format_ids (heap (fetched clip)) [1]
       /\ confirmed (env 0 2 0 (probe_ok clip)) options "Select video" default_index
          = Some selected
       /\ fst (pick_yt_video_format (env 0 2 0 (probe_ok clip)) [1]
                 (video_format CONFIG) (fetched clip)) = Ok (value selected)
       /\ out (snd (pick_yt_video_format (env 0 2 0 (probe_ok clip)) [1]
                      (video_format CONFIG) (fetched clip)))
          = out (fetched clip) ++ [EPick "Select video" options default_index].
Proof.
  exact (conj clip_video_sized
    (video_selector_returns_when_sized (env 0 2 0 (probe_ok clip)) [1]
       (video_format CONFIG) (fetched clip) clip_video_sized)).
Defined.

Lemma audio_menu_lines_witness :
  NoDup [0]
  /\ (forall l, In l [0] -> l < length (heap (fetched clip)))
  /\ let options :=
       audio_sentinels ++ map (fun l => audio_line_of (heap (fetched clip) !!! l)) [0] in
     let default_index := default_index_from 0 (audio_format CONFIG) options in
     out (snd (pick_yt_audio_format (env 2 0 0 (probe_ok clip)) [0]
                 (audio_format CONFIG) (fetched clip)))
     = out (fetched clip) ++ [EPick "Select audio" options default_index].
Proof.
  assert (Hnd : NoDup [0]) by apply NoDup_singleton.
  assert (Hin : forall l, In l [0] -> l < length (heap (fetched clip)))
    by (intros l [<-|[]]; apply clip_in_range; left; reflexivity).
  exact (conj Hnd (conj Hin
    (proj1 (audio_menu_lines (env 2 0 0 (probe_ok clip)) [0] (audio_format CONFIG)
              (fetched clip) Hnd Hin)))).
Defined.

Lemma video_menu_lines_witness :
  NoDup [1]
  /\ (forall l, In l [1] -> l < length (heap (fetched clip)))
  /\ sized (heap (fetched clip)) [1]
  /\ let options :=
       video_sentinels ++ map (fun l => video_line_of (heap (fetched clip) !!! l)) [1] in
     let default_index := default_index_from 0 (video_format CONFIG) options in
     out (snd (pick_yt_video_format (env 0 2 0 (probe_ok clip)) [1]
                 (video_format CONFIG) (fetched clip)))
     = out (fetched clip) ++ [EPick "Select video" options default_index].
Proof.
  assert (Hnd : NoDup [1]) by apply NoDup_singleton.
  assert (Hin : forall l, In l [1] -> l < length (heap (fetched clip)))
    by (intros l [<-|[]]; apply clip_in_range; right; left; reflexivity).
  exact (conj Hnd (conj Hin (conj clip_video_sized
    (proj1 (video_menu_lines (env 0 2 0 (probe_ok clip)) [1] (video_format CONFIG)
              (fetched clip) Hnd Hin clip_video_sized))))).
Defined.

Lemma shipped_defaults_match_no_option_witness :
  (forall l, In l [0] -> digit_id (heap (fetched clip) !!! l) = true)
  /\ exists options,
       out (snd (pick_yt_audio_format (env 2 0 0 (probe_ok clip)) [0]
                   (audio_format CONFIG) (fetched clip)))
       = out (fetched clip) ++ [EPick "Select audio" options 0].
Proof.
  assert (Hid : forall l, In l [0] -> digit_id (heap (fetched clip) !!! l) = true)
    by (intros l [<-|[]]; vm_compute; reflexivity).
  exact (conj Hid
    (proj1 (shipped_defaults_match_no_option (env 2 0 0 (probe_ok clip)) [0]
              (fetched clip) Hid))).
Defined.

Lemma main_stops_before_the_prompt_witness :
  outdir_exists missing_tools = true
  /\ sp_run missing_tools [ffmpeg_bin CONFIG] = Raise FileNotFoundError
  /\ main missing_tools start =
     (Ok tt,
      {| heap := heap start;
         out := out start ++
           [command_line ["cd"; path_str missing_tools (output_dirpath missing_tools)];
            EChdir (path_str missing_tools (output_dirpath missing_tools));
            command_line [ffmpeg_bin CONFIG]; ERun [ffmpeg_bin CONFIG];
            EPrint "ffmpeg not found"] |}).
Proof.
  split; [reflexivity|]. split; [reflexivity|].
  exact (proj1 (proj2 (main_stops_before_the_prompt missing_tools start))
           eq_refl eq_refl).
Defined.

Lemma builder_trace_witness :
  name clip_path <> ""
  /\ format_expression (PStr "140") (PStr "137") = Ok "140+137"
  /\ stem clip_path = "clip"
  /\ let predicted := {| parent := ""; name := "clip.mp4" |} in
     let jpg := {| parent := ""; name := "clip.jpg" |} in
     let command :=
       download_command url "140+137"
         (["--embed-thumbnail"] ++ container_flags false) in
     invocation_builder (env 2 2 1 (probe_ok clip)) url clip_path
       (PStr "140") (PStr "137") (PStr "embed", ["--embed-thumbnail"]) start =
     (Ok tt,
      {| heap := heap start;
         out := out start
                ++ [command_line command; EPopen command; EExists predicted]
                ++ report (env 2 2 1 (probe_ok clip)) (PStr "embed") predicted jpg |}).
Proof.
  assert (Hname : name clip_path <> "") by discriminate.
  split; [exact Hname|]. split; [reflexivity|]. split; [vm_compute; reflexivity|].
  exact (builder_trace (env 2 2 1 (probe_ok clip)) url clip_path
           (PStr "140") (PStr "137") (PStr "embed", ["--embed-thumbnail"]) start
           "140+137" Hname eq_refl).
Defined.

Lemma remux_writes_beside_the_input_witness :
  name clip_path <> ""
  /\ PyStr.contains_char "/"%char (name clip_path) = false
  /\ fst (ffmpeg_remux (env 0 0 0 (probe_ok clip))
            (absolute (env 0 0 0 (probe_ok clip))) clip_path false start)
     = Ok {| parent := ""; name := "clip.remux.webm" |}
  /\ suffix {| parent := ""; name := "clip.remux.webm" |} = ".webm".
Proof.
  assert (Hname : name clip_path <> "") by discriminate.
  assert (Hsep : PyStr.contains_char "/"%char (name clip_path) = false)
    by reflexivity.
  destruct (remux_writes_beside_the_input (env 0 0 0 (probe_ok clip))
              (absolute (env 0 0 0 (probe_ok clip))) clip_path false start
              Hname Hsep) as (Hrun & _ & _ & Hsfx).
  split; [exact Hname|]. split; [exact Hsep|]. split.
  - rewrite Hrun. vm_compute. reflexivity.
  - vm_compute. reflexivity.
Defined.

Lemma clip_lists : lists_of_objects clip clip_descriptors [].
Proof. split; reflexivity. Defined.

Lemma clip_str_ids : forallb str_id clip_descriptors = true.
Proof. vm_compute. reflexivity. Defined.

Lemma clip_record_sized (d : pydict) :
  In d clip_descriptors -> video_descriptor d = true ->
  is_Some (d !! "width") /\ is_Some (d !! "height").
Proof.
  intros [<-|[<-|[]]] Hv.
  - vm_compute in Hv. discriminate Hv.
  - split; vm_compute; eexists; reflexivity.
Defined.

Lemma menus_show_the_record_witness :
  sp_run (env 2 2 0 (probe_ok clip)) (probe_command url) = Ok (probe_ok clip)
  /\ lists_of_objects clip clip_descriptors []
  /\ forallb str_id clip_descriptors = true
  /\ (forall d, In d clip_descriptors -> video_descriptor d = true ->
        is_Some (d !! "width") /\ is_Some (d !! "height"))
  /\ let audio_menu :=
       audio_sentinels
       ++ map audio_line_of (List.filter audio_descriptor clip_descriptors) in
     let video_menu :=
       video_sentinels
       ++ map video_line_of (List.filter video_descriptor clip_descriptors) in
     let audio_default := default_index_from 0 (audio_format CONFIG) audio_menu in
     let video_default := default_index_from 0 (video_format CONFIG) video_menu in
     exists fs w1 a w2 v w3,
       request_ytdlp_metadata (env 2 2 0 (probe_ok clip)) url start = (Ok fs, w1)
       /\ pick_yt_audio_format (env 2 2 0 (probe_ok clip)) (audio fs)
            (audio_format CONFIG) w1 = (Ok (value a), w2)
       /\ pick_yt_video_format (env 2 2 0 (probe_ok clip)) (video fs)
            (video_format CONFIG) w2 = (Ok (value v), w3)
       /\ confirmed (env 2 2 0 (probe_ok clip)) audio_menu "Select audio"
            audio_default = Some a
       /\ confirmed (env 2 2 0 (probe_ok clip)) video_menu "Select video"
            video_default = Some v
       /\ out w3 = out start ++ [command_line (probe_command url);
                                 ERun (probe_command url);
                                 EPick "Select audio" audio_menu audio_default;
                                 EPick "Select video" video_menu video_default].
Proof.
  split; [reflexivity|]. split; [exact clip_lists|]. split; [exact clip_str_ids|].
  split; [exact clip_record_sized|].
  exact (menus_show_the_record (env 2 2 0 (probe_ok clip)) url start
           (probe_ok clip) clip clip_descriptors []
           (audio_format CONFIG) (video_format CONFIG)
           eq_refl eq_refl eq_refl clip_lists clip_str_ids clip_record_sized).
Defined.


Lemma main_aborts_on_unsized_video_witness :
  sp_run (env 0 0 0 (probe_ok narrow))
    (probe_command (entered_url (env 0 0 0 (probe_ok narrow)))) = Ok (probe_ok narrow)
  /\ lists_of_objects narrow [unsized] []
  /\ j_filename narrow = Some clip_path
  /\ video_descriptor unsized = true
  /\ unsized !! "width" = None
  /\ exists key,
       (key = "width" \/ key = "height")
       /\ fst (main (env 0 0 0 (probe_ok narrow)) start) = Raise (KeyError key).
Proof.
  assert (Hlists : lists_of_objects narrow [unsized] []) by (split; reflexivity).
  assert (Hin : In unsized [unsized]) by (left; reflexivity).
  assert (Hvd : video_descriptor unsized = true) by (vm_compute; reflexivity).
  assert (Hw : unsized !! "width" = None) by (vm_compute; reflexivity).
  destruct (main_aborts_on_unsized_video (env 0 0 0 (probe_ok narrow)) start
              (probe_ok narrow) narrow [unsized] [] clip_path unsized eq_refl
              (ex_intro _ _ eq_refl) (ex_intro _ _ eq_refl)
              eq_refl eq_refl eq_refl Hlists eq_refl eq_refl Hin Hvd
              (or_introl Hw))
    as (key & h' & Hkey & Hmain).
  cbv zeta in Hmain.
  split; [reflexivity|]. split; [exact Hlists|]. split; [reflexivity|].
  split; [exact Hvd|].
  split; [exact Hw|]. exists key. split; [exact Hkey|].
  rewrite Hmain. reflexivity.
Defined.

Lemma fetch_stops_on_other_output_witness :
  sp_run (env 0 0 0 (probe_ok no_thumbnails)) (probe_command url)
    = Ok (probe_ok no_thumbnails)
  /\ j_formats no_thumbnails = Some (map JObject clip_descriptors)
  /\ forallb str_id clip_descriptors = true
  /\ j_thumbnails no_thumbnails = None
  /\ request_ytdlp_metadata (env 0 0 0 (probe_ok no_thumbnails)) url start
     = (Raise TypeError,
        {| heap := heap start ++ record_objects no_thumbnails;
           out := out start ++ [command_line (probe_command url);
                                ERun (probe_command url)] |}).
Proof.
  split; [reflexivity|]. split; [reflexivity|]. split; [exact clip_str_ids|].
  split; [reflexivity|].
  exact (proj1 (proj2 (proj2
           (proj2 (proj2
              (fetch_stops_on_other_output (env 0 0 0 (probe_ok no_thumbnails)) url
                 start (probe_ok no_thumbnails) eq_refl eq_refl))
            no_thumbnails eq_refl)))
         clip_descriptors eq_refl clip_str_ids eq_refl).
Defined.

Lemma main_stops_on_incomplete_record_witness :
  outdir_exists (env 0 0 0 (probe_ok no_filename)) = true
  /\ sp_run (env 0 0 0 (probe_ok no_filename))
       (probe_command (entered_url (env 0 0 0 (probe_ok no_filename))))
     = Ok (probe_ok no_filename)
  /\ lists_of_objects no_filename clip_descriptors []
  /\ forallb str_id clip_descriptors = true
  /\ j_filename no_filename = None
  /\ main (env 0 0 0 (probe_ok no_filename)) start =
     (Raise TypeError,
      {| heap := heap start ++ record_objects no_filename;
         out := out start ++ preamble (env 0 0 0 (probe_ok no_filename))
                ++ [command_line
                      (probe_command (entered_url (env 0 0 0 (probe_ok no_filename))));
                    ERun
                      (probe_command
                         (entered_url (env 0 0 0 (probe_ok no_filename))))] |}).
Proof.
  assert (Hlists : lists_of_objects no_filename clip_descriptors [])
    by (split; reflexivity).
  split; [reflexivity|]. split; [reflexivity|]. split; [exact Hlists|].
  split; [exact clip_str_ids|]. split; [reflexivity|].
  exact (proj2 (proj2
           (main_stops_on_incomplete_record (env 0 0 0 (probe_ok no_filename)) start
              (probe_ok no_filename) no_filename eq_refl
              (ex_intro _ _ eq_refl) (ex_intro _ _ eq_refl)
              eq_refl eq_refl eq_refl))
         clip_descriptors [] Hlists clip_str_ids eq_refl).
Defined.
